(** * Berlin Services MCP server: catalog cache, idempotency ledger,
      field matcher and artifact delivery.

    A shallow embedding of [berlin_mcp/services/cache.py], [api_client.py],
    [loop_protector.py], [file_sync.py], [form_logic.py] and of the
    [delete_filled_form] tool of [tools.py], followed by the properties the
    specification states about them.

    Conventions of the embedding.
    - Python [str] is [string]; a value of type [bytes] is a [string] too.
    - An instant ([datetime]) is an integer number of microseconds; a
      duration in seconds is compared with it exactly ([total_seconds]
      returns a float in the source, the model keeps the exact quotient).
    - A [dict] whose enumeration order is observable is an association
      list with distinct keys; the ledger and the manifest, which are only
      looked up by key, are [gmap]s.
    - Exceptions are values of [result]; the [str()] of an exception is the
      string carried by [Raise].
    - Calls into the standard library ([hashlib], [json] escaping,
      [str.lower], [base64], [datetime] formatting, [pathlib]) are the
      fields of [Py.Lib]; the HTTP client and the document engine are the
      fields of [World.Env].  The properties hold for every choice of them,
      except where a hypothesis says what is needed.
    - A file accepts every write unless its path is a directory: the source
      logs and ignores a failed write of the cache file and of the ledger
      file, which leaves the memory state as modelled here.
    - The tools are [async]; a call is modelled as running alone. *)

From Stdlib Require Import ZArith Ascii String.
From stdpp Require Import base decidable option list sorting gmap strings pretty.

#[local] Set Warnings "-register-all".
Local Open Scope Z_scope.
Local Open Scope string_scope.

(** ** Python runtime *)

Module Py.

(** Characters that cannot be written inside a literal. *)
Definition dq : string := String "034"%char EmptyString.
Definition nl : string := String "010"%char EmptyString.

(** [needle in hay] on strings. *)
Fixpoint contains (needle hay : string) : bool :=
  String.prefix needle hay ||
  match hay with
  | EmptyString => false
  | String _ rest => contains needle rest
  end.

(** [s.endswith(suffix)]. *)
Definition endswith (s suffix : string) : bool :=
  String.prefix (String.rev suffix) (String.rev s).

(** [s[:n]]. *)
Definition take (n : nat) (s : string) : string := String.substring 0 n s.

(** [sep.join(parts)]. *)
Fixpoint join (sep : string) (parts : list string) : string :=
  match parts with
  | [] => EmptyString
  | [p] => p
  | p :: rest => p +:+ sep +:+ join sep rest
  end.

(** [x in xs] for a list of strings. *)
Definition mem (x : string) (xs : list string) : bool :=
  bool_decide (x ∈ xs).

(** Insertion-ordered dictionaries with string keys. *)
Fixpoint dict_get {V : Type} (k : string) (d : list (string * V)) : option V :=
  match d with
  | [] => None
  | (k', v) :: rest => if decide (k = k') then Some v else dict_get k rest
  end.

(** [d[k] = v]: an existing key keeps its position. *)
Fixpoint dict_set {V : Type} (k : string) (v : V) (d : list (string * V))
    : list (string * V) :=
  match d with
  | [] => [(k, v)]
  | (k', v') :: rest =>
      if decide (k = k') then (k, v) :: rest else (k', v') :: dict_set k v rest
  end.

Definition keys {V : Type} (d : list (string * V)) : list string := d.*1.

(** The outcome of a call that may raise. *)
Inductive result (A : Type) : Type :=
| Ok (a : A)
| Raise (msg : string).
Arguments Ok {A} a.
Arguments Raise {A} msg.

#[export] Instance result_ret : MRet result := λ A a, Ok a.
#[export] Instance result_bind : MBind result := λ A B f m,
  match m with
  | Ok a => f a
  | Raise msg => Raise msg
  end.

(** A loop whose body may raise. *)
Fixpoint foldlM {A B : Type} (f : A → B → result A) (a : A) (l : list B) : result A :=
  match l with
  | [] => Ok a
  | b :: rest => a' ← f a b; foldlM f a' rest
  end.

(** Parsed JSON, which is also the shape of the Python values the catalog
    code handles ([None] is [JNull]).  Numbers are kept as integers: the
    code only ever tests a number for truthiness. *)
Inductive json : Type :=
| JNull
| JBool (b : bool)
| JNum (n : Z)
| JStr (s : string)
| JArr (items : list json)
| JObj (fields : list (string * json)).

(** [bool(v)]. *)
Definition truthy (v : json) : bool :=
  match v with
  | JNull => false
  | JBool b => b
  | JNum n => negb (Z.eqb n 0)
  | JStr s => negb (String.eqb s EmptyString)
  | JArr items => match items with [] => false | _ => true end
  | JObj fields => match fields with [] => false | _ => true end
  end.

Definition is_list (v : json) : bool :=
  match v with JArr _ => true | _ => false end.

(** The state of a file that holds one serialized value. *)
Inductive file_state (A : Type) : Type :=
| Absent
| Corrupt
| Stored (a : A).
Arguments Absent {A}.
Arguments Corrupt {A}.
Arguments Stored {A} a.

(** Library functions the repository calls and does not define. *)
Record Lib : Type := {
  (** [hashlib.md5(s.encode()).hexdigest()] *)
  md5_hexdigest : string → string;
  (** the characters [json.dumps] writes between the quotes of a string *)
  json_escape : string → string;
  (** [s.lower()] *)
  str_lower : string → string;
  (** [base64.b64encode(b).decode('utf-8')] *)
  b64encode : string → string;
  (** [t.isoformat()] *)
  isoformat : Z → string;
  (** [datetime.fromisoformat(s)], [None] when it raises or when the
      result cannot be subtracted from [datetime.now()] *)
  fromisoformat : string → option Z;
  (** [t.strftime('%H%M%S')] *)
  strftime_HMS : Z → string;
  (** [Path(s).name] *)
  path_name : string → string;
  (** [str(Path(d) / s)] *)
  path_join : string → string → string;
  (** [str(e)] of the [OSError] raised for a path *)
  os_error : string → string
}.

Definition seconds (n : Z) : Z := n * 1000000.

(** [json.dumps(d, sort_keys=True)] for a [Dict[str, str]].  The encoder
    sorts the items; the keys of a dictionary are distinct, so the order of
    the keys decides. *)
Definition key_le (a b : string * string) : Prop := String.le a.1 b.1.

#[export] Instance key_le_dec : RelDecision key_le.
Proof. intros a b. unfold key_le. apply _. Defined.

Definition encode_str (L : Lib) (s : string) : string :=
  dq +:+ json_escape L s +:+ dq.

Definition encode_item (L : Lib) (kv : string * string) : string :=
  encode_str L kv.1 +:+ ": " +:+ encode_str L kv.2.

Definition dumps_sort_keys (L : Lib) (d : list (string * string)) : string :=
  "{" +:+ join ", " (encode_item L <$> merge_sort key_le d) +:+ "}".

End Py.

Import Py.

(** ** services/cache.py *)

Module Cache.

Record CacheManager : Type := {
  ttl : Z;
  _memory_cache : json;
  _memory_timestamp : option Z;
  cache_file : file_state json
}.

(** [CacheManager(cache_file, ttl)] over a given disk state. *)
Definition init (file : file_state json) (ttl : Z) : CacheManager :=
  {| ttl := ttl; _memory_cache := JNull; _memory_timestamp := None;
     cache_file := file |}.

Definition is_valid (now : Z) (c : CacheManager) (timestamp : option Z) : bool :=
  match timestamp with
  | None => false
  | Some t => bool_decide (now - t < seconds (ttl c))
  end.

Definition get_memory (now : Z) (c : CacheManager) : json * bool :=
  if is_valid now c (_memory_timestamp c) then (_memory_cache c, true)
  else (JNull, false).

(** Every exception of the [try] block, a file that does not decode
    included, ends in the final [return None, False]. *)
Definition get_disk (L : Lib) (now : Z) (c : CacheManager) : json * bool :=
  match cache_file c with
  | Absent => (JNull, false)
  | Corrupt => (JNull, false)
  | Stored (JObj cached) =>
      match default (JStr EmptyString) (dict_get "_timestamp" cached) with
      | JStr text =>
          match fromisoformat L text with
          | Some t =>
              if is_valid now c (Some t) then
                match dict_get "data" cached with
                | Some data => (data, true)
                | None => (JNull, false)
                end
              else (JNull, false)
          | None => (JNull, false)
          end
      | _ => (JNull, false)
      end
  | Stored _ => (JNull, false)
  end.

Definition set (L : Lib) (now : Z) (data : json) (c : CacheManager) : CacheManager :=
  {| ttl := ttl c;
     _memory_cache := data;
     _memory_timestamp := Some now;
     cache_file :=
       Stored (JObj [("data", data); ("_timestamp", JStr (isoformat L now))]) |}.

Definition clear (c : CacheManager) : CacheManager :=
  {| ttl := ttl c; _memory_cache := JNull; _memory_timestamp := None;
     cache_file := Absent |}.

End Cache.

(** ** services/api_client.py *)

Module ApiClient.
Import Cache.

Definition CACHE_DURATION_SECONDS : Z := 3600.

(** [_cache = CacheManager(CACHE_FILE, CACHE_DURATION_SECONDS)], over the
    cache file the process finds. *)
Definition _cache (file : file_state json) : CacheManager :=
  init file CACHE_DURATION_SECONDS.

Definition fallback_service (id name description keywords url fees : string) : json :=
  JObj [("id", JStr id); ("name", JStr name); ("description", JStr description);
        ("meta", JObj [("keywords", JStr keywords); ("url", JStr url)]);
        ("fees", JStr fees); ("onlineservices", JArr []); ("locations", JArr []);
        ("requirements", JArr []); ("forms", JArr [])].

(** [created] is the instant the module was imported. *)
Definition FALLBACK_DATA (L : Lib) (created : Z) : json :=
  JObj [("data", JArr [
           fallback_service "120686" "Anmeldung einer Wohnung"
             "Registration of residence" "anmeldung,wohnung"
             "https://service.berlin.de/dienstleistung/120686/" "EUR 0.00";
           fallback_service "121468" "Reisepass (Passport)"
             "Application for German passport" "reisepass,passport"
             "https://service.berlin.de/dienstleistung/121468/" "EUR 60.00";
           fallback_service "120335" "Führerschein"
             "Driver's license" "führerschein,driver"
             "https://service.berlin.de/dienstleistung/120335/" "EUR 43.00"]);
        ("created", JStr (isoformat L created));
        ("hash", JStr "fallback_v1")].

(** [data.get("data") and isinstance(data["data"], list)]; a response that
    is not an object has no [get], and the call raises. *)
Definition payload_ok (data : json) : result bool :=
  match data with
  | JObj fields =>
      match dict_get "data" fields with
      | Some d => Ok (truthy d && is_list d)
      | None => Ok false
      end
  | _ => Raise "object has no attribute 'get'"
  end.

(** The [try] block around the live request.  [response] is what the
    request produced: the decoded body, or the exception of the request, of
    the status check or of the decoder. *)
Definition try_live (response : result json) : option json :=
  match response with
  | Ok data =>
      match payload_ok data with
      | Ok true => Some data
      | Ok false => None
      | Raise _ => None
      end
  | Raise _ => None
  end.

Definition fetch_services_data (L : Lib) (created now : Z) (response : result json)
    (force_refresh : bool) (c : CacheManager) : CacheManager * (json * string) :=
  let memory := get_memory now c in
  if negb force_refresh && memory.2 then (c, (memory.1, "memory"))
  else
    match try_live response with
    | Some data => (set L now data c, (data, "live"))
    | None =>
        let disk := get_disk L now c in
        if negb force_refresh && truthy disk.1 then (c, (disk.1, "disk"))
        else (c, (FALLBACK_DATA L created, "fallback"))
    end.

End ApiClient.

(** ** services/loop_protector.py *)

Module LoopProtector.

(** One stored value [(timestamp, path, file_id)]. *)
Record entry : Type := {
  timestamp : string;
  path : string;
  file_id : string
}.

Record protector : Type := {
  (** the content of the file at [file_path] *)
  ledger_file : file_state (gmap string entry);
  hashes : gmap string entry
}.

Definition DAY : Z := seconds 86400.

(** The condition of the comprehension in [_load]; [None] when it raises. *)
Definition recent (L : Lib) (now : Z) (v : entry) : option bool :=
  match fromisoformat L (timestamp v) with
  | Some t => Some (bool_decide (now - t < DAY))
  | None => None
  end.

(** An exception raised for any one item leaves the [try] block, and the
    result is the empty dictionary. *)
Definition _load (L : Lib) (now : Z) (file : file_state (gmap string entry))
    : gmap string entry :=
  match file with
  | Absent => ∅
  | Corrupt => ∅
  | Stored data =>
      if decide (map_Forall (λ _ v, is_Some (recent L now v)) data)
      then filter (λ kv, recent L now kv.2 = Some true) data
      else ∅
  end.

(** [LoopProtector(file_path)], run at instant [now]. *)
Definition init (L : Lib) (now : Z) (file : file_state (gmap string entry)) : protector :=
  {| ledger_file := file; hashes := _load L now file |}.

Definition save (L : Lib) (now : Z) (key path file_id : string) (p : protector)
    : protector :=
  let hashes' :=
    <[key := {| timestamp := isoformat L now; path := path; file_id := file_id |}]>
      (hashes p) in
  {| ledger_file := Stored hashes'; hashes := hashes' |}.

Definition check (key : string) (p : protector) : option (string * string) :=
  match hashes p !! key with
  | Some v => Some (path v, file_id v)
  | None => None
  end.

End LoopProtector.

(** ** services/file_sync.py *)

Module FileSync.

Record manifest_entry : Type := {
  m_path : string;
  m_size : Z;
  m_remote_url : string;
  m_created_at : string
}.

Record RemoteFileSyncManager : Type := {
  remote_api_url : string;
  manifest : gmap string manifest_entry
}.

Definition register_file (L : Lib) (now : Z) (file_id file_path : string)
    (file_size : Z) (m : RemoteFileSyncManager) : RemoteFileSyncManager :=
  {| remote_api_url := remote_api_url m;
     manifest :=
       <[file_id := {| m_path := file_path;
                       m_size := file_size;
                       m_remote_url := remote_api_url m +:+ "/files/" +:+ file_id;
                       m_created_at := isoformat L now |}]> (manifest m) |}.

End FileSync.

(** ** The document engine, the file system and the process state *)

Module World.

Inductive widget_type : Type :=
| PDF_WIDGET_TYPE_UNKNOWN
| PDF_WIDGET_TYPE_BUTTON
| PDF_WIDGET_TYPE_CHECKBOX
| PDF_WIDGET_TYPE_COMBOBOX
| PDF_WIDGET_TYPE_LISTBOX
| PDF_WIDGET_TYPE_RADIOBUTTON
| PDF_WIDGET_TYPE_SIGNATURE
| PDF_WIDGET_TYPE_TEXT.

#[export] Instance widget_type_eq_dec : EqDecision widget_type.
Proof. solve_decision. Defined.

(** A form field.  An empty [field_name] or [field_label] stands for
    [None] as well: the code only tests them for truthiness. *)
Record widget : Type := {
  field_name : string;
  field_label : string;
  field_type : widget_type;
  field_value : string
}.

(** An open document: its widgets, page after page. *)
Abbreviation document := (list widget) (only parsing).

Definition set_field_value (value : string) (w : widget) : widget :=
  {| field_name := field_name w; field_label := field_label w;
     field_type := field_type w; field_value := value |}.

Inductive node : Type :=
| File (content : string)
| Dir (st_size : Z).

Definition node_size (n : node) : Z :=
  match n with
  | File content => Z.of_nat (String.length content)
  | Dir st_size => st_size
  end.

(** [config.py]. *)
Record Config : Type := {
  FORMS_CACHE_DIR : string;
  FILLED_FORMS_DIR : string;
  IS_REMOTE : bool;
  IS_CLOUD : bool
}.

(** The collaborators outside the process: the server behind a form URL,
    the document engine, and the order in which a [set] of strings is
    enumerated. *)
Record Env : Type := {
  http_get : string → result string;
  fitz_open : string → result document;
  fitz_save : document → bool → bool → result string;
  set_iter : gset string → list string
}.

(** The state of the process.  [now] is the clock: the readings made
    during one call are taken to be equal, and the clock may show any other
    instant at the next call. *)
Record World : Type := {
  now : Z;
  fs : gmap string node;
  _protector : LoopProtector.protector;
  _file_sync : FileSync.RemoteFileSyncManager
}.

Definition with_fs (fs' : gmap string node) (w : World) : World :=
  {| now := now w; fs := fs'; _protector := _protector w; _file_sync := _file_sync w |}.

Definition with_protector (p : LoopProtector.protector) (w : World) : World :=
  {| now := now w; fs := fs w; _protector := p; _file_sync := _file_sync w |}.

Definition with_file_sync (m : FileSync.RemoteFileSyncManager) (w : World) : World :=
  {| now := now w; fs := fs w; _protector := _protector w; _file_sync := m |}.

(** File operations. *)
Definition exists_ (fs : gmap string node) (p : string) : bool :=
  bool_decide (is_Some (fs !! p)).

Definition read_bytes (L : Lib) (fs : gmap string node) (p : string) : result string :=
  match fs !! p with
  | Some (File content) => Ok content
  | Some (Dir _) => Raise (os_error L p)
  | None => Raise (os_error L p)
  end.

(** A write to a file below one of the directories of [config.py], which
    makes them when it is imported: refused when the path is a directory.
    A path whose parent directory is missing is not told apart here; in a
    run the failure of [open] or of [doc.save] on such a path is a request
    or a save that raises ([http_get], [fitz_save]), and no property
    below says that a write succeeds. *)
Definition write_bytes (L : Lib) (fs : gmap string node) (p content : string)
    : result (gmap string node) :=
  match fs !! p with
  | Some (Dir _) => Raise (os_error L p)
  | _ => Ok (<[p := File content]> fs)
  end.

Definition unlink (L : Lib) (fs : gmap string node) (p : string)
    : result (gmap string node) :=
  match fs !! p with
  | Some (File _) => Ok (delete p fs)
  | Some (Dir _) => Raise (os_error L p)
  | None => Raise (os_error L p)
  end.

(** Computations that read and change the process state and may raise. *)
Definition M (A : Type) : Type := World → World * result A.

#[export] Instance M_ret : MRet M := λ A a w, (w, Ok a).
#[export] Instance M_bind : MBind M := λ A B f m w,
  match m w with
  | (w', Ok a) => f a w'
  | (w', Raise msg) => (w', Raise msg)
  end.

Definition lift {A : Type} (r : result A) : M A := λ w, (w, r).
Definition get_world : M World := λ w, (w, Ok w).
Definition modify (f : World → World) : M unit := λ w, (f w, Ok tt).

End World.

(** ** services/form_logic.py: the field matcher *)

Module Matcher.
Import World.

(** [if widget.field_name:] *)
Definition named (w : widget) : bool :=
  negb (String.eqb (field_name w) EmptyString).

Definition is_checkbox (w : widget) : bool :=
  bool_decide (field_type w = PDF_WIDGET_TYPE_CHECKBOX).

(** [widget_map]: field name to widget, a later widget replacing an earlier
    one of the same name.  A widget is designated by its position in the
    document. *)
Definition widget_map (doc : document) : gmap string nat :=
  foldl (λ m iw, if named iw.2 then <[field_name iw.2 := iw.1]> m else m)
        ∅ (imap pair doc).

Definition COMMON_MAPPINGS : list (string * list string) :=
  [("männlich", ["geschlecht"]); ("weiblich", ["geschlecht"]);
   ("divers", ["geschlecht"]); ("ledig", ["familienstand"]);
   ("einzugsdatum", ["tag des einzugs"]);
   ("postleitzahl", ["plz"; "postleitzahl"]);
   ("straße", ["strasse"; "straße"])].

(** One call of [w.update()] after an assignment to [w.field_value]. *)
Record update : Type := {
  exact_pass : bool;
  u_key : string;
  u_index : nat;
  u_value : string
}.

Record fill_state : Type := {
  doc : document;
  filled_count : nat;
  unmatched_keys : gset string;
  matched_fields_info : list (string * string);
  updates : list update
}.

(** The bookkeeping after an assignment, the same in both passes.  [doc]
    holds the widget objects of the list [widgets] with the value last
    assigned to each: the assignment [w.field_value = ...] changes the one
    object.  What [w.update()] then writes into the file, for this widget
    and for the widgets that share its field, is the engine's and is not
    part of this state; [updates] keeps the calls in their order. *)
Definition assign (exact : bool) (key : string) (i : nat) (w : widget)
    (value : string) (st : fill_state) : fill_state :=
  {| doc := <[i := set_field_value value w]> (doc st);
     filled_count := S (filled_count st);
     unmatched_keys := unmatched_keys st ∖ {[key]};
     matched_fields_info := dict_set key (field_name w) (matched_fields_info st);
     updates := updates st ++
       [{| exact_pass := exact; u_key := key; u_index := i; u_value := value |}] |}.

(** [field_data[key]]. *)
Definition getitem (field_data : list (string * string)) (key : string) : result string :=
  match dict_get key field_data with
  | Some v => Ok v
  | None => Raise ("'" +:+ key +:+ "'")
  end.

(** Pass 1: the value written to a widget whose name is the key. *)
Definition exact_value (L : Lib) (w : widget) (val : string) : string :=
  if is_checkbox w then
    if mem (str_lower L val) ["yes"; "true"; "1"; "on"; "x"] then "Yes" else "Off"
  else val.

Definition exact_step (L : Lib) (field_data : list (string * string))
    (wmap : gmap string nat) (st : fill_state) (key : string) : result fill_state :=
  match wmap !! key with
  | Some i =>
      match doc st !! i with
      | Some w =>
          val ← getitem field_data key;
          Ok (assign true key i w (exact_value L w val) st)
      | None => Ok st (* no such position: [wmap] indexes the document *)
      end
  | None => Ok st
  end.

(** Pass 2: the test made on each widget in turn. *)
Definition fuzzy_match (L : Lib) (k_low : string) (w : widget) : bool :=
  let name_low := str_lower L (field_name w) in
  let label_low := str_lower L (field_label w) in
  if contains k_low name_low || contains k_low label_low then true
  else
    match dict_get k_low COMMON_MAPPINGS with
    | Some frags =>
        existsb (λ frag, contains frag name_low || contains frag label_low) frags
    | None => false
    end.

Definition fuzzy_value (L : Lib) (w : widget) (val : string) : string :=
  if is_checkbox w then
    let name_low := str_lower L (field_name w) in
    let is_checked :=
      mem (str_lower L val) ["yes"; "true"; "x"] || contains (str_lower L val) name_low in
    if is_checked then "Yes" else "Off"
  else val.

Definition fuzzy_step (L : Lib) (field_data : list (string * string))
    (st : fill_state) (key : string) : result fill_state :=
  let k_low := str_lower L key in
  match list_find (λ w, named w && fuzzy_match L k_low w) (doc st) with
  | Some (i, w) =>
      val ← getitem field_data key;
      Ok (assign false key i w (fuzzy_value L w val) st)
  | None => Ok st
  end.

(** Both passes.  Each loop runs over a list made from the set of
    unmatched keys before the loop starts.  The only exception of the
    passes that is followed here is the [KeyError] of [field_data[key]];
    an exception raised inside the engine by [w.update()] is not, so that
    a result [Ok] stands for a run in which the engine accepted every
    assignment, and no property below says that the passes end. *)
Definition match_and_fill (L : Lib) (E : Env) (field_data : list (string * string))
    (d : document) : result fill_state :=
  let st0 := {| doc := d; filled_count := 0;
                unmatched_keys := list_to_set (keys field_data);
                matched_fields_info := []; updates := [] |} in
  st1 ← foldlM (exact_step L field_data (widget_map d)) st0
               (set_iter E (unmatched_keys st0));
  foldlM (fuzzy_step L field_data) st1 (set_iter E (unmatched_keys st1)).

End Matcher.

(** ** services/form_logic.py: the fill orchestrator *)

Module FormLogic.
Import World Matcher.

(** The dictionaries [perform_form_filling_logic] returns, one constructor
    for each [return].  The [telemetry] entry (timings) is left out. *)
Inductive fill_result : Type :=
| AlreadyCompleted (saved_path filename file_id instructions : string)
    (sync_resource : option string)
| Completed (success : bool) (message filename saved_path file_id : string)
    (field_mappings : list (string * string)) (is_remote : bool)
    (unmatched_fields : list string) (instructions : string)
    (sync_resource : option string)
| Failed (error : string).

Definition success (r : fill_result) : bool :=
  match r with
  | AlreadyCompleted _ _ _ _ _ => true
  | Completed s _ _ _ _ _ _ _ _ _ => s
  | Failed _ => false
  end.

Definition status (r : fill_result) : option string :=
  match r with
  | AlreadyCompleted _ _ _ _ _ => Some "ALREADY_COMPLETED"
  | Completed _ _ _ _ _ _ _ _ _ _ => Some "COMPLETED"
  | Failed _ => None
  end.

Definition message (r : fill_result) : option string :=
  match r with
  | AlreadyCompleted _ _ _ _ _ =>
      Some "Form was already filled. Skipping re-execution to prevent tool loop."
  | Completed _ m _ _ _ _ _ _ _ _ => Some m
  | Failed _ => None
  end.

Definition result_saved_path (r : fill_result) : option string :=
  match r with
  | AlreadyCompleted p _ _ _ _ => Some p
  | Completed _ _ _ p _ _ _ _ _ _ => Some p
  | Failed _ => None
  end.

Definition result_file_id (r : fill_result) : option string :=
  match r with
  | AlreadyCompleted _ _ i _ _ => Some i
  | Completed _ _ _ _ i _ _ _ _ _ => Some i
  | Failed _ => None
  end.

Definition result_field_mappings (r : fill_result) : option (list (string * string)) :=
  match r with
  | Completed _ _ _ _ _ m _ _ _ _ => Some m
  | _ => None
  end.

Definition result_error (r : fill_result) : option string :=
  match r with
  | Failed e => Some e
  | _ => None
  end.

(** The fingerprint of a request. *)
Definition request_key (L : Lib) (form_url : string)
    (field_data : list (string * string)) : string :=
  let data_str := dumps_sort_keys L field_data in
  md5_hexdigest L (form_url +:+ ":" +:+ data_str).

Definition sync_uri (file_id : string) : string :=
  "berlin://files/sync/" +:+ file_id.

Definition short_circuit (L : Lib) (C : Config) (last_path last_file_id : string)
    : fill_result :=
  let filename := path_name L last_path in
  let instructions :=
    "The task is ALREADY finished. " +:+
    (if IS_REMOTE C then
       "Access the previous result via '" +:+ sync_uri last_file_id +:+
       "' or 'berlin://forms/" +:+ filename +:+ "'. "
     else "Document is already at " +:+ last_path +:+ ".") in
  AlreadyCompleted last_path filename last_file_id
    (instructions +:+ " DO NOT run this tool again.")
    (if IS_REMOTE C then Some (sync_uri last_file_id) else None).

(** The form behind [form_url], fetched once and kept under the hash of
    the URL. *)
Definition acquire_document (L : Lib) (C : Config) (E : Env) (form_url : string)
    : M string :=
  let url_hash := md5_hexdigest L form_url in
  let input_path := path_join L (FORMS_CACHE_DIR C) (url_hash +:+ ".pdf") in
  w ← get_world;
  if exists_ (fs w) input_path then mret input_path
  else
    content ← lift (http_get E form_url);
    fs' ← lift (write_bytes L (fs w) input_path content);
    _ ← modify (with_fs fs');
    mret input_path.

Definition output_name (L : Lib) (now : Z) (output_filename : option string) : string :=
  let generated := "filled_" +:+ strftime_HMS L now +:+ ".pdf" in
  let name :=
    match output_filename with
    | Some n => if String.eqb n EmptyString then generated else n
    | None => generated
    end in
  if endswith name ".pdf" then name else name +:+ ".pdf".

Definition completed_instructions (C : Config) (output_filename saved_path file_id : string)
    : string :=
  if IS_REMOTE C then
    " REMOTE SERVER DETECTED!" +:+ nl +:+ nl +:+
    "1. Retrieve your file using logic: 'read_resource(" +:+ dq +:+ sync_uri file_id +:+
    dq +:+ ")' or 'download_filled_form(filename=" +:+ dq +:+ output_filename +:+ dq +:+
    ")'." +:+ nl +:+
    "2. IMPORTANT: After verifying the file, call 'delete_filled_form(filename=" +:+ dq +:+
    output_filename +:+ dq +:+ ")' to wipe sensitive data from the remote server."
  else
    " LOCAL SERVER DETECTED!" +:+ nl +:+ nl +:+
    "File saved to: " +:+ saved_path +:+ nl +:+
    " Run 'open_file_locally(file_path=" +:+ dq +:+ saved_path +:+ dq +:+
    ")' to open it now.".

Definition completed (C : Config) (E : Env) (st : fill_state)
    (output_filename saved_path file_id : string) : fill_result :=
  let matched := bool_decide (0 < filled_count st)%nat in
  Completed matched
    (if matched then
       "Form filling process finished. " +:+ pretty (filled_count st) +:+
       " fields matched and filled."
     else "Form processed but no fields were matched.")
    output_filename saved_path file_id (matched_fields_info st) (IS_REMOTE C)
    (set_iter E (unmatched_keys st))
    (completed_instructions C output_filename saved_path file_id)
    (if IS_REMOTE C then Some (sync_uri file_id) else None).

(** The body of the [try] block.  The directories of [config.py] are
    absolute, so [Path.absolute] changes nothing. *)
Definition fill_pipeline (L : Lib) (C : Config) (E : Env) (key form_url : string)
    (field_data : list (string * string)) (output_filename : option string)
    (total_start : Z) : M fill_result :=
  input_path ← acquire_document L C E form_url;
  w ← get_world;
  let output_filename := output_name L (now w) output_filename in
  let final_output_path := path_join L (FILLED_FORMS_DIR C) output_filename in
  content ← lift (read_bytes L (fs w) input_path);
  opened ← lift (fitz_open E content);
  st ← lift (match_and_fill L E field_data opened);
  saved ← lift (fitz_save E (doc st) (IS_REMOTE C) (IS_REMOTE C));
  fs' ← lift (write_bytes L (fs w) final_output_path saved);
  _ ← modify (with_fs fs');
  let file_size := Z.of_nat (String.length saved) in
  let file_id :=
    take 12 (md5_hexdigest L (output_filename +:+ ":" +:+ isoformat L total_start)) in
  _ ← modify (λ w, with_file_sync
        (FileSync.register_file L (now w) file_id final_output_path file_size
           (_file_sync w)) w);
  _ ← modify (λ w, with_protector
        (LoopProtector.save L (now w) key final_output_path file_id (_protector w)) w);
  mret (completed C E st output_filename final_output_path file_id).

Definition perform_form_filling_logic (L : Lib) (C : Config) (E : Env)
    (form_url : string) (field_data : list (string * string))
    (output_filename : option string) (flatten force_recompute : bool)
    (w : World) : World * fill_result :=
  let key := request_key L form_url field_data in
  match LoopProtector.check key (_protector w), force_recompute with
  | Some (last_path, last_file_id), false =>
      (w, short_circuit L C last_path last_file_id)
  | _, _ =>
      match field_data with
      | [] => (w, Failed "No field data provided.")
      | _ :: _ =>
          match fill_pipeline L C E key form_url field_data output_filename (now w) w with
          | (w', Ok r) => (w', r)
          | (w', Raise e) =>
              (w', Failed ("Internal error during form filling: " +:+ e))
          end
      end
  end.

End FormLogic.

(** ** services/form_logic.py: delivery of a filled form *)

Module Delivery.
Import World.

Definition SAFE_THRESHOLD : Z := 200 * 1024.

(** The dictionaries [download_filled_form_logic] returns, one constructor
    for each [return]; [content_base64] is absent from a preview. *)
Inductive download_result : Type :=
| DownloadFailed (error : string)
| Local (filename : string) (size_bytes : Z) (saved_path message instructions : string)
| Ready (filename : string) (size_bytes : Z) (field_preview : list (string * string))
    (warning message instructions : string)
| Retrieved (filename : string) (field_preview : list (string * string))
    (size_bytes : Z) (message instructions : string) (content_base64 : option string).

Definition download_success (r : download_result) : bool :=
  match r with
  | DownloadFailed _ => false
  | _ => true
  end.

Definition content_base64 (r : download_result) : option string :=
  match r with
  | Retrieved _ _ _ _ _ c => c
  | _ => None
  end.

Definition download_instructions (r : download_result) : option string :=
  match r with
  | DownloadFailed _ => None
  | Local _ _ _ _ i => Some i
  | Ready _ _ _ _ _ i => Some i
  | Retrieved _ _ _ _ i _ => Some i
  end.

(** The values of the filled fields; an engine that cannot open the file
    leaves the summary empty. *)
Definition field_summary (L : Lib) (E : Env) (fs : gmap string node) (p : string)
    : list (string * string) :=
  match read_bytes L fs p ≫= fitz_open E with
  | Ok d =>
      foldl (λ summary w,
               if String.eqb (field_value w) EmptyString then summary
               else dict_set (field_name w) (field_value w) summary)
            [] d
  | Raise _ => []
  end.

Definition download_filled_form_logic (L : Lib) (C : Config) (E : Env)
    (filename : string) (delete_after_read : option bool)
    (only_preview ignore_size_limit : bool) (w : World) : World * download_result :=
  let delete_after_read := default (IS_CLOUD C) delete_after_read in
  let delete_after_read := if only_preview then false else delete_after_read in
  let safe_filename := path_name L filename in
  let file_path := path_join L (FILLED_FORMS_DIR C) safe_filename in
  match fs w !! file_path with
  | None => (w, DownloadFailed ("File '" +:+ filename +:+ "' not found on server."))
  | Some entry =>
      let file_size := node_size entry in
      if negb (IS_CLOUD C) && negb (IS_REMOTE C) then
        (w, Local safe_filename file_size file_path
              ("File '" +:+ safe_filename +:+ "' is available on your local system.")
              ("Use 'open_file_locally(file_path=" +:+ dq +:+ file_path +:+ dq +:+
               ")' to view it."))
      else
        let summary := field_summary L E (fs w) file_path in
        let is_too_large := bool_decide (SAFE_THRESHOLD < file_size) in
        if is_too_large && negb ignore_size_limit && negb only_preview then
          (w, Ready safe_filename file_size summary "FILE READY FOR DOWNLOAD"
                ("File '" +:+ safe_filename +:+ "' is ready for retrieval.")
                ("Use resource 'berlin://forms/" +:+ safe_filename +:+ "'"))
        else
          match read_bytes L (fs w) file_path with
          | Raise e => (w, DownloadFailed e)
          | Ok file_bytes =>
              let encoded := b64encode L file_bytes in
              match (if delete_after_read then unlink L (fs w) file_path
                     else Ok (fs w)) with
              | Raise e => (w, DownloadFailed e)
              | Ok fs' =>
                  (with_fs fs' w,
                   Retrieved safe_filename summary file_size
                     ("Successfully retrieved '" +:+ safe_filename +:+ "'.")
                     (if only_preview then "Preview only."
                      else "Decode 'content_base64' and save as .pdf.")
                     (if only_preview then None else Some encoded))
              end
          end
  end.

End Delivery.

(** ** tools.py *)

Module Tools.
Import World.

Inductive tool_result : Type :=
| ToolOk (message : string)
| ToolError (error : string).

Definition tool_success (r : tool_result) : bool :=
  match r with
  | ToolOk _ => true
  | ToolError _ => false
  end.

Definition perform_form_filling := FormLogic.perform_form_filling_logic.

Definition delete_filled_form (L : Lib) (C : Config) (filename : string) (w : World)
    : World * tool_result :=
  let p := path_join L (FILLED_FORMS_DIR C) (path_name L filename) in
  if exists_ (fs w) p then
    match unlink L (fs w) p with
    | Ok fs' => (with_fs fs' w, ToolOk "Deleted.")
    | Raise e => (w, ToolError e)
    end
  else (w, ToolError "Not found.").

End Tools.

(** ** Vocabulary of the properties *)

Module Props.
Import World.

(** A catalog snapshot that is not empty: an object whose [data] entry is
    a list with at least one service. *)
Definition nonempty_catalog (v : json) : bool :=
  match v with
  | JObj fields =>
      match dict_get "data" fields with
      | Some (JArr (_ :: _)) => true
      | _ => false
      end
  | _ => false
  end.

(** The two tiers hold nothing but snapshots that passed the check made on
    a live response. *)
Definition cache_wf (L : Lib) (c : Cache.CacheManager) : Prop :=
  (is_Some (Cache._memory_timestamp c) → nonempty_catalog (Cache._memory_cache c) = true) ∧
  (∀ now data, Cache.get_disk L now c = (data, true) → nonempty_catalog data = true).

(** The disk tier holds a record of [data] that is valid at [now]: the
    cache file decodes to an object whose [_timestamp] (the empty string
    when the entry is missing) reads as an instant less than the time to
    live before [now], and whose [data] entry is [data]. *)
Definition disk_record (L : Lib) (now : Z) (c : Cache.CacheManager) (data : json) : Prop :=
  ∃ cached text t,
    Cache.cache_file c = Stored (JObj cached) ∧
    default (JStr EmptyString) (dict_get "_timestamp" cached) = JStr text ∧
    fromisoformat L text = Some t ∧
    now - t < seconds (Cache.ttl c) ∧
    dict_get "data" cached = Some data.

(** Every timestamp of a ledger file reads back as an instant, as the
    timestamps written by [save] do. *)
Definition timestamps_parse (L : Lib) (data : gmap string LoopProtector.entry) : Prop :=
  map_Forall (λ _ v, is_Some (fromisoformat L (LoopProtector.timestamp v))) data.

(** The checkbox rule of the second pass in the words of the
    specification: a value among the five tokens, or the key contained in
    the field name, switches the box on. *)
Definition spec_fuzzy_checked (L : Lib) (key val : string) (w : widget) : bool :=
  mem (str_lower L val) ["yes"; "true"; "1"; "on"; "x"] ||
  contains (str_lower L key) (str_lower L (field_name w)).

(** Two states of one widget: everything but the value is the same. *)
Definition same_shape (a b : widget) : Prop :=
  field_name a = field_name b ∧ field_label a = field_label b ∧
  field_type a = field_type b.

Definition binary (value : string) : Prop := value = "Yes" ∨ value = "Off".

(** What holds of a recorded update [u], for the document [d] as opened
    and its current state [cur]: the update answers a key of the field
    data, wrote the value its pass computes, and a checkbox it touched now
    holds a binary state. *)
Definition update_ok (L : Lib) (field_data : list (string * string))
    (d cur : document) (u : Matcher.update) : Prop :=
  ∃ w w' val,
    d !! Matcher.u_index u = Some w ∧
    cur !! Matcher.u_index u = Some w' ∧
    dict_get (Matcher.u_key u) field_data = Some val ∧
    Matcher.u_value u =
      (if Matcher.exact_pass u then Matcher.exact_value L w val
       else Matcher.fuzzy_value L w val) ∧
    (Matcher.is_checkbox w = true → binary (field_value w')).

Definition fill_inv (L : Lib) (field_data : list (string * string))
    (d : document) (st : Matcher.fill_state) : Prop :=
  Forall2 same_shape d (Matcher.doc st) ∧
  Forall (update_ok L field_data d (Matcher.doc st)) (Matcher.updates st) ∧
  (Matcher.filled_count st = 0%nat ↔ Matcher.matched_fields_info st = []).

End Props.

(** ** A concrete runtime, used to run the model on examples

    The digest of a text is the text itself (so it has no collisions),
    strings are escaped and encoded as they are, lower-casing is that of
    ASCII, an instant is written as its decimal number of microseconds,
    and a path is joined with a slash. *)

Module Sample.
Import World.

Definition lower_char (c : ascii) : ascii :=
  let n := N_of_ascii c in
  if ((65 <=? n) && (n <=? 90))%N then ascii_of_N (n + 32) else c.

Fixpoint lower (s : string) : string :=
  match s with
  | EmptyString => EmptyString
  | String c rest => String (lower_char c) (lower rest)
  end.

Fixpoint basename_from (acc s : string) : string :=
  match s with
  | EmptyString => acc
  | String c rest =>
      if Ascii.eqb c "/"%char then basename_from EmptyString rest
      else basename_from (acc +:+ String c EmptyString) rest
  end.

Definition digit (c : ascii) : option Z :=
  let n := N_of_ascii c in
  if ((48 <=? n) && (n <=? 57))%N then Some (Z.of_N (n - 48)) else None.

Fixpoint digits (acc : Z) (s : string) : option Z :=
  match s with
  | EmptyString => Some acc
  | String c rest =>
      match digit c with
      | Some d => digits (10 * acc + d) rest
      | None => None
      end
  end.

(** Instants are written as decimal numbers of microseconds. *)
Definition parse_instant (s : string) : option Z :=
  match s with
  | EmptyString => None
  | String c rest =>
      if Ascii.eqb c "-"%char then
        match rest with
        | EmptyString => None
        | _ => Z.opp <$> digits 0 rest
        end
      else digits 0 s
  end.

Definition lib : Lib :=
  {| md5_hexdigest := λ s, s;
     json_escape := λ s, s;
     str_lower := lower;
     b64encode := λ s, s;
     isoformat := pretty;
     fromisoformat := parse_instant;
     strftime_HMS := pretty;
     path_name := basename_from EmptyString;
     path_join := λ d s, d +:+ "/" +:+ s;
     os_error := λ p, "[Errno] " +:+ p |}.

Definition remote : Config :=
  {| FORMS_CACHE_DIR := "/tmp/berlin_mcp/.cache/forms";
     FILLED_FORMS_DIR := "/tmp/berlin_mcp/filled_forms";
     IS_REMOTE := true;
     IS_CLOUD := true |}.

Definition form : document :=
  [ {| field_name := "agree_terms"; field_label := "Terms";
       field_type := PDF_WIDGET_TYPE_CHECKBOX; field_value := EmptyString |};
    {| field_name := "Nachname"; field_label := "Familienname";
       field_type := PDF_WIDGET_TYPE_TEXT; field_value := EmptyString |} ].

(** A server that always answers, an engine that opens every file as
    [form] and writes a fixed rendering, and sets enumerated in the order
    of their elements. *)
Definition env : Env :=
  {| http_get := λ _, Ok "%PDF-form";
     fitz_open := λ _, Ok form;
     fitz_save := λ _ _ _, Ok "%PDF-filled";
     set_iter := elements |}.

Definition fresh : World :=
  {| now := 1000000;
     fs := ∅;
     _protector := LoopProtector.init lib 1000000 Absent;
     _file_sync := {| FileSync.remote_api_url := "https://berlin-services.fastmcp.app/mcp";
                      FileSync.manifest := ∅ |} |}.

(** A process whose form directory holds one filled form. *)
Definition serving : World :=
  with_fs {[ "/tmp/berlin_mcp/filled_forms/out.pdf" := File "%PDF-filled" ]} fresh.

(** A ledger file with one record, stamped at instant 0. *)
Definition stored_ledger : gmap string LoopProtector.entry :=
  {[ "9f2c" := {| LoopProtector.timestamp := "0";
                  LoopProtector.path := "/tmp/berlin_mcp/filled_forms/out.pdf";
                  LoopProtector.file_id := "0a1b2c3d4e5f" |} ]}.

End Sample.

(** ** Further collaborators and library calls

    What the remaining tools ask of the outside: the request made by the
    analysis (which waits 45 seconds, not 15), the page a widget lies on,
    the number of pages of a document and the JPEG rendering of a page;
    and, of the standard library, the length and the characters of a
    [str]. *)

Module More.
Import World.

Record Env2 : Type := {
  (** [client.get(form_url)] of the analysis *)
  http_get_45 : string → result string;
  (** the zero-based number of the page that holds the i-th widget of a file *)
  page_of : string → nat → Z;
  (** [len(doc)] *)
  page_count : string → Z;
  (** [doc[n].get_pixmap(...).tobytes("jpg", jpg_quality=75)] *)
  render_jpg : string → Z → result string;
  (** [len(s)] for a [str] *)
  str_len : string → Z;
  (** [list(s)] for a [str] *)
  str_chars : string → list string
}.

(** The same collaborators with the server out of reach. *)
Definition offline (E : Env) : Env :=
  {| http_get := λ _, Raise "All connection attempts failed";
     fitz_open := fitz_open E;
     fitz_save := fitz_save E;
     set_iter := set_iter E |}.

(** The collaborators as the analysis meets them: its own request. *)
Definition analysis_env (X : Env2) (E : Env) : Env :=
  {| http_get := http_get_45 X;
     fitz_open := fitz_open E;
     fitz_save := fitz_save E;
     set_iter := set_iter E |}.

(** [d.get(k)] and [d.get(k, default)]; a value that is not a dictionary
    has no [get]. *)
Definition py_get (k : string) (fallback : json) (v : json) : result json :=
  match v with
  | JObj fields => Ok (default fallback (dict_get k fields))
  | _ => Raise "object has no attribute 'get'"
  end.

(** The items a [for] loop or a comprehension draws from a value. *)
Definition py_iter (X : Env2) (v : json) : result (list json) :=
  match v with
  | JArr items => Ok items
  | JObj fields => Ok (JStr <$> keys fields)
  | JStr s => Ok (JStr <$> str_chars X s)
  | _ => Raise "object is not iterable"
  end.

(** [len(v)]. *)
Definition py_len (X : Env2) (v : json) : result Z :=
  match v with
  | JArr items => Ok (Z.of_nat (length items))
  | JObj fields => Ok (Z.of_nat (length fields))
  | JStr s => Ok (str_len X s)
  | _ => Raise "object has no len()"
  end.

(** A comprehension with a condition that may raise. *)
Fixpoint filterM {A : Type} (f : A → result bool) (l : list A) : result (list A) :=
  match l with
  | [] => Ok []
  | a :: rest =>
      keep ← f a;
      kept ← filterM f rest;
      Ok (if (keep : bool) then a :: kept else kept)
  end.

(** A comprehension whose expression may raise. *)
Fixpoint mapM_result {A B : Type} (f : A → result B) (l : list A) : result (list B) :=
  match l with
  | [] => Ok []
  | a :: rest =>
      b ← f a;
      bs ← mapM_result f rest;
      Ok (b :: bs)
  end.

(** Where the form behind a URL is kept: [FORMS_CACHE_DIR / f"{url_hash}.pdf"]. *)
Definition cached_form_path (L : Lib) (C : Config) (form_url : string) : string :=
  path_join L (FORMS_CACHE_DIR C) (md5_hexdigest L form_url +:+ ".pdf").

(** Where a filled form is looked for: [FILLED_FORMS_DIR / Path(filename).name]. *)
Definition filled_form_path (L : Lib) (C : Config) (filename : string) : string :=
  path_join L (FILLED_FORMS_DIR C) (path_name L filename).

End More.

(** ** services/file_sync.py and resources.py: retrieval by resource *)

Module Resources.
Import World More.

(** [RemoteFileSyncManager.get_file_as_base64]: [None] for a path that
    does not exist, and for any exception of the read. *)
Definition get_file_as_base64 (L : Lib) (fs : gmap string node) (file_path : string)
    : option string :=
  match fs !! file_path with
  | Some (File content) => Some (b64encode L content)
  | Some (Dir _) => None
  | None => None
  end.

(** [sync_file_to_client]; the function returns the serialization of the
    value given here. *)
Definition sync_file_to_client (L : Lib) (file_id : string) (w : World) : json :=
  match FileSync.manifest (_file_sync w) !! file_id with
  | None => JObj [("error", JStr ("File " +:+ file_id +:+ " not found"))]
  | Some file_info =>
      let content := get_file_as_base64 L (fs w) (FileSync.m_path file_info) in
      JObj [("success", JBool true); ("file_id", JStr file_id);
            ("content_base64", from_option JStr JNull content)]
  end.

(** [str(x)] for an optional string. *)
Definition str_optional (x : option string) : string :=
  match x with
  | Some s => s
  | None => "None"
  end.

Definition describe (filename : string) (size_bytes : Z) (content : option string)
    : string :=
  "Filename: " +:+ filename +:+ nl +:+
  "Size: " +:+ pretty size_bytes +:+ nl +:+
  "Data: " +:+ str_optional content.

(** [get_filled_form_resource]: a download that deletes after reading. *)
Definition get_filled_form_resource (L : Lib) (C : Config) (E : Env)
    (filename : string) (w : World) : World * string :=
  let r := Delivery.download_filled_form_logic L C E filename (Some true) false false w in
  match r.2 with
  | Delivery.DownloadFailed error => (r.1, "Error: " +:+ error)
  | Delivery.Local _ n _ _ _ => (r.1, describe filename n None)
  | Delivery.Ready _ n _ _ _ _ => (r.1, describe filename n None)
  | Delivery.Retrieved _ _ n _ _ content => (r.1, describe filename n content)
  end.

End Resources.

(** ** services/form_logic.py: analysis and visual preview *)

Module Inspect.
Import World More.

(** One entry of [extracted_fields].  The type is kept as the engine's
    constant; the source reports the engine's name for it. *)
Record field_info : Type := {
  fi_name : string;
  fi_type : widget_type;
  fi_value : string;
  fi_label : string;
  fi_page : Z
}.

Inductive analysis_result : Type :=
| Analyzed (form_url : string) (total_fields : Z) (fields : list field_info)
    (instructions : string)
| NoFields (error local_path : string)
| AnalysisFailed (error : string).

Definition analysis_success (r : analysis_result) : bool :=
  match r with
  | Analyzed _ _ _ _ => true
  | _ => false
  end.

(** [widget.field_label or widget.field_name]. *)
Definition label_or_name (w : widget) : string :=
  if String.eqb (field_label w) EmptyString then field_name w else field_label w.

Definition extract_fields (X : Env2) (content : string) (d : document) : list field_info :=
  imap (λ i w, {| fi_name := field_name w; fi_type := field_type w;
                  fi_value := field_value w; fi_label := label_or_name w;
                  fi_page := page_of X content i + 1 |}) d.

Definition analyze_form_for_filling_logic (L : Lib) (C : Config) (E : Env) (X : Env2)
    (form_url : string) (w : World) : World * analysis_result :=
  let body : M analysis_result :=
    local_path ← FormLogic.acquire_document L C (analysis_env X E) form_url;
    w' ← get_world;
    content ← lift (read_bytes L (fs w') local_path);
    opened ← lift (fitz_open E content);
    let extracted_fields := extract_fields X content opened in
    match extracted_fields with
    | [] => mret (NoFields "No fillable fields found in this PDF." local_path)
    | _ :: _ =>
        mret (Analyzed form_url (Z.of_nat (length extracted_fields)) extracted_fields
                ("Please ask the user for data for these fields. " +:+
                 "Use the 'name' key when calling perform_form_filling."))
    end in
  match body w with
  | (w', Ok r) => (w', r)
  | (w', Raise e) => (w', AnalysisFailed e)
  end.

Inductive preview_result : Type :=
| PreviewFailed (error : string)
| Rendered (filename : string) (page total_pages : Z) (image_base64 format : string)
    (size_bytes : Z) (message : string).

(** [get_form_visual_preview_logic]; it writes nothing. *)
Definition get_form_visual_preview_logic (L : Lib) (C : Config) (E : Env) (X : Env2)
    (filename : string) (page_num : Z) (w : World) : preview_result :=
  let safe_filename := path_name L filename in
  let file_path := path_join L (FILLED_FORMS_DIR C) safe_filename in
  if negb (exists_ (fs w) file_path) then
    PreviewFailed ("File '" +:+ filename +:+ "' not found.")
  else
    match read_bytes L (fs w) file_path with
    | Raise e => PreviewFailed e
    | Ok content =>
        match fitz_open E content with
        | Raise e => PreviewFailed e
        | Ok _ =>
            let total := page_count X content in
            if bool_decide (page_num < 0) || bool_decide (total ≤ page_num)%Z then
              PreviewFailed ("Page index " +:+ pretty page_num +:+
                             " out of range (0-" +:+ pretty (total - 1) +:+ ").")
            else
              match render_jpg X content page_num with
              | Raise e => PreviewFailed e
              | Ok img_bytes =>
                  Rendered safe_filename (page_num + 1) total (b64encode L img_bytes)
                    "jpg" (Z.of_nat (String.length img_bytes))
                    ("Rendered page " +:+ pretty (page_num + 1) +:+ " of '" +:+
                     safe_filename +:+ "'.")
              end
        end
    end.

End Inspect.

(** ** tools.py: the catalog tools *)

Module CatalogTools.
Import World More Cache.

Inductive status_result : Type :=
| StatusOk (data_source : string) (total_services : Z)
| StatusError (error : string).

(** [get_api_status]. *)
Definition get_api_status (L : Lib) (X : Env2) (created now : Z) (response : result json)
    (c : CacheManager) : CacheManager * status_result :=
  let fetched := ApiClient.fetch_services_data L created now response false c in
  let data := fetched.2.1 in
  let source := fetched.2.2 in
  match py_get "data" (JArr []) data ≫= py_len X with
  | Ok total => (fetched.1, StatusOk source total)
  | Raise e => (fetched.1, StatusError e)
  end.

(** [clear_cache]. *)
Definition clear_cache (c : CacheManager) : CacheManager * Tools.tool_result :=
  (clear c, Tools.ToolOk "Cache cleared.").

(** [max(1, min(page_size, 50))]. *)
Definition clamp_page_size (page_size : Z) : Z := Z.max 1 (Z.min page_size 50).

(** [(max(1, page) - 1) * max(1, min(page_size, 50))]. *)
Definition page_start (page page_size : Z) : Z :=
  (Z.max 1 page - 1) * clamp_page_size page_size.

(** [l[start:stop]] for bounds that are not negative, as all bounds of
    these tools are. *)
Definition py_slice {A : Type} (start stop : Z) (l : list A) : list A :=
  firstn (Z.to_nat (stop - start)) (skipn (Z.to_nat start) l).

(** [s.get("onlineservices") or s.get("onlineprocessing")], as a
    condition. *)
Definition is_online (s : json) : result bool :=
  a ← py_get "onlineservices" JNull s;
  if truthy a then Ok true
  else b ← py_get "onlineprocessing" JNull s; Ok (truthy b).

(** [{"id": s.get("id"), "name": s.get("name")}]. *)
Definition id_and_name (s : json) : result json :=
  i ← py_get "id" JNull s;
  n ← py_get "name" JNull s;
  Ok (JObj [("id", i); ("name", n)]).

Inductive listing_result : Type :=
| Listing (results : list json)
| ListingError (error : string).

(** [find_online_services]. *)
Definition find_online_services (L : Lib) (X : Env2) (created now : Z)
    (response : result json) (page page_size : Z) (c : CacheManager)
    : CacheManager * listing_result :=
  let fetched := ApiClient.fetch_services_data L created now response false c in
  let body : result (list json) :=
    services ← py_get "data" (JArr []) fetched.2.1 ≫= py_iter X;
    online ← filterM is_online services;
    let start := page_start page page_size in
    mapM_result id_and_name (py_slice start (start + clamp_page_size page_size) online) in
  match body with
  | Ok results => (fetched.1, Listing results)
  | Raise e => (fetched.1, ListingError e)
  end.

End CatalogTools.

(** ** Further concrete values for the examples *)

Module Sample2.
Import World More.

Definition env2 : Env2 :=
  {| http_get_45 := λ _, Ok "%PDF-form";
     page_of := λ _ _, 0;
     page_count := λ _, 2;
     render_jpg := λ _ n, Ok ("JFIF-page-" +:+ pretty n);
     str_len := λ s, Z.of_nat (String.length s);
     str_chars := λ s, (λ c, String c EmptyString) <$> list_ascii_of_string s |}.

Definition local : Config :=
  {| FORMS_CACHE_DIR := "/home/user/.cache/forms";
     FILLED_FORMS_DIR := "/home/user/filled_forms";
     IS_REMOTE := false;
     IS_CLOUD := false |}.

(** A catalog of three services, two of them online. *)
Definition catalog : json :=
  JObj [("data", JArr [
    JObj [("id", JStr "120686"); ("name", JStr "Anmeldung einer Wohnung");
          ("onlineservices", JArr [JStr "https://service.berlin.de/anmeldung"])];
    JObj [("id", JStr "121468"); ("name", JStr "Reisepass");
          ("onlineservices", JArr [])];
    JObj [("id", JStr "120335"); ("name", JStr "Führerschein");
          ("onlineprocessing", JBool true)]])].

(** A cache that has just stored the live [catalog], at instant 1 s. *)
Definition warm : Cache.CacheManager :=
  (ApiClient.fetch_services_data Sample.lib 0 1000000 (Ok catalog) false
     (ApiClient._cache Absent)).1.

(** A ledger file with a recent record and one whose timestamp is not an
    instant. *)
Definition damaged_ledger : gmap string LoopProtector.entry :=
  <[ "77aa" := {| LoopProtector.timestamp := "yesterday";
                  LoopProtector.path := "/tmp/berlin_mcp/filled_forms/old.pdf";
                  LoopProtector.file_id := "ffeeddccbbaa" |} ]> Sample.stored_ledger.

End Sample2.

(** * Properties *)

(** ** Catalog cache *)

Section cache_properties.
Import Cache ApiClient Props.
Context (L : Lib).

#[local] Arguments is_valid : simpl never.

Lemma is_valid_iff now c t :
  is_valid now c (Some t) = true ↔ now - t < seconds (ttl c).
Proof. unfold is_valid. apply bool_decide_eq_true. Qed.

Lemma get_memory_valid now c :
  (get_memory now c).2 = is_valid now c (_memory_timestamp c).
Proof. unfold get_memory. by destruct (is_valid _ _ _). Qed.

(** What a successful disk read has seen. *)
Lemma get_disk_hit now c data :
  get_disk L now c = (data, true) ↔
  ∃ cached text t,
    cache_file c = Stored (JObj cached) ∧
    default (JStr EmptyString) (dict_get "_timestamp" cached) = JStr text ∧
    fromisoformat L text = Some t ∧
    now - t < seconds (ttl c) ∧
    dict_get "data" cached = Some data.
Proof.
  unfold get_disk. split.
  - destruct (cache_file c) as [| |[| | | | |cached]]; try discriminate.
    destruct (default _ _) as [| | |text| |] eqn:Htext; try discriminate.
    destruct (fromisoformat L text) as [t|] eqn:Ht; try discriminate.
    destruct (is_valid now c (Some t)) eqn:Hv; try discriminate.
    destruct (dict_get "data" cached) as [d|] eqn:Hd; try discriminate.
    intros [= ->]. apply is_valid_iff in Hv. by exists cached, text, t.
  - intros (cached & text & t & -> & -> & -> & Hage & ->).
    apply is_valid_iff in Hage. by rewrite Hage.
Qed.

Lemma get_disk_miss_null now c :
  (get_disk L now c).2 = false → get_disk L now c = (JNull, false).
Proof.
  unfold get_disk.
  repeat (case_match; simpl; try done).
Qed.

Lemma payload_ok_nonempty data :
  payload_ok data = Ok true ↔ nonempty_catalog data = true.
Proof.
  unfold payload_ok, nonempty_catalog.
  destruct data as [| | | | |fields]; try done.
  destruct (dict_get "data" fields) as [d|]; [|done].
  destruct d as [| | | |[|x items]|]; simpl; try done.
  - by destruct b.
  - by rewrite andb_false_r.
  - by rewrite andb_false_r.
  - by rewrite andb_false_r.
Qed.

Lemma try_live_Some response data :
  try_live response = Some data ↔ response = Ok data ∧ nonempty_catalog data = true.
Proof.
  rewrite <-payload_ok_nonempty. unfold try_live. split.
  - destruct response as [d|]; [|done].
    destruct (payload_ok d) as [[|]|] eqn:Hd; try done. by intros [= <-].
  - by intros [-> ->].
Qed.

Lemma nonempty_catalog_truthy data : nonempty_catalog data = true → truthy data = true.
Proof.
  destruct data as [| | | | |[|[k v] fields]]; simpl; try done.
Qed.

Lemma cache_wf_init file ttl :
  (∀ now data, get_disk L now (init file ttl) = (data, true) →
               nonempty_catalog data = true) →
  cache_wf L (init file ttl).
Proof. intros H. split; [|done]. simpl. by intros [? ?]. Qed.

Lemma cache_wf_init_absent ttl : cache_wf L (init Absent ttl).
Proof. apply cache_wf_init. intros now data. by unfold get_disk. Qed.

Lemma cache_wf_set now data c :
  nonempty_catalog data = true → cache_wf L (set L now data c).
Proof.
  intros Hdata. split; [done|].
  intros now' data' (cached & text & t & Hfile & _ & _ & _ & Hget)%get_disk_hit.
  simpl in Hfile. injection Hfile as <-. simpl in Hget. by injection Hget as <-.
Qed.

(** A snapshot stored by [set] is read back from the disk tier while it
    is fresh, by a runtime whose [fromisoformat] reads what [isoformat]
    writes. *)
Lemma get_disk_after_set now later data c :
  fromisoformat L (isoformat L now) = Some now →
  later - now < seconds (ttl c) →
  get_disk L later (set L now data c) = (data, true).
Proof.
  intros Hiso Hage. apply get_disk_hit.
  exists [("data", data); ("_timestamp", JStr (isoformat L now))], (isoformat L now), now.
  by repeat split.
Qed.

(** A restart keeps the disk tier and empties the memory tier. *)
Lemma cache_wf_restart c : cache_wf L c → cache_wf L (init (cache_file c) (ttl c)).
Proof.
  intros [_ Hdisk]. apply cache_wf_init. intros now data Hget. by apply (Hdisk now).
Qed.

Lemma cache_wf_clear c : cache_wf L (clear c).
Proof. split; [by intros [? ?]|]. intros now data. by unfold get_disk. Qed.

Lemma cache_wf_fetch created now response force c :
  cache_wf L c → cache_wf L (fetch_services_data L created now response force c).1.
Proof.
  intros Hwf. unfold fetch_services_data.
  destruct (negb force && (get_memory now c).2); [done|].
  destruct (try_live response) as [data|] eqn:Hlive.
  - apply try_live_Some in Hlive as [_ Hdata]. by apply cache_wf_set.
  - by destruct (negb force && truthy (get_disk L now c).1).
Qed.

(** C7.  The validity test of a cache record is exactly
    [now - storedAt < ttl]: a record one second older than the TTL is
    not returned by either tier, and a record whose timestamp is missing or
    does not parse is a miss of the tier, never an error. *)
Theorem C7_ttl_validity now c :
  fromisoformat L EmptyString = None →
  (∀ t, is_valid now c (Some t) = true ↔ now - t < seconds (ttl c)) ∧
  (∀ t, now - t = seconds (ttl c) + seconds 1 →
     is_valid now c (Some t) = false ∧
     (_memory_timestamp c = Some t → get_memory now c = (JNull, false)) ∧
     (∀ cached text,
        cache_file c = Stored (JObj cached) →
        dict_get "_timestamp" cached = Some (JStr text) →
        fromisoformat L text = Some t →
        get_disk L now c = (JNull, false))) ∧
  is_valid now c None = false ∧
  (_memory_timestamp c = None → get_memory now c = (JNull, false)) ∧
  (∀ cached,
     cache_file c = Stored (JObj cached) →
     (dict_get "_timestamp" cached = None ∨
      ∃ v, dict_get "_timestamp" cached = Some v ∧
           ∀ text, v = JStr text → fromisoformat L text = None) →
     get_disk L now c = (JNull, false)).
Proof.
  intros Hempty. split; [apply is_valid_iff|]. split; [|split; [done|split]].
  - intros t Hage.
    assert (is_valid now c (Some t) = false) as Hinv.
    { apply not_true_is_false. rewrite is_valid_iff. unfold seconds in *. lia. }
    split; [done|]. split.
    + intros Hm. unfold get_memory. by rewrite Hm, Hinv.
    + intros cached text Hfile Hts Hparse. unfold get_disk.
      rewrite Hfile, Hts. simpl. by rewrite Hparse, Hinv.
  - intros Hm. unfold get_memory. by rewrite Hm.
  - intros cached Hfile Hts. unfold get_disk. rewrite Hfile.
    destruct Hts as [->|(v & -> & Hv)]; simpl.
    + by rewrite Hempty.
    + destruct v as [| | |text| |]; try done. by rewrite (Hv text eq_refl).
Qed.

Lemma fetch_memory created now response c :
  is_valid now c (_memory_timestamp c) = true →
  fetch_services_data L created now response false c = (c, (_memory_cache c, "memory")).
Proof.
  intros Hvalid. unfold fetch_services_data, get_memory. by rewrite Hvalid.
Qed.

Lemma fetch_skips_memory created now response force_refresh c :
  ¬ (force_refresh = false ∧ is_valid now c (_memory_timestamp c) = true) →
  fetch_services_data L created now response force_refresh c =
    match try_live response with
    | Some data => (set L now data c, (data, "live"))
    | None =>
        if negb force_refresh && truthy (get_disk L now c).1
        then (c, ((get_disk L now c).1, "disk"))
        else (c, (FALLBACK_DATA L created, "fallback"))
    end.
Proof.
  intros Hno. unfold fetch_services_data. rewrite get_memory_valid.
  destruct force_refresh; [done|].
  destruct (is_valid now c (_memory_timestamp c)); [|done].
  by destruct Hno.
Qed.

Lemma try_live_None response :
  ¬ (∃ data, response = Ok data ∧ nonempty_catalog data = true) →
  try_live response = None.
Proof.
  intros Hno. destruct (try_live response) as [data|] eqn:Hlive; [|done].
  apply try_live_Some in Hlive. destruct Hno. by exists data.
Qed.

Lemma fallback_nonempty created : nonempty_catalog (FALLBACK_DATA L created) = true.
Proof. done. Qed.

Lemma fetch_nonempty created now response force_refresh c :
  cache_wf L c →
  nonempty_catalog (fetch_services_data L created now response force_refresh c).2.1 = true.
Proof.
  intros [Hmem Hdisk]. unfold fetch_services_data. rewrite get_memory_valid.
  destruct (negb force_refresh && is_valid now c (_memory_timestamp c)) eqn:Hm.
  - apply andb_true_iff in Hm as [_ Hvalid].
    unfold get_memory. rewrite Hvalid. simpl. apply Hmem.
    unfold is_valid in Hvalid. by destruct (_memory_timestamp c); [eexists|].
  - destruct (try_live response) as [data|] eqn:Hlive.
    + by apply try_live_Some in Hlive as [_ Hdata].
    + destruct (negb force_refresh && truthy (get_disk L now c).1) eqn:Hd; [|done].
      apply andb_true_iff in Hd as [_ Htruthy]. simpl.
      destruct (get_disk L now c) as [d [|]] eqn:Hget; [by eapply Hdisk|].
      pose proof (get_disk_miss_null now c) as Hnull.
      rewrite Hget in Hnull. by specialize (Hnull eq_refl) as [= ->].
Qed.

(** C3.  [fetch_services_data] always returns a snapshot and a tag, by
    the cascade memory, live, disk, fallback, and the snapshot is never
    empty.  The disk tier is read off the cache file: a record whose
    timestamp is less than the time to live old is served tagged "disk",
    and without such a record the fallback data is served. *)
Theorem C3_fetch_cascade created now response force_refresh c :
  cache_wf L c →
  let memory_valid := is_valid now c (_memory_timestamp c) in
  let r := fetch_services_data L created now response force_refresh c in
  (force_refresh = false → memory_valid = true →
     r = (c, (_memory_cache c, "memory"))) ∧
  (¬ (force_refresh = false ∧ memory_valid = true) →
     ∀ data, response = Ok data → nonempty_catalog data = true →
       r.2 = (data, "live") ∧
       r.1 = set L now data c ∧
       _memory_cache r.1 = data ∧
       _memory_timestamp r.1 = Some now ∧
       cache_file r.1 =
         Stored (JObj [("data", data); ("_timestamp", JStr (isoformat L now))])) ∧
  (¬ (force_refresh = false ∧ memory_valid = true) →
   ¬ (∃ data, response = Ok data ∧ nonempty_catalog data = true) →
     (force_refresh = false →
        ∀ data, disk_record L now c data → r = (c, (data, "disk"))) ∧
     (¬ (force_refresh = false ∧ ∃ data, disk_record L now c data) →
        r = (c, (FALLBACK_DATA L created, "fallback")))) ∧
  nonempty_catalog r.2.1 = true.
Proof.
  intros Hwf memory_valid r. subst memory_valid r.
  split; [|split; [|split]].
  - intros -> Hvalid. by apply fetch_memory.
  - intros Hno data -> Hdata. rewrite fetch_skips_memory by done.
    assert (try_live (Ok data) = Some data) as -> by by apply try_live_Some.
    done.
  - intros Hno Hlive. rewrite fetch_skips_memory by done.
    rewrite try_live_None by done. split.
    + intros -> data Hrecord. destruct Hwf as [_ Hdisk].
      apply get_disk_hit in Hrecord. rewrite Hrecord. simpl.
      by rewrite (nonempty_catalog_truthy _ (Hdisk _ _ Hrecord)).
    + intros Hmiss. destruct force_refresh; [done|]. simpl.
      destruct (get_disk L now c) as [d [|]] eqn:Hget.
      * destruct Hmiss. split; [done|]. exists d. by apply get_disk_hit.
      * pose proof (get_disk_miss_null now c) as Hnull.
        rewrite Hget in Hnull. by specialize (Hnull eq_refl) as [= ->].
  - by apply fetch_nonempty.
Qed.

End cache_properties.

(** ** Idempotency ledger *)

Section ledger_properties.
Import LoopProtector Props.
Context (L : Lib).

Lemma load_lookup_Some now file k v :
  _load L now file !! k = Some v →
  ∃ data t, file = Stored data ∧ data !! k = Some v ∧
            fromisoformat L (timestamp v) = Some t ∧ now - t < DAY.
Proof.
  unfold _load. destruct file as [| |data]; try by rewrite lookup_empty.
  case_decide; [|by rewrite lookup_empty].
  intros [Hk Hrecent]%map_lookup_filter_Some. simpl in Hrecent.
  unfold recent in Hrecent.
  destruct (fromisoformat L (timestamp v)) as [t|]; [|done].
  injection Hrecent as Hage. apply bool_decide_eq_true in Hage. by exists data, t.
Qed.

Lemma load_keeps_recent now data k v t :
  timestamps_parse L data →
  data !! k = Some v →
  fromisoformat L (timestamp v) = Some t →
  now - t < DAY →
  _load L now (Stored data) !! k = Some v.
Proof.
  intros Hparse Hk Ht Hage. unfold _load. rewrite decide_True.
  - apply map_lookup_filter_Some. split; [done|]. simpl.
    unfold recent. rewrite Ht. by rewrite bool_decide_eq_true_2.
  - intros k' v' Hk'. unfold recent.
    by destruct (Hparse k' v' Hk') as [t' ->].
Qed.

Lemma load_subset now file k v :
  _load L now file !! k = Some v → ∃ data, file = Stored data ∧ data !! k = Some v.
Proof. intros (data & t & ? & ? & _)%load_lookup_Some. by exists data. Qed.

Lemma check_Some key p last_path last_file_id :
  check key p = Some (last_path, last_file_id) ↔
  ∃ v, hashes p !! key = Some v ∧ path v = last_path ∧ file_id v = last_file_id.
Proof.
  unfold check. destruct (hashes p !! key) as [v|]; split.
  - intros [= <- <-]. by exists v.
  - by intros (v' & [= <-] & <- & <-).
  - done.
  - by intros (v' & ? & _).
Qed.

Lemma check_None key p : check key p = None ↔ hashes p !! key = None.
Proof. unfold check. by destruct (hashes p !! key). Qed.

Lemma check_save now key path file_id p :
  check key (save L now key path file_id p) = Some (path, file_id).
Proof. unfold check, save. simpl. by rewrite lookup_insert_eq. Qed.

Lemma load_timestamps_parse now file : timestamps_parse L (_load L now file).
Proof.
  intros k v (data & t & _ & _ & Ht & _)%load_lookup_Some. by exists t.
Qed.

(** The file [save] writes is one in which every timestamp parses, for a
    runtime whose [fromisoformat] reads what [isoformat] writes. *)
Lemma save_timestamps_parse now key path file_id p :
  (∀ t, fromisoformat L (isoformat L t) = Some t) →
  timestamps_parse L (hashes p) →
  ∃ data, ledger_file (save L now key path file_id p) = Stored data ∧
          timestamps_parse L data ∧
          hashes (save L now key path file_id p) = data.
Proof.
  intros Hiso Hparse. eexists. split; [done|]. split; [|done].
  apply map_Forall_insert_2; [|done]. simpl. by rewrite Hiso.
Qed.

(** A record written by [save] survives a restart within 24 hours. *)
Lemma save_then_restart now later key path file_id p :
  (∀ t, fromisoformat L (isoformat L t) = Some t) →
  timestamps_parse L (hashes p) →
  later - now < DAY →
  check key (init L later (ledger_file (save L now key path file_id p))) =
    Some (path, file_id).
Proof.
  intros Hiso Hparse Hage.
  destruct (save_timestamps_parse now key path file_id p Hiso Hparse)
    as (data & Hfile & Hdata & Hhashes).
  rewrite Hfile. apply check_Some.
  exists {| timestamp := isoformat L now; LoopProtector.path := path;
            LoopProtector.file_id := file_id |}.
  split; [|done]. simpl.
  eapply load_keeps_recent; [done| | |done].
  - rewrite <-Hhashes. simpl. apply lookup_insert_eq.
  - simpl. apply Hiso.
Qed.

(** C6.  Constructing the protector over a stored ledger drops every
    record older than 24 hours before the index exists: a record made 25
    hours ago is not found by [check], one younger than 24 hours is. *)
Theorem C6_load_eviction now data k v t :
  data !! k = Some v →
  fromisoformat L (timestamp v) = Some t →
  let p := init L now (Stored data) in
  (DAY < now - t → hashes p !! k = None ∧ check k p = None) ∧
  (now - t = seconds (25 * 3600) → check k p = None) ∧
  (timestamps_parse L data → now - t < DAY →
     hashes p !! k = Some v ∧ check k p = Some (path v, file_id v)).
Proof.
  intros Hk Ht p. subst p.
  assert (DAY < now - t → hashes (init L now (Stored data)) !! k = None) as Hold.
  { intros Hage. simpl.
    destruct (_load L now (Stored data) !! k) as [v'|] eqn:Hload; [|done].
    apply load_lookup_Some in Hload as (data' & t' & [= <-] & Hk' & Ht' & Hage').
    rewrite Hk in Hk'. injection Hk' as <-. rewrite Ht in Ht'. injection Ht' as <-.
    lia. }
  split; [|split].
  - intros Hage. split; [by apply Hold|]. by apply check_None, Hold.
  - intros Hage. apply check_None, Hold. unfold DAY, seconds in *. lia.
  - intros Hparse Hage.
    assert (hashes (init L now (Stored data)) !! k = Some v) as Hkeep
      by by eapply load_keeps_recent.
    split; [done|]. apply check_Some. by exists v.
Qed.

End ledger_properties.

(** ** Request fingerprint *)

Section fingerprint_properties.
Import FormLogic Props.
Context (L : Lib).

#[local] Instance key_le_trans : Transitive key_le.
Proof. intros a b c. unfold key_le. apply transitivity. Qed.

#[local] Instance key_le_total : Total key_le.
Proof. intros a b. unfold key_le. apply total, _. Qed.

Lemma distinct_keys_inj (d : list (string * string)) x y :
  NoDup (keys d) → x ∈ d → y ∈ d → x.1 = y.1 → x = y.
Proof.
  unfold keys. induction d as [|z d IH]; intros Hnd Hx Hy Hxy; [by inv Hx|].
  rewrite fmap_cons in Hnd. apply NoDup_cons in Hnd as [Hz Hnd].
  apply elem_of_cons in Hx as [->|Hx], Hy as [->|Hy]; [done| | |by apply IH].
  - destruct Hz. rewrite Hxy. by apply list_elem_of_fmap_2.
  - destruct Hz. rewrite <-Hxy. by apply list_elem_of_fmap_2.
Qed.

(** Sorting by key forgets the order in which a dictionary enumerates its
    items. *)
Lemma sorted_items_perm (d1 d2 : list (string * string)) :
  NoDup (keys d1) → d1 ≡ₚ d2 → merge_sort key_le d1 = merge_sort key_le d2.
Proof.
  intros Hnd Hperm.
  apply (Sorted_unique_strong key_le).
  - intros x1 x2 Hx1 Hx2 H12 H21.
    apply (distinct_keys_inj d1); [done| | |].
    + by rewrite merge_sort_Permutation in Hx1.
    + by rewrite merge_sort_Permutation, <-Hperm in Hx2.
    + unfold key_le in *. by apply (anti_symm String.le).
  - apply Sorted_merge_sort, _.
  - apply Sorted_merge_sort, _.
  - by rewrite !merge_sort_Permutation.
Qed.

(** C2.  Two field-data maps with the same items, enumerated in different
    orders, have the same fingerprint. *)
Theorem C2_fingerprint_order form_url (d1 d2 : list (string * string)) :
  NoDup (keys d1) → d1 ≡ₚ d2 →
  request_key L form_url d1 = request_key L form_url d2.
Proof.
  intros Hnd Hperm. unfold request_key, dumps_sort_keys.
  by rewrite (sorted_items_perm d1 d2).
Qed.

End fingerprint_properties.

(** ** Field matcher *)

Section matcher_properties.
Import World Matcher Props.
Context (L : Lib).

Lemma foldlM_inv {A B : Type} (P : A → Prop) (f : A → B → result A) l a a' :
  P a →
  (∀ a b a', P a → f a b = Ok a' → P a') →
  foldlM f a l = Ok a' → P a'.
Proof.
  intros Ha Hf. revert a Ha. induction l as [|b l IH]; intros a Ha; simpl.
  - by intros [= <-].
  - destruct (f a b) as [a1|] eqn:Hfa; simpl; [|done]. eauto.
Qed.

Lemma exact_value_binary w val :
  is_checkbox w = true → binary (exact_value L w val).
Proof.
  intros Hw. unfold exact_value, binary. rewrite Hw.
  destruct (mem _ _); auto.
Qed.

Lemma fuzzy_value_binary w val :
  is_checkbox w = true → binary (fuzzy_value L w val).
Proof.
  intros Hw. unfold fuzzy_value, binary. rewrite Hw. simpl.
  destruct (_ || _); auto.
Qed.

Lemma exact_value_shape w w' val :
  same_shape w w' → exact_value L w' val = exact_value L w val.
Proof. intros (_ & _ & Ht). unfold exact_value, is_checkbox. by rewrite Ht. Qed.

Lemma fuzzy_value_shape w w' val :
  same_shape w w' → fuzzy_value L w' val = fuzzy_value L w val.
Proof.
  intros (Hn & _ & Ht). unfold fuzzy_value, is_checkbox. by rewrite Ht, Hn.
Qed.

Lemma dict_set_nonempty {V : Type} k (v : V) d : dict_set k v d ≠ [].
Proof. destruct d as [|[k' v'] d]; simpl; [done|]. by case_decide. Qed.

Lemma assign_inv field_data d st exact key i w' val :
  fill_inv L field_data d st →
  doc st !! i = Some w' →
  dict_get key field_data = Some val →
  fill_inv L field_data d
    (assign exact key i w'
       (if exact then exact_value L w' val else fuzzy_value L w' val) st).
Proof.
  intros (Hshape & Hupd & Hcount) Hi Hval.
  destruct (Forall2_lookup_r _ _ _ _ _ Hshape Hi) as (w & Hw & Hww').
  set (value := if exact then exact_value L w' val else fuzzy_value L w' val).
  assert (value = if exact then exact_value L w val else fuzzy_value L w val) as Hvalue.
  { subst value. destruct exact;
      [by apply exact_value_shape | by apply fuzzy_value_shape]. }
  assert (is_checkbox w = true → binary value) as Hbin.
  { intros Hc. rewrite Hvalue. destruct exact;
      [by apply exact_value_binary | by apply fuzzy_value_binary]. }
  assert (i < length (doc st))%nat as Hlen by by eapply lookup_lt_Some.
  split; [|split]; simpl.
  - apply Forall2_same_length_lookup. split.
    + rewrite length_insert. by eapply Forall2_length.
    + intros j a b Ha Hb. destruct (decide (i = j)) as [->|Hne].
      * rewrite list_lookup_insert_eq in Hb by done. injection Hb as <-.
        rewrite Hw in Ha. injection Ha as <-.
        destruct Hww' as (? & ? & ?). by repeat split.
      * rewrite list_lookup_insert_ne in Hb by done.
        by eapply Forall2_lookup_lr.
  - apply Forall_app. split.
    + eapply Forall_impl; [exact Hupd|].
      intros u (a & a' & v & Ha & Ha' & Hv & Hu & Hb).
      destruct (decide (i = u_index u)) as [Heq|Hne].
      * exists a, (set_field_value value w'), v. repeat split; try done.
        -- rewrite <-Heq. by apply list_lookup_insert_eq.
        -- intros Hc. simpl. apply Hbin. rewrite <-Heq in Ha.
           rewrite Hw in Ha. by injection Ha as ->.
      * exists a, a', v. repeat split; try done.
        by rewrite list_lookup_insert_ne.
    + apply Forall_singleton. exists w, (set_field_value value w'), val.
      simpl. repeat split; try done. by apply list_lookup_insert_eq.
  - split; [done|]. intros Hm. by apply dict_set_nonempty in Hm.
Qed.

Lemma getitem_Ok field_data key val :
  getitem field_data key = Ok val ↔ dict_get key field_data = Some val.
Proof.
  unfold getitem. destruct (dict_get key field_data); split; try done.
  - by intros [= ->].
  - by intros [= ->].
Qed.

Lemma exact_step_inv field_data d wmap st key st' :
  fill_inv L field_data d st →
  exact_step L field_data wmap st key = Ok st' →
  fill_inv L field_data d st'.
Proof.
  intros Hinv. unfold exact_step.
  destruct (wmap !! key) as [i|]; [|by intros [= <-]].
  destruct (doc st !! i) as [w|] eqn:Hi; [|by intros [= <-]].
  destruct (getitem field_data key) as [val|] eqn:Hval; simpl; [|done].
  intros [= <-]. apply getitem_Ok in Hval.
  by apply (assign_inv field_data d st true).
Qed.

Lemma fuzzy_step_inv field_data d st key st' :
  fill_inv L field_data d st →
  fuzzy_step L field_data st key = Ok st' →
  fill_inv L field_data d st'.
Proof.
  intros Hinv. unfold fuzzy_step.
  destruct (list_find _ (doc st)) as [[i w]|] eqn:Hfind; [|by intros [= <-]].
  apply list_find_Some in Hfind as (Hi & _ & _).
  destruct (getitem field_data key) as [val|] eqn:Hval; simpl; [|done].
  intros [= <-]. apply getitem_Ok in Hval.
  by apply (assign_inv field_data d st false).
Qed.

Lemma match_and_fill_inv E field_data d st :
  match_and_fill L E field_data d = Ok st → fill_inv L field_data d st.
Proof.
  unfold match_and_fill.
  set (st0 := {| doc := d; filled_count := 0; unmatched_keys := _;
                 matched_fields_info := []; updates := [] |}).
  destruct (foldlM _ st0 _) as [st1|] eqn:Hpass1; simpl; [|done].
  intros Hpass2.
  assert (fill_inv L field_data d st0) as H0.
  { split; [|split]; simpl; [|done|done].
    apply Forall2_same_length_lookup. split; [done|].
    intros i a b Ha Hb. rewrite Ha in Hb. by injection Hb as <-. }
  assert (fill_inv L field_data d st1) as H1.
  { eapply (foldlM_inv _ _ _ _ _ H0); [|exact Hpass1].
    intros a b a'. apply exact_step_inv. }
  eapply (foldlM_inv _ _ _ _ _ H1); [|exact Hpass2].
  intros a b a'. apply fuzzy_step_inv.
Qed.

(** C4, as the code has it.  A checkbox matched in either pass is written
    "Yes" or "Off" and nothing else.  Pass 1 writes "Yes" exactly for a
    value that is, lower-cased, one of yes, true, 1, on, x.  Pass 2 writes
    "Yes" for a value that is, lower-cased, one of yes, true, x or is
    contained in the lower-cased field name, and "Off" for a value that is
    neither one of the five tokens nor contained in the field name. *)
Theorem C4_checkbox_values E field_data d st :
  match_and_fill L E field_data d = Ok st →
  ∀ u, u ∈ updates st →
  ∃ w w' val,
    d !! u_index u = Some w ∧
    doc st !! u_index u = Some w' ∧
    dict_get (u_key u) field_data = Some val ∧
    (field_type w = PDF_WIDGET_TYPE_CHECKBOX →
       let v := str_lower L val in
       let name_low := str_lower L (field_name w) in
       binary (u_value u) ∧ binary (field_value w') ∧
       (exact_pass u = true →
          (mem v ["yes"; "true"; "1"; "on"; "x"] = true → u_value u = "Yes") ∧
          (mem v ["yes"; "true"; "1"; "on"; "x"] = false → u_value u = "Off")) ∧
       (exact_pass u = false →
          (mem v ["yes"; "true"; "x"] = true ∨ contains v name_low = true →
             u_value u = "Yes") ∧
          (mem v ["yes"; "true"; "1"; "on"; "x"] = false →
           contains v name_low = false → u_value u = "Off"))).
Proof.
  intros Hfill u Hu.
  destruct (match_and_fill_inv E field_data d st Hfill) as (_ & Hupd & _).
  rewrite Forall_forall in Hupd.
  destruct (Hupd u Hu) as (w & w' & val & Hw & Hw' & Hval & Hvalue & Hbin).
  exists w, w', val. do 3 (split; [done|]).
  intros Hc v name_low. subst v name_low.
  assert (is_checkbox w = true) as Hcb by by apply bool_decide_eq_true.
  split; [|split; [by apply Hbin|split]].
  - rewrite Hvalue. destruct (exact_pass u).
    + by apply exact_value_binary.
    + by apply fuzzy_value_binary.
  - intros Hpass. rewrite Hvalue, Hpass. unfold exact_value. rewrite Hcb.
    split; by intros ->.
  - intros Hpass. rewrite Hvalue, Hpass. unfold fuzzy_value. rewrite Hcb. simpl.
    split.
    + intros [-> | ->]; [done|]. by rewrite orb_true_r.
    + intros Hv ->. rewrite orb_false_r.
      assert (mem (str_lower L val) ["yes"; "true"; "x"] = false) as ->; [|done].
      unfold mem in *. apply bool_decide_eq_false in Hv. apply bool_decide_eq_false.
      intros Hin. apply Hv. revert Hin. rewrite !elem_of_cons, !elem_of_nil. tauto.
Qed.

End matcher_properties.

(** ** Delivery and deletion of a filled form *)

Section delivery_properties.
Import World Delivery Tools Props.
Context (L : Lib).

Lemma read_bytes_file fs p content :
  fs !! p = Some (File content) → read_bytes L fs p = Ok content.
Proof. intros H. unfold read_bytes. by rewrite H. Qed.

Lemma unlink_file fs p content :
  fs !! p = Some (File content) → unlink L fs p = Ok (delete p fs).
Proof. intros H. unfold unlink. by rewrite H. Qed.

(** C8.  In remote or cloud mode, a download of an existing filled form
    that asks neither for a preview nor to ignore the limit carries the
    base64 of the file when the file has at most 200 * 1024 bytes, and
    otherwise points to the resource of the form and carries no bytes. *)
Theorem C8_delivery_threshold C E filename delete_after_read w content :
  IS_CLOUD C || IS_REMOTE C = true →
  let safe_filename := path_name L filename in
  let file_path := path_join L (FILLED_FORMS_DIR C) safe_filename in
  fs w !! file_path = Some (File content) →
  let size := Z.of_nat (String.length content) in
  let r := download_filled_form_logic L C E filename delete_after_read false false w in
  SAFE_THRESHOLD = 200 * 1024 ∧
  download_success r.2 = true ∧
  if decide (size ≤ SAFE_THRESHOLD)%Z then
    content_base64 r.2 = Some (b64encode L content)
  else
    content_base64 r.2 = None ∧
    download_instructions r.2 =
      Some ("Use resource 'berlin://forms/" +:+ safe_filename +:+ "'") ∧
    r.1 = w.
Proof.
  intros Hmode safe_filename file_path Hfile size r.
  subst r size. unfold download_filled_form_logic.
  fold safe_filename. fold file_path. rewrite Hfile.
  assert (negb (IS_CLOUD C) && negb (IS_REMOTE C) = false) as ->.
  { by destruct (IS_CLOUD C), (IS_REMOTE C). }
  split; [done|]. simpl node_size. rewrite !andb_true_r.
  case_decide as Hsize.
  - rewrite bool_decide_eq_false_2 by lia.
    rewrite (read_bytes_file _ _ content) by done.
    destruct (default (IS_CLOUD C) delete_after_read).
    + by rewrite (unlink_file _ _ content).
    + done.
  - by rewrite bool_decide_eq_true_2 by lia.
Qed.

(** C9, as the code has it.  [delete_filled_form] removes a file that is
    present and reports success; for a name under which nothing is stored
    it changes nothing and returns the failure "Not found."; it never
    raises. *)
Theorem C9_delete_filled_form C filename w :
  let p := path_join L (FILLED_FORMS_DIR C) (path_name L filename) in
  let r := delete_filled_form L C filename w in
  match fs w !! p with
  | Some (File _) =>
      r.2 = ToolOk "Deleted." ∧ fs r.1 = delete p (fs w) ∧ fs r.1 !! p = None
  | Some (Dir _) => r = (w, ToolError (os_error L p))
  | None => r = (w, ToolError "Not found.") ∧ tool_success r.2 = false
  end.
Proof.
  intros p r. subst r. unfold delete_filled_form, exists_, unlink. fold p.
  destruct (fs w !! p) as [[content|size]|] eqn:Hp.
  - rewrite bool_decide_eq_true_2 by by eexists. simpl.
    split; [done|]. split; [done|]. apply lookup_delete_eq.
  - by rewrite bool_decide_eq_true_2 by by eexists.
  - rewrite bool_decide_eq_false_2; [done|]. by intros [? ?].
Qed.

End delivery_properties.

(** ** Fill orchestrator *)

Section orchestrator_properties.
Import World Matcher FormLogic Props.
Context (L : Lib).

Ltac unfold_M :=
  unfold mbind, M_bind, mret, M_ret, lift, get_world, modify in *.

Lemma acquire_document_frame C E form_url w w1 r :
  acquire_document L C E form_url w = (w1, r) →
  now w1 = now w ∧ _protector w1 = _protector w ∧ _file_sync w1 = _file_sync w.
Proof.
  unfold acquire_document. unfold_M.
  destruct (exists_ (fs w) _); [by intros [= <- <-]|].
  destruct (http_get E form_url) as [content|e]; [|by intros [= <- <-]].
  destruct (write_bytes L (fs w) _ content) as [fs'|e]; by intros [= <- <-].
Qed.

(** A run of the pipeline that reaches its [return]: the matcher ran, the
    artifact is on disk under the reported path, and the manifest and the
    ledger have their new entries. *)
Lemma fill_pipeline_Ok C E key form_url field_data output_filename total_start w w' r :
  fill_pipeline L C E key form_url field_data output_filename total_start w = (w', Ok r) →
  let name := output_name L (now w) output_filename in
  let final_output_path := path_join L (FILLED_FORMS_DIR C) name in
  let file_id :=
    take 12 (md5_hexdigest L (name +:+ ":" +:+ isoformat L total_start)) in
  ∃ opened st saved,
    match_and_fill L E field_data opened = Ok st ∧
    r = completed C E st name final_output_path file_id ∧
    fs w' !! final_output_path = Some (File saved) ∧
    _file_sync w' =
      FileSync.register_file L (now w) file_id final_output_path
        (Z.of_nat (String.length saved)) (_file_sync w) ∧
    _protector w' =
      LoopProtector.save L (now w) key final_output_path file_id (_protector w).
Proof.
  intros Hrun name final_output_path file_id. revert Hrun.
  unfold fill_pipeline. unfold_M.
  destruct (acquire_document L C E form_url w) as [w1 [input_path|e]] eqn:Hacq;
    [|done].
  apply acquire_document_frame in Hacq as (Hnow & Hprot & Hsync).
  rewrite Hnow. fold name. fold final_output_path. fold file_id.
  destruct (read_bytes L (fs w1) input_path) as [content|e]; [|done].
  destruct (fitz_open E content) as [opened|e]; [|done].
  destruct (match_and_fill L E field_data opened) as [st|e] eqn:Hfill; [|done].
  destruct (fitz_save E (doc st) _ _) as [saved|e]; [|done].
  destruct (write_bytes L (fs w1) _ saved) as [fs'|e] eqn:Hwrite; [|done].
  intros [= <- <-]. simpl.
  exists opened, st, saved. rewrite Hnow, Hprot, Hsync.
  repeat split; try done.
  unfold write_bytes in Hwrite.
  destruct (fs w1 !! final_output_path) as [[?|?]|]; try done.
  all: injection Hwrite as <-; apply lookup_insert_eq.
Qed.

(** A run of the pipeline that raises leaves the ledger and the manifest
    as they were. *)
Lemma fill_pipeline_Raise C E key form_url field_data output_filename total_start w w' e :
  fill_pipeline L C E key form_url field_data output_filename total_start w = (w', Raise e) →
  _protector w' = _protector w ∧ _file_sync w' = _file_sync w.
Proof.
  unfold fill_pipeline. unfold_M.
  destruct (acquire_document L C E form_url w) as [w1 [input_path|e1]] eqn:Hacq.
  2: { apply acquire_document_frame in Hacq as (_ & ? & ?). by intros [= <- _]. }
  apply acquire_document_frame in Hacq as (_ & Hprot & Hsync).
  destruct (read_bytes L (fs w1) input_path) as [content|?]; [|by intros [= <- _]].
  destruct (fitz_open E content) as [opened|?]; [|by intros [= <- _]].
  destruct (match_and_fill L E field_data opened) as [st|?]; [|by intros [= <- _]].
  destruct (fitz_save E (doc st) _ _) as [saved|?]; [|by intros [= <- _]].
  destruct (write_bytes L (fs w1) _ saved) as [fs'|?]; [|by intros [= <- _]].
  done.
Qed.

Lemma perform_hit C E form_url field_data output_filename flatten w last_path last_file_id :
  LoopProtector.check (request_key L form_url field_data) (_protector w) =
    Some (last_path, last_file_id) →
  perform_form_filling_logic L C E form_url field_data output_filename flatten false w =
    (w, short_circuit L C last_path last_file_id).
Proof. intros H. unfold perform_form_filling_logic. by rewrite H. Qed.

Lemma perform_runs C E form_url field_data output_filename flatten force_recompute w :
  LoopProtector.check (request_key L form_url field_data) (_protector w) = None ∨
  force_recompute = true →
  perform_form_filling_logic L C E form_url field_data output_filename flatten
    force_recompute w =
  match field_data with
  | [] => (w, Failed "No field data provided.")
  | _ :: _ =>
      match fill_pipeline L C E (request_key L form_url field_data) form_url field_data
              output_filename (now w) w with
      | (w', Ok r) => (w', r)
      | (w', Raise e) => (w', Failed ("Internal error during form filling: " +:+ e))
      end
  end.
Proof.
  intros H. unfold perform_form_filling_logic.
  destruct (LoopProtector.check _ _) as [[last_path last_file_id]|].
  - destruct H as [H|H]; [done|by rewrite H].
  - by destruct force_recompute.
Qed.

(** What a call that returns [COMPLETED] has done. *)
Lemma perform_completed C E form_url field_data output_filename flatten force_recompute w :
  let r := perform_form_filling_logic L C E form_url field_data output_filename
             flatten force_recompute w in
  status r.2 = Some "COMPLETED" →
  ∃ opened st name saved_path file_id saved,
    field_data ≠ [] ∧
    match_and_fill L E field_data opened = Ok st ∧
    r.2 = completed C E st name saved_path file_id ∧
    fs r.1 !! saved_path = Some (File saved) ∧
    _file_sync r.1 =
      FileSync.register_file L (now w) file_id saved_path
        (Z.of_nat (String.length saved)) (_file_sync w) ∧
    _protector r.1 =
      LoopProtector.save L (now w) (request_key L form_url field_data) saved_path
        file_id (_protector w).
Proof.
  intros r. subst r. unfold perform_form_filling_logic.
  set (key := request_key L form_url field_data).
  assert (∀ last_path last_file_id,
    status (short_circuit L C last_path last_file_id) ≠ Some "COMPLETED") as Hs by done.
  destruct (LoopProtector.check key (_protector w)) as [[last_path last_file_id]|],
    force_recompute; simpl; try (by intros ?%Hs).
  all: destruct field_data as [|item rest]; [done|].
  all: destruct (fill_pipeline _ _ _ _ _ _ _ _ _) as [w' [r|e]] eqn:Hrun; [|done].
  all: apply fill_pipeline_Ok in Hrun
         as (opened & st & saved & Hfill & -> & Hfs & Hsync & Hprot).
  all: intros _; by eexists opened, st, _, _, _, saved.
Qed.

(** C5.  A call with an empty field-data map writes nothing: no
    artifact, no manifest entry, no ledger record.  The ledger is asked
    before the field data is looked at: when it does not hold the
    fingerprint of the empty request, or the recompute is forced, the call
    is rejected with the failure "No field data provided.". *)
Theorem C5_empty_field_data C E form_url output_filename flatten force_recompute w :
  let key := request_key L form_url [] in
  let r := perform_form_filling_logic L C E form_url [] output_filename flatten
             force_recompute w in
  (r.1 = w ∧
   fs r.1 = fs w ∧ _file_sync r.1 = _file_sync w ∧ _protector r.1 = _protector w) ∧
  (LoopProtector.check key (_protector w) = None ∨ force_recompute = true →
     r = (w, Failed "No field data provided.") ∧
     success r.2 = false ∧
     status r.2 = None ∧
     result_error r.2 = Some "No field data provided.").
Proof.
  intros key r. subst key r. unfold perform_form_filling_logic.
  destruct (LoopProtector.check _ (_protector w)) as [[last_path last_file_id]|],
    force_recompute; simpl; (split; [done|]); try done.
  by intros [?|?].
Qed.

(** C1, as the code has it.  When the first of two calls for one request
    runs the pipeline to its end (status COMPLETED), it has recorded the
    request in the ledger, and a second call without [force_recompute]
    re-executes nothing: it leaves the state as it is and returns
    ALREADY_COMPLETED with the path and the file id of the first call. *)
Theorem C1_second_call_short_circuits C E form_url field_data output_filename flatten w :
  let first := perform_form_filling_logic L C E form_url field_data output_filename
                 flatten false w in
  status first.2 = Some "COMPLETED" →
  ∃ saved_path file_id,
    result_saved_path first.2 = Some saved_path ∧
    result_file_id first.2 = Some file_id ∧
    LoopProtector.check (request_key L form_url field_data) (_protector first.1) =
      Some (saved_path, file_id) ∧
    ∀ E' output_filename' flatten' w',
      _protector w' = _protector first.1 →
      let second := perform_form_filling_logic L C E' form_url field_data
                      output_filename' flatten' false w' in
      second.1 = w' ∧
      status second.2 = Some "ALREADY_COMPLETED" ∧
      result_saved_path second.2 = Some saved_path ∧
      result_file_id second.2 = Some file_id.
Proof.
  intros first Hstatus.
  destruct (perform_completed C E form_url field_data output_filename flatten false w
              Hstatus)
    as (opened & st & name & saved_path & file_id & saved & _ & _ & Hr & _ & _ & Hprot).
  fold first in Hr, Hprot.
  exists saved_path, file_id. rewrite Hr. do 2 (split; [done|]).
  assert (LoopProtector.check (request_key L form_url field_data) (_protector first.1) =
            Some (saved_path, file_id)) as Hcheck.
  { rewrite Hprot. apply check_save. }
  split; [done|].
  intros E' output_filename' flatten' w' Hw' second. subst second.
  rewrite <-Hw' in Hcheck. by rewrite (perform_hit _ _ _ _ _ _ _ _ _ Hcheck).
Qed.

(** C10.  A run that reaches the end of the pipeline without matching a
    field returns success false with status COMPLETED, and yet its
    artifact is on disk and in the manifest and its fingerprint is in the
    ledger; the same request made again without [force_recompute] returns
    success true, status ALREADY_COMPLETED, and the id and the path of
    that artifact. *)
Theorem C10_zero_match_is_recorded C E form_url field_data output_filename flatten
    force_recompute w :
  let first := perform_form_filling_logic L C E form_url field_data output_filename
                 flatten force_recompute w in
  status first.2 = Some "COMPLETED" →
  result_field_mappings first.2 = Some [] →
  success first.2 = false ∧
  ∃ saved_path file_id saved entry,
    result_saved_path first.2 = Some saved_path ∧
    result_file_id first.2 = Some file_id ∧
    fs first.1 !! saved_path = Some (File saved) ∧
    FileSync.manifest (_file_sync first.1) !! file_id = Some entry ∧
    FileSync.m_path entry = saved_path ∧
    FileSync.m_size entry = Z.of_nat (String.length saved) ∧
    LoopProtector.check (request_key L form_url field_data) (_protector first.1) =
      Some (saved_path, file_id) ∧
    ∀ E' output_filename' flatten' w',
      _protector w' = _protector first.1 →
      let second := perform_form_filling_logic L C E' form_url field_data
                      output_filename' flatten' false w' in
      second.1 = w' ∧
      success second.2 = true ∧
      status second.2 = Some "ALREADY_COMPLETED" ∧
      result_saved_path second.2 = Some saved_path ∧
      result_file_id second.2 = Some file_id.
Proof.
  intros first Hstatus Hnone.
  destruct (perform_completed C E form_url field_data output_filename flatten
              force_recompute w Hstatus)
    as (opened & st & name & saved_path & file_id & saved & _ & Hfill & Hr & Hfs &
        Hsync & Hprot).
  fold first in Hr, Hfs, Hsync, Hprot. rewrite Hr in Hnone |- *.
  simpl in Hnone. injection Hnone as Hnone.
  destruct (match_and_fill_inv L E field_data opened st Hfill) as (_ & _ & Hcount).
  apply Hcount in Hnone. split.
  { simpl. rewrite Hnone. done. }
  assert (LoopProtector.check (request_key L form_url field_data) (_protector first.1) =
            Some (saved_path, file_id)) as Hcheck.
  { rewrite Hprot. apply check_save. }
  eexists saved_path, file_id, saved, _. do 3 (split; [done|]).
  split; [by rewrite Hsync; apply lookup_insert_eq|].
  do 3 (split; [done|]).
  intros E' output_filename' flatten' w' Hw' second. subst second.
  rewrite <-Hw' in Hcheck. by rewrite (perform_hit _ _ _ _ _ _ _ _ _ Hcheck).
Qed.

End orchestrator_properties.

(** ** The properties on concrete runs *)

Section examples.
Import World Matcher FormLogic Delivery Tools Props.

Lemma C7_ttl_validity_witness :
  fromisoformat Sample.lib EmptyString = None ∧
  Cache.is_valid 4000000000 (Cache.init Absent 3600) (Some 399000000) = false ∧
  Cache.is_valid 4000000000 (Cache.init Absent 3600) (Some 400000001) = true.
Proof.
  split; [reflexivity|].
  destruct (C7_ttl_validity Sample.lib 4000000000 (Cache.init Absent 3600) eq_refl)
    as (Hiff & Hexpired & _).
  split.
  - apply (Hexpired 399000000). reflexivity.
  - apply Hiff. reflexivity.
Defined.

Lemma C3_fetch_cascade_witness :
  let stored := Cache.set Sample.lib 1000000 Sample2.catalog (ApiClient._cache Absent) in
  let restarted := Cache.init (Cache.cache_file stored) 3600 in
  (cache_wf Sample.lib stored ∧ cache_wf Sample.lib restarted) ∧
  disk_record Sample.lib 2000000 restarted Sample2.catalog ∧
  ¬ (∃ data, disk_record Sample.lib 3601000000 restarted data) ∧
  ApiClient.fetch_services_data Sample.lib 0 2000000 (Raise "timed out") false stored =
    (stored, (Sample2.catalog, "memory")) ∧
  (ApiClient.fetch_services_data Sample.lib 0 2000000 (Ok Sample2.catalog) true stored).2 =
    (Sample2.catalog, "live") ∧
  ApiClient.fetch_services_data Sample.lib 0 2000000 (Raise "timed out") false restarted =
    (restarted, (Sample2.catalog, "disk")) ∧
  ApiClient.fetch_services_data Sample.lib 0 3601000000 (Raise "timed out") false
    restarted = (restarted, (ApiClient.FALLBACK_DATA Sample.lib 0, "fallback")) ∧
  ApiClient.fetch_services_data Sample.lib 0 2000000 (Raise "timed out") true restarted =
    (restarted, (ApiClient.FALLBACK_DATA Sample.lib 0, "fallback")).
Proof.
  intros stored restarted.
  assert (cache_wf Sample.lib stored) as Hstored
    by (apply cache_wf_set; reflexivity).
  assert (cache_wf Sample.lib restarted) as Hrestarted
    by (apply (cache_wf_restart Sample.lib stored Hstored)).
  assert (disk_record Sample.lib 2000000 restarted Sample2.catalog) as Hrecord.
  { exists [("data", Sample2.catalog); ("_timestamp", JStr "1000000")], "1000000", 1000000.
    repeat split; vm_compute; reflexivity. }
  assert (¬ (∃ data, disk_record Sample.lib 3601000000 restarted data)) as Hexpired.
  { intros (data & cached & text & t & Hfile & Htext & Ht & Hage & _).
    injection Hfile as <-. injection Htext as <-. injection Ht as <-.
    vm_compute in Hage. discriminate Hage. }
  assert (¬ (∃ data, Raise "timed out" = Ok data ∧ nonempty_catalog data = true))
    as Hdown by (intros (data & H & _); discriminate H).
  split; [split; [exact Hstored|exact Hrestarted]|].
  split; [exact Hrecord|]. split; [exact Hexpired|]. split; [|split; [|split; [|split]]].
  - destruct (C3_fetch_cascade Sample.lib 0 2000000 (Raise "timed out") false stored
                Hstored) as (Hmemory & _).
    apply Hmemory; reflexivity.
  - destruct (C3_fetch_cascade Sample.lib 0 2000000 (Ok Sample2.catalog) true stored
                Hstored) as (_ & Hlive & _).
    apply (Hlive ltac:(intros [H _]; discriminate H) Sample2.catalog eq_refl eq_refl).
  - destruct (C3_fetch_cascade Sample.lib 0 2000000 (Raise "timed out") false restarted
                Hrestarted) as (_ & _ & Hmiss & _).
    destruct Hmiss as [Hdisk _]; [|exact Hdown|].
    + intros [_ H]. vm_compute in H. discriminate H.
    + exact (Hdisk eq_refl Sample2.catalog Hrecord).
  - destruct (C3_fetch_cascade Sample.lib 0 3601000000 (Raise "timed out") false restarted
                Hrestarted) as (_ & _ & Hmiss & _).
    destruct Hmiss as [_ Hfallback]; [|exact Hdown|].
    + intros [_ H]. vm_compute in H. discriminate H.
    + apply Hfallback. intros [_ Hsome]. exact (Hexpired Hsome).
  - destruct (C3_fetch_cascade Sample.lib 0 2000000 (Raise "timed out") true restarted
                Hrestarted) as (_ & _ & Hmiss & _).
    destruct Hmiss as [_ Hfallback]; [|exact Hdown|].
    + intros [H _]. discriminate H.
    + apply Hfallback. intros [H _]. discriminate H.
Defined.

Lemma C6_load_eviction_witness :
  Sample.stored_ledger !! "9f2c" =
    Some {| LoopProtector.timestamp := "0";
            LoopProtector.path := "/tmp/berlin_mcp/filled_forms/out.pdf";
            LoopProtector.file_id := "0a1b2c3d4e5f" |} ∧
  fromisoformat Sample.lib "0" = Some 0 ∧
  LoopProtector.check "9f2c"
    (LoopProtector.init Sample.lib (seconds (25 * 3600)) (Stored Sample.stored_ledger)) =
    None.
Proof.
  split; [reflexivity|]. split; [reflexivity|].
  refine (proj1 (proj2 (C6_load_eviction Sample.lib (seconds (25 * 3600))
                          Sample.stored_ledger "9f2c" _ 0 eq_refl eq_refl)) _).
  reflexivity.
Defined.

Lemma C2_fingerprint_order_witness :
  NoDup (keys [("Vorname", "Erika"); ("Nachname", "Mustermann")]) ∧
  [("Vorname", "Erika"); ("Nachname", "Mustermann")] ≡ₚ
    [("Nachname", "Mustermann"); ("Vorname", "Erika")] ∧
  request_key Sample.lib "https://service.berlin.de/form.pdf"
    [("Vorname", "Erika"); ("Nachname", "Mustermann")] =
  request_key Sample.lib "https://service.berlin.de/form.pdf"
    [("Nachname", "Mustermann"); ("Vorname", "Erika")].
Proof.
  assert (NoDup (keys [("Vorname", "Erika"); ("Nachname", "Mustermann")])) as Hnd.
  { apply (bool_decide_unpack _). vm_compute. exact I. }
  split; [exact Hnd|]. split; [apply perm_swap|].
  apply (C2_fingerprint_order Sample.lib); [exact Hnd|apply perm_swap].
Defined.

Lemma C4_checkbox_values_witness :
  ∃ st,
    match_and_fill Sample.lib Sample.env [("agree_terms", "X")] Sample.form = Ok st ∧
    updates st =
      [{| exact_pass := true; u_key := "agree_terms"; u_index := 0; u_value := "Yes" |}] ∧
    ∃ w', doc st !! 0%nat = Some w' ∧ binary (field_value w').
Proof.
  eexists. split; [vm_compute; reflexivity|]. split; [reflexivity|].
  destruct (C4_checkbox_values Sample.lib Sample.env [("agree_terms", "X")] Sample.form
              _ eq_refl
              {| exact_pass := true; u_key := "agree_terms"; u_index := 0;
                 u_value := "Yes" |})
    as (w & w' & val & Hw & Hw' & _ & Hbox).
  - apply list_elem_of_here.
  - injection Hw as <-. exists w'. split; [exact Hw'|].
    exact (proj1 (proj2 (Hbox eq_refl))).
Defined.

(** Against C4 as stated: in pass 2 the key [agree] is contained in the
    name of the checkbox [agree_terms], which the stated rule takes as an
    affirmative signal; the code looks for the value, and writes "Off". *)
Lemma C4_key_containment_counterexample :
  match match_and_fill Sample.lib Sample.env [("agree", "no")] Sample.form with
  | Ok st =>
      updates st =
        [{| exact_pass := false; u_key := "agree"; u_index := 0; u_value := "Off" |}] ∧
      field_value <$> doc st !! 0%nat = Some "Off"
  | Raise _ => False
  end ∧
  (field_type <$> Sample.form !! 0%nat) = Some PDF_WIDGET_TYPE_CHECKBOX ∧
  (spec_fuzzy_checked Sample.lib "agree" "no" <$> Sample.form !! 0%nat) = Some true.
Proof. vm_compute. done. Qed.

Lemma C8_delivery_threshold_witness :
  IS_CLOUD Sample.remote || IS_REMOTE Sample.remote = true ∧
  fs Sample.serving !! "/tmp/berlin_mcp/filled_forms/out.pdf" = Some (File "%PDF-filled") ∧
  content_base64
    (download_filled_form_logic Sample.lib Sample.remote Sample.env "out.pdf" None
       false false Sample.serving).2 = Some "%PDF-filled".
Proof.
  split; [reflexivity|]. split; [reflexivity|].
  exact (proj2 (proj2 (C8_delivery_threshold Sample.lib Sample.remote Sample.env
                         "out.pdf" None Sample.serving "%PDF-filled" eq_refl eq_refl))).
Defined.

(** Against C9 as stated: deleting a form that is not there returns a
    failure. *)
Lemma C9_absent_file_counterexample :
  fs Sample.fresh !! "/tmp/berlin_mcp/filled_forms/missing.pdf" = None ∧
  delete_filled_form Sample.lib Sample.remote "missing.pdf" Sample.fresh =
    (Sample.fresh, ToolError "Not found.") ∧
  tool_success
    (delete_filled_form Sample.lib Sample.remote "missing.pdf" Sample.fresh).2 = false.
Proof. vm_compute. done. Qed.

Lemma C5_empty_field_data_witness :
  LoopProtector.check
    (request_key Sample.lib "https://service.berlin.de/form.pdf" [])
    (_protector Sample.fresh) = None ∧
  perform_form_filling_logic Sample.lib Sample.remote Sample.env
    "https://service.berlin.de/form.pdf" [] None false false Sample.fresh =
    (Sample.fresh, Failed "No field data provided.") ∧
  perform_form_filling_logic Sample.lib Sample.remote Sample.env
    "https://service.berlin.de/form.pdf" [] (Some "out") true true Sample.fresh =
    (Sample.fresh, Failed "No field data provided.").
Proof.
  split; [reflexivity|]. split.
  - apply (C5_empty_field_data Sample.lib Sample.remote Sample.env
             "https://service.berlin.de/form.pdf" None false false Sample.fresh).
    left. reflexivity.
  - apply (C5_empty_field_data Sample.lib Sample.remote Sample.env
             "https://service.berlin.de/form.pdf" (Some "out") true true Sample.fresh).
    right. reflexivity.
Defined.

Lemma C1_second_call_short_circuits_witness :
  let call :=
    perform_form_filling_logic Sample.lib Sample.remote Sample.env
      "https://service.berlin.de/form.pdf" [("Nachname", "Mustermann")] (Some "out")
      false false in
  status (call Sample.fresh).2 = Some "COMPLETED" ∧
  (call (call Sample.fresh).1).1 = (call Sample.fresh).1 ∧
  status (call (call Sample.fresh).1).2 = Some "ALREADY_COMPLETED" ∧
  result_file_id (call (call Sample.fresh).1).2 = result_file_id (call Sample.fresh).2.
Proof.
  intros call.
  assert (status (call Sample.fresh).2 = Some "COMPLETED") as Hfirst
    by (vm_compute; reflexivity).
  split; [exact Hfirst|].
  destruct (C1_second_call_short_circuits Sample.lib Sample.remote Sample.env
              "https://service.berlin.de/form.pdf" [("Nachname", "Mustermann")]
              (Some "out") false Sample.fresh Hfirst)
    as (saved_path & file_id & _ & Hid & _ & Hsecond).
  destruct (Hsecond Sample.env (Some "out") false (call Sample.fresh).1 eq_refl)
    as (Hsame & Hstatus & _ & Hid').
  split; [exact Hsame|]. split; [exact Hstatus|].
  exact (eq_trans Hid' (eq_sym Hid)).
Defined.

(** Against C1 as stated: for a request without field data the first call
    runs no pipeline and records nothing, and the second call is rejected
    like the first instead of returning ALREADY_COMPLETED. *)
Lemma C1_empty_request_counterexample :
  let call :=
    perform_form_filling_logic Sample.lib Sample.remote Sample.env
      "https://service.berlin.de/form.pdf" [] None false false in
  (call Sample.fresh).2 = Failed "No field data provided." ∧
  LoopProtector.check (request_key Sample.lib "https://service.berlin.de/form.pdf" [])
    (_protector (call Sample.fresh).1) = None ∧
  (call (call Sample.fresh).1).2 = Failed "No field data provided." ∧
  status (call (call Sample.fresh).1).2 ≠ Some "ALREADY_COMPLETED".
Proof. vm_compute. done. Qed.

Lemma C10_zero_match_is_recorded_witness :
  let call :=
    perform_form_filling_logic Sample.lib Sample.remote Sample.env
      "https://service.berlin.de/form.pdf" [("Telefon", "030 115")] (Some "out")
      false false in
  status (call Sample.fresh).2 = Some "COMPLETED" ∧
  result_field_mappings (call Sample.fresh).2 = Some [] ∧
  success (call Sample.fresh).2 = false ∧
  success (call (call Sample.fresh).1).2 = true ∧
  status (call (call Sample.fresh).1).2 = Some "ALREADY_COMPLETED".
Proof.
  intros call.
  assert (status (call Sample.fresh).2 = Some "COMPLETED") as Hstatus
    by (vm_compute; reflexivity).
  assert (result_field_mappings (call Sample.fresh).2 = Some []) as Hnone
    by (vm_compute; reflexivity).
  split; [exact Hstatus|]. split; [exact Hnone|].
  destruct (C10_zero_match_is_recorded Sample.lib Sample.remote Sample.env
              "https://service.berlin.de/form.pdf" [("Telefon", "030 115")]
              (Some "out") false false Sample.fresh Hstatus Hnone)
    as (Hfailed & saved_path & file_id & saved & entry & _ & _ & _ & _ & _ & _ & _ &
        Hsecond).
  split; [exact Hfailed|].
  destruct (Hsecond Sample.env (Some "out") false (call Sample.fresh).1 eq_refl)
    as (_ & Hsuccess & Hstatus' & _).
  split; [exact Hsuccess|exact Hstatus'].
Defined.

End examples.

(** * Further properties of the code *)

(** ** The catalog cache over several calls *)

Section cache_compositions.
Import Cache ApiClient CatalogTools More Props.
Context (L : Lib).

#[local] Arguments is_valid : simpl never.

Lemma fetch_tag_live created now response force_refresh c :
  (fetch_services_data L created now response force_refresh c).2.2 = "live" →
  ∃ data,
    nonempty_catalog data = true ∧
    fetch_services_data L created now response force_refresh c =
      (set L now data c, (data, "live")).
Proof.
  unfold fetch_services_data.
  destruct (negb force_refresh && (get_memory now c).2); [done|].
  destruct (try_live response) as [data|] eqn:Hlive.
  - apply try_live_Some in Hlive as [_ Hdata]. by exists data.
  - by destruct (negb force_refresh && truthy (get_disk L now c).1).
Qed.

(** X1.  Once a fetch has stored a live snapshot, every later fetch that
    does not force a refresh and falls within the time to live returns
    that snapshot tagged "memory", whatever the upstream answers, and
    leaves the cache as it is. *)
Theorem X1_live_snapshot_is_reused created now later response response' force_refresh c :
  let first := fetch_services_data L created now response force_refresh c in
  first.2.2 = "live" →
  later - now < seconds (ttl c) →
  fetch_services_data L created later response' false first.1 =
    (first.1, (first.2.1, "memory")).
Proof.
  intros first Htag Hage. subst first.
  destruct (fetch_tag_live _ _ _ _ _ Htag) as (data & _ & ->). simpl.
  rewrite fetch_memory; [done|]. by apply is_valid_iff.
Qed.

(** X2.  A forced refresh never serves a cached snapshot: when the
    upstream gives no usable payload it returns the fallback data although
    the memory tier is fresh, whatever the disk tier holds, and it leaves
    the cache untouched, so that the next ordinary fetch is served from
    memory again. *)
Theorem X2_forced_refresh_bypasses_cache created now response response' c :
  ¬ (∃ data, response = Ok data ∧ nonempty_catalog data = true) →
  is_valid now c (_memory_timestamp c) = true →
  fetch_services_data L created now response true c =
    (c, (FALLBACK_DATA L created, "fallback")) ∧
  fetch_services_data L created now response' false c =
    (c, (_memory_cache c, "memory")).
Proof.
  intros Hbad Hvalid. split; [|by apply fetch_memory].
  rewrite fetch_skips_memory by by intros [? _].
  by rewrite try_live_None.
Qed.

(** X3.  After [clear_cache] nothing is served from the cache, whatever
    it held before: both tiers miss at every instant; the next fetch
    either stores and returns the upstream payload tagged "live", or, when
    the upstream gives no usable payload, returns the fallback data and
    leaves the cache empty; and with the upstream out of reach the status
    tool reports the fallback data and its three services. *)
Theorem X3_clear_cache_then_status X created now response c :
  let cleared := clear_cache c in
  let next := fetch_services_data L created now response false cleared.1 in
  cleared.2 = Tools.ToolOk "Cache cleared." ∧
  (∀ t, get_memory t cleared.1 = (JNull, false)) ∧
  (∀ t, get_disk L t cleared.1 = (JNull, false)) ∧
  (response = Ok next.2.1 ∧ nonempty_catalog next.2.1 = true ∧
     next = (set L now next.2.1 cleared.1, (next.2.1, "live")) ∨
   ¬ (∃ data, response = Ok data ∧ nonempty_catalog data = true) ∧
     next = (cleared.1, (FALLBACK_DATA L created, "fallback"))) ∧
  (∀ e, get_api_status L X created now (Raise e) cleared.1 =
          (cleared.1, StatusOk "fallback" 3)).
Proof.
  intros cleared next. repeat (split; [done|]). split; [|done].
  subst next. unfold fetch_services_data. simpl.
  destruct (try_live response) as [data|] eqn:Hlive; simpl.
  - apply try_live_Some in Hlive as [-> Hdata]. by left.
  - right. split; [|done]. intros (data & Hresponse & Hdata).
    by rewrite (proj2 (try_live_Some response data)) in Hlive.
Qed.

(** X4.  The disk tier outlives the process: a snapshot stored at [now] is
    served tagged "disk" by a new process that cannot reach the upstream,
    as long as it is younger than the time to live. *)
Theorem X4_disk_tier_survives_restart created now later response data c :
  nonempty_catalog data = true →
  fromisoformat L (isoformat L now) = Some now →
  later - now < seconds (ttl c) →
  ¬ (∃ data', response = Ok data' ∧ nonempty_catalog data' = true) →
  let restarted := init (cache_file (set L now data c)) (ttl c) in
  fetch_services_data L created later response false restarted =
    (restarted, (data, "disk")).
Proof.
  intros Hdata Hiso Hage Hbad restarted.
  assert (get_disk L later restarted = (data, true)) as Hdisk.
  { apply get_disk_hit.
    exists [("data", data); ("_timestamp", JStr (isoformat L now))], (isoformat L now), now.
    by repeat split. }
  rewrite fetch_skips_memory by by intros [_ ?].
  rewrite try_live_None by done. rewrite Hdisk. simpl.
  by rewrite (nonempty_catalog_truthy _ Hdata).
Qed.

(** X5.  A snapshot is never served past its time to live: once its age
    has reached the TTL, a fetch that cannot reach the upstream returns the
    fallback data, not the stored snapshot. *)
Theorem X5_expired_snapshot_is_not_served created now later response data c :
  fromisoformat L (isoformat L now) = Some now →
  (seconds (ttl c) ≤ later - now)%Z →
  ¬ (∃ data', response = Ok data' ∧ nonempty_catalog data' = true) →
  fetch_services_data L created later response false (set L now data c) =
    (set L now data c, (FALLBACK_DATA L created, "fallback")).
Proof.
  intros Hiso Hage Hbad.
  assert (is_valid later (set L now data c) (Some now) = false) as Hold.
  { apply not_true_is_false. rewrite is_valid_iff. simpl. lia. }
  rewrite fetch_skips_memory by (simpl; rewrite Hold; by intros [_ ?]).
  rewrite try_live_None by done.
  assert (get_disk L later (set L now data c) = (JNull, false)) as ->; [|done].
  unfold get_disk. simpl. by rewrite Hiso, Hold.
Qed.

(** X6.  Over a cache whose tiers hold only checked snapshots, the status
    tool always succeeds, names one of the four origins, and reports at
    least one service. *)
Theorem X6_status_reports_a_service X created now response c :
  cache_wf L c →
  ∃ source total,
    (get_api_status L X created now response c).2 = StatusOk source total ∧
    source ∈ ["memory"; "live"; "disk"; "fallback"] ∧
    (1 ≤ total)%Z.
Proof.
  intros Hwf. unfold get_api_status.
  pose proof (fetch_nonempty L created now response false c Hwf) as Hdata.
  assert ((fetch_services_data L created now response false c).2.2 ∈
            ["memory"; "live"; "disk"; "fallback"]) as Hsource.
  { unfold fetch_services_data.
    repeat case_match; simpl; rewrite !elem_of_cons; auto. }
  destruct (fetch_services_data L created now response false c) as [c' [data source]].
  simpl in *. unfold nonempty_catalog in Hdata.
  destruct data as [| | | | |fields]; try done. simpl.
  destruct (dict_get "data" fields) as [[| | | |[|x items]|]|]; try done. simpl.
  eexists _, _. split; [done|]. split; [done|]. lia.
Qed.

End cache_compositions.

(** ** The ledger over restarts *)

Section ledger_compositions.
Import LoopProtector Props.
Context (L : Lib).

(** X7.  Loading is all or nothing: one stored record whose timestamp
    does not parse makes the protector start with an empty index, so that
    no request at all is answered from the ledger, recent records
    included. *)
Theorem X7_one_bad_record_empties_the_ledger now data k v :
  data !! k = Some v →
  fromisoformat L (timestamp v) = None →
  hashes (init L now (Stored data)) = ∅ ∧
  ∀ key, check key (init L now (Stored data)) = None.
Proof.
  intros Hk Hbad.
  assert (_load L now (Stored data) = ∅) as Hempty.
  { unfold _load. rewrite decide_False; [done|].
    intros Hall. specialize (Hall k v Hk). simpl in Hall.
    unfold recent in Hall. rewrite Hbad in Hall. by destruct Hall. }
  change (hashes (init L now (Stored data))) with (_load L now (Stored data)).
  split; [done|]. intros key. apply check_None.
  change (hashes (init L now (Stored data))) with (_load L now (Stored data)).
  by rewrite Hempty.
Qed.

Lemma load_Some_parse now data k v :
  _load L now (Stored data) !! k = Some v → timestamps_parse L data.
Proof.
  unfold _load. case_decide as Hall; [|by rewrite lookup_empty].
  intros _ k' v' Hk'. specialize (Hall k' v' Hk'). simpl in Hall.
  unfold recent in Hall. destruct (fromisoformat L (timestamp v')); [by eexists|].
  by destruct Hall.
Qed.

(** X8.  Eviction only ever removes: a record found after a load at some
    instant is found, unchanged, after a load of the same file at any
    earlier instant, and loading what a load returned changes nothing. *)
Theorem X8_load_is_monotone now later file :
  (now ≤ later)%Z →
  (∀ k v, _load L later file !! k = Some v → _load L now file !! k = Some v) ∧
  _load L now (Stored (_load L now file)) = _load L now file.
Proof.
  intros Hle. split.
  - intros k v Hlater.
    destruct (load_lookup_Some L _ _ _ _ Hlater) as (data & t & -> & Hk & Ht & Hage).
    eapply load_keeps_recent; [by eapply load_Some_parse|done|done|lia].
  - apply map_eq. intros k.
    destruct (_load L now file !! k) as [v|] eqn:Hk.
    + destruct (load_lookup_Some L _ _ _ _ Hk) as (data & t & _ & _ & Ht & Hage).
      eapply load_keeps_recent; [apply load_timestamps_parse|done..].
    + destruct (_load L now (Stored (_load L now file)) !! k) as [v|] eqn:Hk'; [|done].
      apply load_subset in Hk' as (data & [= <-] & Hk'). by rewrite Hk in Hk'.
Qed.

(** X9.  A record written by [save] outlives the process for 24 hours and
    no longer: a protector constructed over the saved file finds it while
    it is younger than a day, and no more once a day has passed. *)
Theorem X9_saved_record_lives_one_day now later key path file_id p :
  timestamps_parse L (hashes p) →
  fromisoformat L (isoformat L now) = Some now →
  let restarted := init L later (ledger_file (save L now key path file_id p)) in
  (later - now < DAY → check key restarted = Some (path, file_id)) ∧
  ((DAY ≤ later - now)%Z → check key restarted = None).
Proof.
  intros Hparse Hiso restarted. subst restarted.
  set (v := {| timestamp := isoformat L now; LoopProtector.path := path;
               LoopProtector.file_id := file_id |}).
  assert (ledger_file (save L now key path file_id p) =
            Stored (<[key := v]> (hashes p))) as -> by done.
  assert (timestamps_parse L (<[key := v]> (hashes p))) as Hall.
  { apply map_Forall_insert_2; [|done]. simpl. by rewrite Hiso. }
  split; intros Hage.
  - apply check_Some. exists v. split; [|done]. simpl.
    eapply load_keeps_recent; [done|apply lookup_insert_eq|exact Hiso|done].
  - apply check_None. simpl.
    destruct (_load L later (Stored (<[key:=v]> (hashes p))) !! key) as [v'|] eqn:Hk;
      [|done].
    apply load_lookup_Some in Hk as (data & t & [= <-] & Hk & Ht & Hage').
    rewrite lookup_insert_eq in Hk. injection Hk as <-. simpl in Ht.
    rewrite Hiso in Ht. injection Ht as <-. lia.
Qed.

End ledger_compositions.

(** ** The fill orchestrator: failure, retry and names *)

Section orchestrator_compositions.
Import World Matcher FormLogic More Props.
Context (L : Lib).

Ltac unfold_steps :=
  unfold mbind, M_bind, mret, M_ret, lift, get_world, modify in *.

Lemma acquire_document_fs C E form_url w w1 r :
  acquire_document L C E form_url w = (w1, r) →
  ∀ p, p ≠ cached_form_path L C form_url → fs w1 !! p = fs w !! p.
Proof.
  unfold acquire_document, cached_form_path. unfold_steps.
  destruct (exists_ (fs w) _); [by intros [= <- <-]|].
  destruct (http_get E form_url) as [content|e]; [|by intros [= <- <-]].
  unfold write_bytes.
  destruct (fs w !! _) as [[?|?]|]; intros [= <- <-] p Hp; simpl; try done.
  all: by rewrite lookup_insert_ne.
Qed.

Lemma fill_pipeline_Raise_fs C E key form_url field_data output_filename total_start
    w w' e :
  fill_pipeline L C E key form_url field_data output_filename total_start w =
    (w', Raise e) →
  now w' = now w ∧
  ∀ p, p ≠ cached_form_path L C form_url → fs w' !! p = fs w !! p.
Proof.
  unfold fill_pipeline. unfold_steps.
  destruct (acquire_document L C E form_url w) as [w1 [input_path|e1]] eqn:Hacq.
  2: { intros [= <- _]. split; [by apply acquire_document_frame in Hacq as (? & _)|].
       by eapply acquire_document_fs. }
  pose proof (acquire_document_fs _ _ _ _ _ _ Hacq) as Hfs.
  apply acquire_document_frame in Hacq as (Hnow & _ & _).
  destruct (read_bytes L (fs w1) input_path) as [content|?]; [|by intros [= <- _]].
  destruct (fitz_open E content) as [opened|?]; [|by intros [= <- _]].
  destruct (match_and_fill L E field_data opened) as [st|?]; [|by intros [= <- _]].
  destruct (fitz_save E (doc st) _ _) as [saved|?]; [|by intros [= <- _]].
  destruct (write_bytes L (fs w1) _ saved) as [fs'|?]; [|by intros [= <- _]].
  done.
Qed.

(** X10.  A call that does not return COMPLETED leaves no trace that
    matters: the ledger and the manifest are as before and no file but the
    cached copy of the form has appeared or changed, so that a retry is
    not short-circuited and no artifact is left behind. *)
Theorem X10_failed_call_leaves_no_trace C E form_url field_data output_filename flatten
    force_recompute w :
  let r := perform_form_filling_logic L C E form_url field_data output_filename
             flatten force_recompute w in
  status r.2 ≠ Some "COMPLETED" →
  _protector r.1 = _protector w ∧
  _file_sync r.1 = _file_sync w ∧
  ∀ p, p ≠ cached_form_path L C form_url → fs r.1 !! p = fs w !! p.
Proof.
  intros r. subst r. unfold perform_form_filling_logic.
  set (key := request_key L form_url field_data).
  assert (∀ x : World * fill_result,
    x = match field_data with
        | [] => (w, Failed "No field data provided.")
        | _ :: _ =>
            match fill_pipeline L C E key form_url field_data output_filename (now w) w
            with
            | (w', Ok r) => (w', r)
            | (w', Raise e) =>
                (w', Failed ("Internal error during form filling: " +:+ e))
            end
        end →
    status x.2 ≠ Some "COMPLETED" →
    _protector x.1 = _protector w ∧ _file_sync x.1 = _file_sync w ∧
    ∀ p, p ≠ cached_form_path L C form_url → fs x.1 !! p = fs w !! p) as Hrun.
  { intros x -> Hstatus. destruct field_data as [|item rest]; [done|].
    destruct (fill_pipeline _ _ _ _ _ _ _ _ _) as [w' [r|e]] eqn:Hrun; simpl in *.
    - apply fill_pipeline_Ok in Hrun as (? & ? & ? & _ & -> & _). by destruct Hstatus.
    - pose proof (fill_pipeline_Raise L _ _ _ _ _ _ _ _ _ _ Hrun) as [? ?].
      by apply fill_pipeline_Raise_fs in Hrun as [_ ?]. }
  destruct (LoopProtector.check key (_protector w)) as [[last_path last_file_id]|],
    force_recompute; try (by apply Hrun); done.
Qed.

(** X11.  A forced recompute that completes re-anchors the request: the
    ledger then answers the request with the new artifact, whatever it
    held before, and its answers for all other fingerprints are as
    before. *)
Theorem X11_forced_recompute_reanchors C E form_url field_data output_filename flatten w :
  let forced := perform_form_filling_logic L C E form_url field_data output_filename
                  flatten true w in
  status forced.2 = Some "COMPLETED" →
  ∃ saved_path file_id,
    result_saved_path forced.2 = Some saved_path ∧
    result_file_id forced.2 = Some file_id ∧
    (∀ E' output_filename' flatten',
       perform_form_filling_logic L C E' form_url field_data output_filename' flatten'
         false forced.1 = (forced.1, short_circuit L C saved_path file_id)) ∧
    (∀ key, key ≠ request_key L form_url field_data →
       LoopProtector.check key (_protector forced.1) =
       LoopProtector.check key (_protector w)).
Proof.
  intros forced Hstatus.
  destruct (perform_completed L C E form_url field_data output_filename flatten true w
              Hstatus)
    as (opened & st & name & saved_path & file_id & saved & _ & _ & Hr & _ & _ & Hprot).
  fold forced in Hr, Hprot.
  exists saved_path, file_id. rewrite Hr. do 2 (split; [done|]). split.
  - intros E' output_filename' flatten'. apply perform_hit.
    rewrite Hprot. apply check_save.
  - intros key Hkey. rewrite Hprot. unfold LoopProtector.check, LoopProtector.save.
    simpl. by rewrite lookup_insert_ne.
Qed.

Lemma cached_form_offline C E form_url field_data output_filename flatten
    force_recompute w :
  exists_ (fs w) (cached_form_path L C form_url) = true →
  perform_form_filling_logic L C E form_url field_data output_filename flatten
    force_recompute w =
  perform_form_filling_logic L C (offline E) form_url field_data output_filename
    flatten force_recompute w.
Proof.
  intros Hcached. unfold perform_form_filling_logic, fill_pipeline, acquire_document.
  unfold_steps. unfold cached_form_path in Hcached. by rewrite Hcached.
Qed.

(** X12.  The form behind a URL is fetched at most once: when its copy is
    in the forms cache, a fill does exactly what it does with the server
    out of reach. *)
Theorem X12_cached_form_needs_no_server C E form_url field_data output_filename flatten
    force_recompute w :
  exists_ (fs w) (cached_form_path L C form_url) = true →
  perform_form_filling_logic L C E form_url field_data output_filename flatten
    force_recompute w =
  perform_form_filling_logic L C (offline E) form_url field_data output_filename
    flatten force_recompute w.
Proof. apply cached_form_offline. Qed.

Lemma string_app_cons x (a b : string) : String x a +:+ b = String x (a +:+ b).
Proof. reflexivity. Qed.

Lemma string_app_assoc (a b c : string) : (a +:+ b) +:+ c = a +:+ (b +:+ c).
Proof.
  induction a as [|x a IH]; [done|]. by rewrite !string_app_cons, IH.
Qed.

Lemma rev_app_acc (a acc : string) :
  String.rev_app a acc = String.rev_app a EmptyString +:+ acc.
Proof.
  revert acc. induction a as [|x a IH]; intros acc; simpl; [done|].
  rewrite (IH (String x acc)), (IH (String x EmptyString)).
  by rewrite string_app_assoc.
Qed.

Lemma rev_app_app (a b acc : string) :
  String.rev_app (a +:+ b) acc = String.rev_app b (String.rev_app a acc).
Proof.
  revert acc. induction a as [|x a IH]; intros acc; [done|].
  rewrite string_app_cons. simpl. apply IH.
Qed.

Lemma prefix_app (a b : string) : String.prefix a (a +:+ b) = true.
Proof.
  induction a as [|x a IH]; [by destruct b|]. rewrite string_app_cons. simpl.
  by destruct (ascii_dec x x).
Qed.

Lemma endswith_app (s suffix : string) : endswith (s +:+ suffix) suffix = true.
Proof.
  unfold endswith, String.rev.
  rewrite rev_app_app, (rev_app_acc suffix (String.rev_app s EmptyString)).
  apply prefix_app.
Qed.

(** X13.  The name under which an artifact is saved always ends in
    ".pdf", and the extension is not added twice: a requested name that
    already ends in ".pdf" is used as it is. *)
Theorem X13_output_name_has_one_extension now output_filename :
  endswith (output_name L now output_filename) ".pdf" = true ∧
  ∀ name, output_filename = Some name → endswith name ".pdf" = true →
    output_name L now output_filename = name.
Proof.
  split.
  - unfold output_name.
    set (name := match output_filename with Some n => _ | None => _ end).
    destruct (endswith name ".pdf") eqn:Hends; [done|]. apply endswith_app.
  - intros name -> Hends. unfold output_name.
    destruct name as [|x name]; [done|]. simpl. by rewrite Hends.
Qed.

End orchestrator_compositions.

(** ** The field matcher: what it touches and what it reports *)

Section matcher_compositions.
Import World Matcher Props.
Context (L : Lib).

Lemma widget_map_snoc (d : document) w :
  widget_map (d ++ [w])%list =
    if named w then <[field_name w := length d]> (widget_map d) else widget_map d.
Proof.
  unfold widget_map. rewrite imap_app, foldl_app. simpl.
  by rewrite Nat.add_0_r.
Qed.

(** [widget_map] indexes named widgets by their names. *)
Lemma widget_map_Some (d : document) key i :
  widget_map d !! key = Some i →
  ∃ w, d !! i = Some w ∧ named w = true ∧ field_name w = key.
Proof.
  revert i. induction d as [|w d IH] using rev_ind; intros i.
  - unfold widget_map. simpl. by rewrite lookup_empty.
  - rewrite widget_map_snoc. destruct (named w) eqn:Hnamed.
    + destruct (decide (field_name w = key)) as [<-|Hne].
      * rewrite lookup_insert_eq. intros [= <-]. exists w.
        by rewrite list_lookup_middle.
      * rewrite lookup_insert_ne by done. intros (w' & Hw' & ?)%IH.
        exists w'. split; [|done]. by apply lookup_app_l_Some.
    + intros (w' & Hw' & ?)%IH. exists w'. split; [|done]. by apply lookup_app_l_Some.
Qed.

Lemma widget_map_is_Some (d : document) w :
  w ∈ d → named w = true → is_Some (widget_map d !! field_name w).
Proof.
  induction d as [|w' d IH] using rev_ind; intros Hin Hnamed; [by inv Hin|].
  rewrite widget_map_snoc. apply elem_of_app in Hin as [Hin|Hin].
  - destruct (named w'); [|by apply IH].
    destruct (decide (field_name w' = field_name w)) as [->|Hne].
    + rewrite lookup_insert_eq. by eexists.
    + rewrite lookup_insert_ne by done. by apply IH.
  - apply list_elem_of_singleton in Hin as ->. rewrite Hnamed, lookup_insert_eq.
    by eexists.
Qed.

Lemma dict_get_set_eq {V : Type} k (v : V) d : dict_get k (dict_set k v d) = Some v.
Proof.
  induction d as [|[k' v'] d IH]; simpl.
  - by rewrite decide_True.
  - case_decide as Hk; simpl; [by rewrite decide_True|]. by rewrite decide_False.
Qed.

Lemma dict_get_set_ne {V : Type} k k' (v : V) d :
  k ≠ k' → dict_get k (dict_set k' v d) = dict_get k d.
Proof.
  intros Hne. induction d as [|[k'' v''] d IH]; simpl.
  - by rewrite decide_False.
  - case_decide as Hk; simpl.
    + subst k''. by rewrite !decide_False.
    + case_decide; [done|]. apply IH.
Qed.

Lemma dict_get_is_Some_keys {V : Type} k (d : list (string * V)) :
  is_Some (dict_get k d) → k ∈ keys d.
Proof.
  unfold keys. induction d as [|[k' v] d IH]; simpl; [by intros [? ?]|].
  case_decide as Hk; [subst; intros _; by left|]. intros H. right. by apply IH.
Qed.

(** The steps a loop of the matcher can take: nothing, or one
    assignment to a named widget of the document for a key of the field
    data. *)
Lemma exact_step_cases field_data d st key st' :
  Forall2 same_shape d (doc st) →
  exact_step L field_data (widget_map d) st key = Ok st' →
  st' = st ∨
  ∃ i w val,
    doc st !! i = Some w ∧ named w = true ∧ field_name w = key ∧
    dict_get key field_data = Some val ∧
    st' = assign true key i w (exact_value L w val) st.
Proof.
  intros Hshape. unfold exact_step.
  destruct (widget_map d !! key) as [i|] eqn:Hmap; [|intros [= <-]; by left].
  destruct (doc st !! i) as [w|] eqn:Hi; [|intros [= <-]; by left].
  destruct (getitem field_data key) as [val|] eqn:Hval; simpl; [|done].
  intros [= <-]. right. apply getitem_Ok in Hval.
  apply widget_map_Some in Hmap as (w0 & Hw0 & Hnamed & Hname).
  destruct (Forall2_lookup_lr _ _ _ _ _ _ Hshape Hw0 Hi) as (Hn & _ & _).
  exists i, w, val. repeat split; try done.
  - unfold named in *. by rewrite <-Hn.
  - by rewrite <-Hn.
Qed.

Lemma fuzzy_step_cases field_data st key st' :
  fuzzy_step L field_data st key = Ok st' →
  st' = st ∨
  ∃ i w val,
    doc st !! i = Some w ∧ named w = true ∧
    fuzzy_match L (str_lower L key) w = true ∧
    dict_get key field_data = Some val ∧
    st' = assign false key i w (fuzzy_value L w val) st.
Proof.
  unfold fuzzy_step.
  destruct (list_find _ (doc st)) as [[i w]|] eqn:Hfind; [|intros [= <-]; by left].
  apply list_find_Some in Hfind as (Hi & Hp & _).
  destruct (getitem field_data key) as [val|] eqn:Hval; simpl; [|done].
  intros [= <-]. right. apply getitem_Ok in Hval.
  apply andb_prop_elim in Hp as [Hnamed Hmatch].
  exists i, w, val. repeat split; try done; by apply Is_true_true.
Qed.

(** An invariant of both loops is an invariant of the matcher. *)
Lemma match_and_fill_ind (P : fill_state → Prop) E field_data d st :
  P {| doc := d; filled_count := 0;
       unmatched_keys := list_to_set (keys field_data);
       matched_fields_info := []; updates := [] |} →
  (∀ st (exact : bool) key i w val,
     P st → fill_inv L field_data d st → doc st !! i = Some w → named w = true →
     dict_get key field_data = Some val →
     (if exact then field_name w = key
      else fuzzy_match L (str_lower L key) w = true) →
     P (assign exact key i w
          (if exact then exact_value L w val else fuzzy_value L w val) st)) →
  match_and_fill L E field_data d = Ok st → P st.
Proof.
  intros H0 Hassign. unfold match_and_fill.
  set (st0 := {| doc := d; filled_count := 0; unmatched_keys := _;
                 matched_fields_info := []; updates := [] |}) in *.
  destruct (foldlM _ st0 _) as [st1|] eqn:Hpass1; simpl; [|done].
  intros Hpass2.
  assert (fill_inv L field_data d st0) as Hinv0.
  { split; [|split]; simpl; [|done|done].
    apply Forall2_same_length_lookup. split; [done|].
    intros i a b Ha Hb. rewrite Ha in Hb. by injection Hb as <-. }
  assert (P st1 ∧ fill_inv L field_data d st1) as [H1 Hinv1].
  { eapply (foldlM_inv (λ s, P s ∧ fill_inv L field_data d s));
      [by split| |exact Hpass1].
    intros a key a' [Ha Hinv] Hstep. split; [|by eapply exact_step_inv].
    destruct Hinv as (Hshape & ?).
    destruct (exact_step_cases _ _ _ _ _ Hshape Hstep)
      as [->|(i & w & val & Hi & Hn & Hname & Hval & ->)]; [done|].
    by apply (Hassign a true key i w val). }
  eapply (foldlM_inv (λ s, P s ∧ fill_inv L field_data d s));
    [by split| |exact Hpass2].
  intros a key a' [Ha Hinv] Hstep. split; [|by eapply fuzzy_step_inv].
  destruct (fuzzy_step_cases _ _ _ _ Hstep)
    as [->|(i & w & val & Hi & Hn & Hm & Hval & ->)]; [done|].
  by apply (Hassign a false key i w val).
Qed.

(** X15.  The matcher changes values and nothing else: the widgets keep
    their names, labels and types, every assignment goes to a widget that
    has a name, and a widget that shares its name with no widget an
    assignment was made to is exactly as it was. *)
Theorem X15_matcher_changes_values_only E field_data d st :
  match_and_fill L E field_data d = Ok st →
  Forall2 same_shape d (doc st) ∧
  (∀ u, u ∈ updates st → ∃ w, d !! u_index u = Some w ∧ named w = true) ∧
  (∀ i w, d !! i = Some w →
     (∀ u assigned, u ∈ updates st → d !! u_index u = Some assigned →
        field_name assigned ≠ field_name w) →
     doc st !! i = Some w).
Proof.
  intros Hfill. split; [by apply (match_and_fill_inv L E field_data)|].
  assert ((∀ u, u ∈ updates st → ∃ w, d !! u_index u = Some w ∧ named w = true) ∧
          (∀ i, (∀ u, u ∈ updates st → u_index u ≠ i) → doc st !! i = d !! i))
    as [Hnamed Hrest].
  { pattern st. eapply match_and_fill_ind; [| |exact Hfill]; cbv beta.
    - split; [by intros u ?%elem_of_nil|done].
    - intros st0 exact key i w val [Hupd Hrest] (Hshape & _) Hi Hnamed _ _.
      destruct (Forall2_lookup_r _ _ _ _ _ Hshape Hi) as (w0 & Hw0 & Hn & _ & _).
      split; simpl.
      + intros u [Hu|Hu]%elem_of_app; [by apply Hupd|].
        apply list_elem_of_singleton in Hu as ->. simpl. exists w0. split; [done|].
        unfold named in *. by rewrite Hn.
      + intros j Hj. rewrite list_lookup_insert_ne.
        * apply Hrest. intros u Hu. apply Hj, elem_of_app. by left.
        * intros ->. eapply (Hj _); [apply elem_of_app; right; by left|done]. }
  split; [exact Hnamed|].
  intros i w Hi Hnames. rewrite Hrest; [done|].
  intros u Hu Hidx. apply (Hnames u w Hu); [by rewrite Hidx|done].
Qed.

(** X16.  No key is dropped: after the matcher has run, the count of
    filled fields is the number of assignments made, every key of the
    field data is either still in the set of unmatched keys or has an
    entry in the field mappings, and every entry of the field mappings
    belongs to a key of the field data for which an assignment was made. *)
Theorem X16_no_key_is_dropped E field_data d st :
  match_and_fill L E field_data d = Ok st →
  filled_count st = length (updates st) ∧
  (∀ k, k ∈ unmatched_keys st → k ∈ keys field_data) ∧
  (∀ k, k ∈ keys field_data →
     k ∈ unmatched_keys st ∨ is_Some (dict_get k (matched_fields_info st))) ∧
  (∀ k, is_Some (dict_get k (matched_fields_info st)) →
     k ∈ keys field_data ∧ ∃ u, u ∈ updates st ∧ u_key u = k).
Proof.
  intros Hfill. pattern st. eapply match_and_fill_ind; [| |exact Hfill]; cbv beta.
  - simpl. split; [done|]. split; [by intros k ?%elem_of_list_to_set|].
    split; [intros k Hk; left; by apply elem_of_list_to_set|by intros k [? ?]].
  - intros st0 exact key i w val (Hcount & Hsub & Hall & Hmatched) _ _ _ Hval _.
    simpl. split; [by rewrite length_app, Hcount, Nat.add_1_r|].
    split; [intros k [Hk _]%elem_of_difference; by apply Hsub|]. split.
    + intros k Hk. destruct (decide (k = key)) as [->|Hne].
      * right. rewrite dict_get_set_eq. by eexists.
      * rewrite dict_get_set_ne by done. destruct (Hall k Hk) as [Hun|Hm]; [|by right].
        left. apply elem_of_difference. split; [done|].
        by intros ?%elem_of_singleton.
    + intros k Hk. destruct (decide (k = key)) as [->|Hne].
      * split; [apply dict_get_is_Some_keys; by eexists|].
        eexists. split; [apply elem_of_app; right; by left|done].
      * rewrite dict_get_set_ne in Hk by done.
        destruct (Hmatched k Hk) as [Hin (u & Hu & Hku)].
        split; [done|]. exists u. split; [|done]. apply elem_of_app. by left.
Qed.

Lemma foldlM_reach {A B : Type} (I Q : A → Prop) (b0 : B) (f : A → B → result A) l a a' :
  I a → Q a ∨ b0 ∈ l →
  (∀ a b a', I a → f a b = Ok a' → I a' ∧ (b = b0 → Q a') ∧ (Q a → Q a')) →
  foldlM f a l = Ok a' → I a' ∧ Q a'.
Proof.
  intros Ha Hq Hf. revert a Ha Hq. induction l as [|b l IH]; intros a Ha Hq; simpl.
  - intros [= <-]. destruct Hq as [?|?%elem_of_nil]; done.
  - destruct (f a b) as [a1|] eqn:Hfa; simpl; [|done].
    destruct (Hf a b a1 Ha Hfa) as (Ha1 & Hhit & Hkeep).
    apply IH; [done|]. destruct Hq as [Hq|[->|Hin]%elem_of_cons]; auto.
Qed.

Lemma foldlM_inv_on {A B : Type} (P : A → Prop) (R : B → Prop)
    (f : A → B → result A) l a a' :
  P a → Forall R l →
  (∀ a b a', P a → R b → f a b = Ok a' → P a') →
  foldlM f a l = Ok a' → P a'.
Proof.
  intros Ha Hl Hf. revert a Ha. induction Hl as [|b l Hb Hl IH]; intros a Ha; simpl.
  - by intros [= <-].
  - destruct (f a b) as [a1|] eqn:Hfa; simpl; [|done]. eauto.
Qed.

(** X17.  An exact name wins.  When sets are enumerated by exactly their
    members, a key of the field data that is the name of a widget is
    mapped to that name in the field mappings, is not reported as
    unmatched, and was assigned by the exact pass with the value that pass
    computes; the fuzzy pass does not touch the mapping of that key. *)
Theorem X17_exact_name_wins E field_data d st key val w :
  (∀ s k, k ∈ set_iter E s ↔ k ∈ s) →
  match_and_fill L E field_data d = Ok st →
  dict_get key field_data = Some val →
  w ∈ d → named w = true → field_name w = key →
  dict_get key (matched_fields_info st) = Some key ∧
  (key ∉ unmatched_keys st) ∧
  ∃ u w',
    u ∈ updates st ∧ exact_pass u = true ∧ u_key u = key ∧
    d !! u_index u = Some w' ∧ field_name w' = key ∧
    u_value u = exact_value L w' val.
Proof.
  intros Hiter Hfill Hval Hin Hnamed Hname.
  set (Q := λ s : fill_state,
    dict_get key (matched_fields_info s) = Some key ∧
    (key ∉ unmatched_keys s) ∧
    ∃ u w', u ∈ updates s ∧ exact_pass u = true ∧ u_key u = key ∧
            d !! u_index u = Some w' ∧ field_name w' = key ∧
            u_value u = exact_value L w' val).
  assert (∀ s (exact : bool) k i x v, Q s → (exact = true → field_name x = k) →
            (exact = false → k ≠ key) → Q (assign exact k i x v s)) as Hkeep.
  { intros s exact k i x v (Hm & Hun & u & w' & Hu & Hrest) Hexact Hfuzzy.
    split; [|split]; simpl.
    - destruct (decide (key = k)) as [<-|Hne].
      + destruct exact; [|by destruct (Hfuzzy eq_refl)].
        by rewrite dict_get_set_eq, Hexact.
      + by rewrite dict_get_set_ne.
    - by intros [? _]%elem_of_difference.
    - exists u, w'. split; [apply elem_of_app; by left|done]. }
  revert Hfill. unfold match_and_fill.
  set (st0 := {| doc := d; filled_count := 0; unmatched_keys := _;
                 matched_fields_info := []; updates := [] |}).
  destruct (foldlM _ st0 _) as [st1|] eqn:Hpass1; simpl; [|done].
  intros Hpass2.
  assert (fill_inv L field_data d st0) as Hinv0.
  { split; [|split]; simpl; [|done|done].
    apply Forall2_same_length_lookup. split; [done|].
    intros i a b Ha Hb. rewrite Ha in Hb. by injection Hb as <-. }
  assert (fill_inv L field_data d st1 ∧ Q st1) as [Hinv1 H1].
  { eapply (foldlM_reach (fill_inv L field_data d) Q key); [exact Hinv0| | |exact Hpass1].
    - right. apply Hiter. simpl. apply elem_of_list_to_set.
      apply dict_get_is_Some_keys. by eexists.
    - intros s k s' Hinv Hstep. split; [by eapply exact_step_inv|].
      destruct Hinv as (Hshape & _). split.
      + intros ->. revert Hstep. unfold exact_step.
        destruct (widget_map_is_Some d w Hin Hnamed) as [i Hi]. rewrite Hname in Hi.
        rewrite Hi.
        destruct (widget_map_Some _ _ _ Hi) as (w0 & Hw0 & _ & Hname0).
        destruct (Forall2_lookup_l _ _ _ _ _ Hshape Hw0) as (x & Hx & Hsame).
        rewrite Hx. unfold getitem. rewrite Hval. simpl. intros [= <-].
        destruct Hsame as (Hn & ?). split; [|split]; simpl.
        * by rewrite dict_get_set_eq, <-Hn, Hname0.
        * intros [_ Hk]%elem_of_difference. by apply Hk, elem_of_singleton.
        * eexists _, w0. split; [apply elem_of_app; right; by left|]. simpl.
          repeat split; try done. by apply exact_value_shape.
      + intros Hq.
        destruct (exact_step_cases _ _ _ _ _ Hshape Hstep)
          as [->|(i & x & v & _ & _ & Hx & _ & ->)]; [done|].
        by apply Hkeep. }
  eapply (foldlM_inv_on Q (λ k, k ≠ key)); [exact H1| | |exact Hpass2].
  - apply Forall_forall. intros k Hk%Hiter ->. by destruct H1 as (_ & Hun & _).
  - intros s k s' Hq Hk Hstep.
    destruct (fuzzy_step_cases _ _ _ _ Hstep)
      as [->|(i & x & v & _ & _ & _ & _ & ->)]; [done|].
    by apply Hkeep.
Qed.

End matcher_compositions.

(** ** Delivery and deletion over several calls *)

Section delivery_compositions.
Import World FormLogic Delivery Tools Resources More Props.
Context (L : Lib).

Lemma with_fs_same w : with_fs (fs w) w = w.
Proof. by destruct w. Qed.

Lemma download_absent C E filename delete_after_read only_preview ignore_size_limit w :
  fs w !! filled_form_path L C filename = None →
  download_filled_form_logic L C E filename delete_after_read only_preview
    ignore_size_limit w =
    (w, DownloadFailed ("File '" +:+ filename +:+ "' not found on server.")).
Proof.
  intros Hnone. unfold download_filled_form_logic.
  unfold filled_form_path in Hnone. by rewrite Hnone.
Qed.

(** X19.  A download touches one file at most: whatever the file name, it
    looks only at [FILLED_FORMS_DIR / Path(filename).name], it either
    leaves the file system as it is or removes that one file, it never
    changes the ledger or the manifest, and for a name under which nothing
    is stored it fails with "not found" and changes nothing. *)
Theorem X19_download_touches_one_file C E filename delete_after_read only_preview
    ignore_size_limit w :
  let file_path := filled_form_path L C filename in
  let r := download_filled_form_logic L C E filename delete_after_read only_preview
             ignore_size_limit w in
  _protector r.1 = _protector w ∧
  _file_sync r.1 = _file_sync w ∧
  (fs r.1 = fs w ∨ fs r.1 = delete file_path (fs w)) ∧
  (fs w !! file_path = None →
     r = (w, DownloadFailed ("File '" +:+ filename +:+ "' not found on server."))).
Proof.
  intros file_path r. subst r.
  split; [|split; [|split; [|apply download_absent]]].
  all: unfold download_filled_form_logic; fold (filled_form_path L C filename);
    fold file_path.
  all: destruct (fs w !! file_path) as [entry|] eqn:Hentry; [|by auto].
  all: destruct (negb (IS_CLOUD C) && negb (IS_REMOTE C)); [by auto|].
  all: destruct (_ && negb ignore_size_limit && negb only_preview); [by auto|].
  all: destruct (read_bytes L (fs w) file_path) as [file_bytes|e]; [|by auto].
  all: destruct (if only_preview then false else default (IS_CLOUD C) delete_after_read);
    [|by auto].
  all: unfold unlink; rewrite Hentry; destruct entry; simpl; auto.
Qed.

(** X20.  A preview, and any download on a local installation, returns no
    file bytes and deletes nothing, even when deletion after reading was
    asked for. *)
Theorem X20_preview_and_local_keep_the_file C E filename delete_after_read only_preview
    ignore_size_limit w :
  only_preview = true ∨ (IS_CLOUD C = false ∧ IS_REMOTE C = false) →
  let r := download_filled_form_logic L C E filename delete_after_read only_preview
             ignore_size_limit w in
  content_base64 r.2 = None ∧ r.1 = w.
Proof.
  intros Hmode r. subst r. unfold download_filled_form_logic.
  destruct (fs w !! _) as [entry|] eqn:Hentry; [|done].
  destruct Hmode as [->|[-> ->]]; [|done].
  destruct (negb (IS_CLOUD C) && negb (IS_REMOTE C)); [done|].
  rewrite andb_false_r.
  destruct (read_bytes L (fs w) _) as [file_bytes|e]; [|done].
  simpl. by rewrite with_fs_same.
Qed.

(** X21.  In cloud mode a download reads once: a retrieval with the
    default setting returns the bytes (for a file within the threshold, or
    any file when the limit is ignored) and removes the file, so that
    every later download of the name fails with "not found". *)
Theorem X21_cloud_download_reads_once C E filename ignore_size_limit w content :
  IS_CLOUD C = true →
  fs w !! filled_form_path L C filename = Some (File content) →
  (Z.of_nat (String.length content) ≤ SAFE_THRESHOLD)%Z ∨ ignore_size_limit = true →
  let first := download_filled_form_logic L C E filename None false ignore_size_limit w in
  content_base64 first.2 = Some (b64encode L content) ∧
  fs first.1 = delete (filled_form_path L C filename) (fs w) ∧
  ∀ E' delete_after_read only_preview ignore',
    (download_filled_form_logic L C E' filename delete_after_read only_preview ignore'
       first.1).2 =
      DownloadFailed ("File '" +:+ filename +:+ "' not found on server.").
Proof.
  intros Hcloud Hfile Hsize first.
  assert (first = (with_fs (delete (filled_form_path L C filename) (fs w)) w,
                   Retrieved (path_name L filename)
                     (field_summary L E (fs w) (filled_form_path L C filename))
                     (Z.of_nat (String.length content))
                     ("Successfully retrieved '" +:+ path_name L filename +:+ "'.")
                     "Decode 'content_base64' and save as .pdf."
                     (Some (b64encode L content)))) as ->.
  { subst first. unfold download_filled_form_logic.
    fold (filled_form_path L C filename). rewrite Hfile, Hcloud. simpl.
    assert (bool_decide (SAFE_THRESHOLD < Z.of_nat (String.length content)) &&
              negb ignore_size_limit && true = false) as ->.
    { destruct Hsize as [Hsize| ->].
      - by rewrite bool_decide_eq_false_2 by lia.
      - by rewrite andb_false_r. }
    rewrite (read_bytes_file L _ _ content) by done.
    by rewrite (unlink_file L _ _ content). }
  split; [done|]. split; [done|].
  intros E' delete_after_read only_preview ignore'.
  rewrite download_absent; [done|]. simpl. apply lookup_delete_eq.
Qed.

Lemma delete_present C filename w content :
  fs w !! filled_form_path L C filename = Some (File content) →
  delete_filled_form L C filename w =
    (with_fs (delete (filled_form_path L C filename) (fs w)) w, ToolOk "Deleted.").
Proof.
  intros Hfile. unfold delete_filled_form, exists_.
  fold (filled_form_path L C filename).
  rewrite bool_decide_eq_true_2 by by eexists.
  by rewrite (unlink_file L _ _ content).
Qed.

Lemma delete_absent C filename w :
  fs w !! filled_form_path L C filename = None →
  delete_filled_form L C filename w = (w, ToolError "Not found.").
Proof.
  intros Hnone. unfold delete_filled_form, exists_.
  fold (filled_form_path L C filename).
  rewrite bool_decide_eq_false_2; [done|]. rewrite Hnone. by intros [? ?].
Qed.

(** X22.  Deletion is final and local: after a filled form has been
    deleted, deleting it again reports "Not found.", every download of it
    fails with "not found", and every other file, the ledger and the
    manifest are as before. *)
Theorem X22_deletion_is_final C filename w content :
  fs w !! filled_form_path L C filename = Some (File content) →
  let deleted := delete_filled_form L C filename w in
  deleted.2 = ToolOk "Deleted." ∧
  (delete_filled_form L C filename deleted.1).2 = ToolError "Not found." ∧
  (∀ E delete_after_read only_preview ignore_size_limit,
     (download_filled_form_logic L C E filename delete_after_read only_preview
        ignore_size_limit deleted.1).2 =
       DownloadFailed ("File '" +:+ filename +:+ "' not found on server.")) ∧
  (∀ p, p ≠ filled_form_path L C filename → fs deleted.1 !! p = fs w !! p) ∧
  _protector deleted.1 = _protector w ∧
  _file_sync deleted.1 = _file_sync w.
Proof.
  intros Hfile deleted. subst deleted. rewrite (delete_present _ _ _ content) by done.
  simpl. split; [done|].
  assert (fs (with_fs (delete (filled_form_path L C filename) (fs w)) w)
            !! filled_form_path L C filename = None) as Hgone
    by apply lookup_delete_eq.
  split; [by rewrite delete_absent|].
  split; [intros; by rewrite download_absent|].
  split; [|done]. intros p Hp. by apply lookup_delete_ne.
Qed.

(** X23.  The ledger outlives the artifact: after a completed fill and
    the deletion of its artifact, the same request is still answered
    ALREADY_COMPLETED with the path of the deleted file, and the file is
    not made again. *)
Theorem X23_ledger_outlives_artifact C E form_url field_data output_filename flatten
    force_recompute w filename :
  let first := perform_form_filling_logic L C E form_url field_data output_filename
                 flatten force_recompute w in
  status first.2 = Some "COMPLETED" →
  result_saved_path first.2 = Some (filled_form_path L C filename) →
  let deleted := delete_filled_form L C filename first.1 in
  deleted.2 = ToolOk "Deleted." ∧
  ∀ E' output_filename' flatten',
    let again := perform_form_filling_logic L C E' form_url field_data output_filename'
                   flatten' false deleted.1 in
    status again.2 = Some "ALREADY_COMPLETED" ∧
    result_saved_path again.2 = Some (filled_form_path L C filename) ∧
    fs again.1 !! filled_form_path L C filename = None.
Proof.
  intros first Hstatus Hpath deleted.
  destruct (perform_completed L C E form_url field_data output_filename flatten
              force_recompute w Hstatus)
    as (opened & st & name & saved_path & file_id & saved & _ & _ & Hr & Hfs & _ & Hprot).
  fold first in Hr, Hfs, Hprot. rewrite Hr in Hpath. simpl in Hpath.
  injection Hpath as ->.
  subst deleted. rewrite (delete_present _ _ _ saved) by done.
  split; [done|]. intros E' output_filename' flatten' again. subst again.
  cbn [fst].
  rewrite (perform_hit L _ _ _ _ _ _ _ (filled_form_path L C filename) file_id).
  - simpl. do 2 (split; [done|]). apply lookup_delete_eq.
  - simpl. rewrite Hprot. apply check_save.
Qed.

End delivery_compositions.

(** ** Retrieval by resource *)

Section resource_compositions.
Import World FormLogic Delivery Tools Resources More Props.
Context (L : Lib).

(** X24.  The forms resource reads once, and only within the limit.  In
    remote or cloud mode it returns the base64 of a file of at most
    200 * 1024 bytes and removes the file; for a larger file, the very
    file a download refers to this resource, it returns "Data: None" and
    leaves the file where it is. *)
Theorem X24_forms_resource C E filename w content :
  IS_CLOUD C || IS_REMOTE C = true →
  fs w !! filled_form_path L C filename = Some (File content) →
  let size := Z.of_nat (String.length content) in
  let r := get_filled_form_resource L C E filename w in
  if decide (size ≤ SAFE_THRESHOLD)%Z then
    r.2 = describe filename size (Some (b64encode L content)) ∧
    fs r.1 = delete (filled_form_path L C filename) (fs w)
  else
    r.2 = describe filename size None ∧ r.1 = w.
Proof.
  intros Hmode Hfile size r. subst r size.
  unfold get_filled_form_resource, download_filled_form_logic.
  fold (filled_form_path L C filename). rewrite Hfile.
  assert (negb (IS_CLOUD C) && negb (IS_REMOTE C) = false) as ->.
  { by destruct (IS_CLOUD C), (IS_REMOTE C). }
  simpl node_size. rewrite !andb_true_r. case_decide as Hsize.
  - rewrite bool_decide_eq_false_2 by lia.
    rewrite (read_bytes_file L _ _ content) by done. simpl.
    by rewrite (unlink_file L _ _ content).
  - by rewrite bool_decide_eq_true_2 by lia.
Qed.

Lemma sync_unknown file_id w :
  FileSync.manifest (_file_sync w) !! file_id = None →
  sync_file_to_client L file_id w =
    JObj [("error", JStr ("File " +:+ file_id +:+ " not found"))].
Proof. intros H. unfold sync_file_to_client. by rewrite H. Qed.

(** X25.  The sync resource follows the manifest, not the disk.  After a
    completed fill the resource of the returned file id carries the base64
    of the artifact; once the artifact has been deleted the resource still
    answers success for that id, with no content. *)
Theorem X25_sync_resource_follows_manifest C E form_url field_data output_filename
    flatten force_recompute w filename :
  let first := perform_form_filling_logic L C E form_url field_data output_filename
                 flatten force_recompute w in
  status first.2 = Some "COMPLETED" →
  result_saved_path first.2 = Some (filled_form_path L C filename) →
  ∃ file_id saved,
    result_file_id first.2 = Some file_id ∧
    fs first.1 !! filled_form_path L C filename = Some (File saved) ∧
    sync_file_to_client L file_id first.1 =
      JObj [("success", JBool true); ("file_id", JStr file_id);
            ("content_base64", JStr (b64encode L saved))] ∧
    sync_file_to_client L file_id (delete_filled_form L C filename first.1).1 =
      JObj [("success", JBool true); ("file_id", JStr file_id);
            ("content_base64", JNull)].
Proof.
  intros first Hstatus Hpath.
  destruct (perform_completed L C E form_url field_data output_filename flatten
              force_recompute w Hstatus)
    as (opened & st & name & saved_path & file_id & saved & _ & _ & Hr & Hfs & Hsync & _).
  fold first in Hr, Hfs, Hsync. rewrite Hr in Hpath |- *. simpl in Hpath.
  injection Hpath as ->. exists file_id, saved. do 2 (split; [done|]).
  rewrite (delete_present L _ _ _ saved) by done.
  unfold sync_file_to_client, get_file_as_base64. simpl. rewrite Hsync. simpl.
  rewrite !lookup_insert_eq. simpl. by rewrite Hfs, lookup_delete_eq.
Qed.

End resource_compositions.

(** ** Analysis and visual preview *)

Section inspect_properties.
Import World FormLogic Inspect More Props.
Context (L : Lib).

Ltac unfold_steps :=
  unfold mbind, M_bind, mret, M_ret, lift, get_world, modify in *.

(** X26.  The page of a preview is checked against the document: a page
    number that is negative or not below the number of pages is refused
    with the range in the message and nothing is rendered; a page number
    within the range yields the rendering of that page, reported under its
    one-based number. *)
Theorem X26_preview_page_bounds C E X filename page_num w content opened :
  fs w !! filled_form_path L C filename = Some (File content) →
  fitz_open E content = Ok opened →
  let total := page_count X content in
  let r := get_form_visual_preview_logic L C E X filename page_num w in
  if decide (0 ≤ page_num < total)%Z then
    match render_jpg X content page_num with
    | Ok img_bytes =>
        ∃ message,
          r = Rendered (path_name L filename) (page_num + 1) total
                (b64encode L img_bytes) "jpg" (Z.of_nat (String.length img_bytes))
                message ∧
          (1 ≤ page_num + 1 ≤ total)%Z
    | Raise e => r = PreviewFailed e
    end
  else
    r = PreviewFailed ("Page index " +:+ pretty page_num +:+ " out of range (0-" +:+
                       pretty (total - 1) +:+ ").").
Proof.
  intros Hfile Hopen total r. subst r.
  unfold get_form_visual_preview_logic, exists_.
  fold (filled_form_path L C filename).
  rewrite bool_decide_eq_true_2 by by eexists. simpl.
  rewrite (read_bytes_file L _ _ content) by done. rewrite Hopen. fold total.
  case_decide as Hrange.
  - rewrite !bool_decide_eq_false_2 by lia. simpl.
    destruct (render_jpg X content page_num) as [img_bytes|e]; [|done].
    eexists. split; [done|lia].
  - destruct (decide (page_num < 0)) as [Hneg|Hnonneg].
    + by rewrite (bool_decide_eq_true_2 (page_num < 0)).
    + rewrite (bool_decide_eq_false_2 (page_num < 0)) by done.
      rewrite bool_decide_eq_true_2 by lia. done.
Qed.

Lemma acquire_document_path C E form_url w w1 p :
  acquire_document L C E form_url w = (w1, Ok p) → p = cached_form_path L C form_url.
Proof.
  unfold acquire_document. unfold_steps.
  destruct (exists_ (fs w) _); [by intros [= _ <-]|].
  destruct (http_get _ form_url); [|done].
  destruct (write_bytes L (fs w) _ _); [|done]. by intros [= _ <-].
Qed.

(** X27.  Analysis and fill share the cached form.  An analysis changes
    neither the ledger nor the manifest; when it does not fail with an
    exception, the form is in the forms cache, so that a fill of the same
    URL that follows does exactly what it does with the server out of
    reach; and a successful analysis reports the URL it was given and a
    number of fields that is the length of its field list and not zero. *)
Theorem X27_analysis_shares_the_cache C E X form_url w :
  let a := analyze_form_for_filling_logic L C E X form_url w in
  _protector a.1 = _protector w ∧
  _file_sync a.1 = _file_sync w ∧
  ((∀ e, a.2 ≠ AnalysisFailed e) →
     exists_ (fs a.1) (cached_form_path L C form_url) = true ∧
     ∀ field_data output_filename flatten force_recompute,
       perform_form_filling_logic L C E form_url field_data output_filename flatten
         force_recompute a.1 =
       perform_form_filling_logic L C (offline E) form_url field_data output_filename
         flatten force_recompute a.1) ∧
  (∀ url total fields instructions,
     a.2 = Analyzed url total fields instructions →
     url = form_url ∧ total = Z.of_nat (length fields) ∧ (0 < total)%Z).
Proof.
  intros a. subst a. unfold analyze_form_for_filling_logic. unfold_steps.
  assert (∀ w' e,
    _protector w' = _protector w → _file_sync w' = _file_sync w →
    _protector w' = _protector w ∧ _file_sync w' = _file_sync w ∧
    ((∀ e', AnalysisFailed e ≠ AnalysisFailed e') →
       exists_ (fs w') (cached_form_path L C form_url) = true ∧
       ∀ field_data output_filename flatten force_recompute,
         perform_form_filling_logic L C E form_url field_data output_filename flatten
           force_recompute w' =
         perform_form_filling_logic L C (offline E) form_url field_data
           output_filename flatten force_recompute w') ∧
    (∀ url total fields instructions,
       AnalysisFailed e = Analyzed url total fields instructions →
       url = form_url ∧ total = Z.of_nat (length fields) ∧ (0 < total)%Z)) as Hfailed.
  { intros w' e ? ?. do 2 (split; [done|]). split; [|done].
    intros Hok. by destruct (Hok e). }
  destruct (acquire_document L C (analysis_env X E) form_url w)
    as [w1 [local_path|e]] eqn:Hacq.
  2: { apply acquire_document_frame in Hacq as (_ & ? & ?). by apply Hfailed. }
  pose proof (acquire_document_frame L _ _ _ _ _ _ Hacq) as (_ & Hprot & Hsync).
  apply acquire_document_path in Hacq as ->.
  destruct (read_bytes L (fs w1) (cached_form_path L C form_url)) as [content|e] eqn:Hread.
  2: { by apply Hfailed. }
  assert (exists_ (fs w1) (cached_form_path L C form_url) = true) as Hcached.
  { unfold read_bytes in Hread. apply bool_decide_eq_true_2.
    destruct (fs w1 !! _) as [[?|?]|]; try done; by eexists. }
  destruct (fitz_open E content) as [opened|e].
  2: { by apply Hfailed. }
  destruct (extract_fields X content opened) as [|field rest] eqn:Hfields; simpl.
  - do 2 (split; [done|]). split; [|done].
    intros _. split; [done|]. intros. by apply cached_form_offline.
  - do 2 (split; [done|]). split.
    + intros _. split; [done|]. intros. by apply cached_form_offline.
    + intros ???? [= <- <- <- _]. split; [done|]. split; [done|]. simpl. lia.
Qed.

End inspect_properties.

(** ** Listing tools: filtering and paging *)

Section listing_properties.
Import Cache ApiClient CatalogTools More Props.
Context (L : Lib).

Lemma clamp_page_size_bounds page_size :
  (1 ≤ clamp_page_size page_size ≤ 50)%Z ∧
  ((1 ≤ page_size ≤ 50)%Z → clamp_page_size page_size = page_size).
Proof. unfold clamp_page_size. lia. Qed.

Lemma page_start_of_nat (n : nat) page_size :
  Z.to_nat (page_start (Z.of_nat (S n)) page_size) =
    (n * Z.to_nat (clamp_page_size page_size))%nat.
Proof.
  unfold page_start. pose proof (clamp_page_size_bounds page_size) as [? _].
  rewrite Z.max_r by lia.
  replace (Z.of_nat (S n) - 1)%Z with (Z.of_nat n) by lia.
  rewrite Z2Nat.inj_mul by lia. by rewrite Nat2Z.id.
Qed.

(** The items of one page, as the listing tools cut them out. *)
Lemma page_items {A : Type} page page_size (l : list A) :
  py_slice (page_start page page_size)
           (page_start page page_size + clamp_page_size page_size) l =
    firstn (Z.to_nat (clamp_page_size page_size))
           (skipn (Z.to_nat (page_start page page_size)) l).
Proof. unfold py_slice. do 2 f_equal. lia. Qed.

(** X28.  Pages cut a list without loss or overlap.  With the page size
    clamped to 1..50, the pages 1, 2, ..., n of a listing, one after the
    other, are the first n times the page size items of the list, in
    order; a page holds at most 50 items; and a page number below 1 gives
    page 1. *)
Theorem X28_pages_partition_the_list {A : Type} page_size (l : list A) :
  let page p :=
    py_slice (page_start p page_size) (page_start p page_size + clamp_page_size page_size)
      l in
  (∀ n : nat,
     concat ((λ p : nat, page (Z.of_nat p)) <$> seq 1 n) =
       firstn (n * Z.to_nat (clamp_page_size page_size)) l) ∧
  (∀ p, (length (page p) ≤ 50)%nat) ∧
  (∀ p, (p ≤ 1)%Z → page p = page 1).
Proof.
  intros page. subst page. cbv beta.
  pose proof (clamp_page_size_bounds page_size) as [Hclamp _].
  split; [|split].
  - induction n as [|n IH]; [done|].
    rewrite seq_S, fmap_app, concat_app, IH. simpl. rewrite app_nil_r.
    rewrite page_items, page_start_of_nat.
    rewrite take_take_drop. f_equal. lia.
  - intros p. rewrite page_items, length_take. lia.
  - intros p Hp. unfold page_start. by rewrite !Z.max_l by lia.
Qed.

Lemma filterM_Ok {A : Type} (f : A → result bool) l kept :
  filterM f l = Ok kept → ∀ x, x ∈ kept → x ∈ l ∧ f x = Ok true.
Proof.
  revert kept. induction l as [|a l IH]; intros kept; simpl.
  - intros [= <-] x Hx. by apply elem_of_nil in Hx.
  - destruct (f a) as [keep|] eqn:Hfa; simpl; [|done].
    destruct (filterM f l) as [kept'|]; simpl; [|done].
    intros [= <-] x Hx. destruct keep.
    + apply elem_of_cons in Hx as [->|Hx]; [split; [by left|done]|].
      destruct (IH kept' eq_refl x Hx). split; [by right|done].
    + destruct (IH kept' eq_refl x Hx). split; [by right|done].
Qed.

Lemma mapM_result_Ok {A B : Type} (f : A → result B) l out :
  mapM_result f l = Ok out → Forall2 (λ a b, f a = Ok b) l out.
Proof.
  revert out. induction l as [|a l IH]; intros out; simpl.
  - intros [= <-]. constructor.
  - destruct (f a) as [b|] eqn:Hfa; simpl; [|done].
    destruct (mapM_result f l) as [bs|]; simpl; [|done].
    intros [= <-]. constructor; [done|]. by apply IH.
Qed.

(** X29.  What the online listing returns.  When [find_online_services]
    succeeds it returns at most 50 entries and at most the clamped page
    size, and every entry is the id and the name of a service of the
    fetched catalog whose [onlineservices] or [onlineprocessing] is
    truthy. *)
Theorem X29_online_listing_is_sound X created now response page page_size c results :
  (find_online_services L X created now response page page_size c).2 = Listing results →
  let data := (fetch_services_data L created now response false c).2.1 in
  (length results ≤ 50)%nat ∧
  (Z.of_nat (length results) ≤ clamp_page_size page_size)%Z ∧
  ∃ services,
    py_get "data" (JArr []) data ≫= py_iter X = Ok services ∧
    ∀ entry, entry ∈ results →
      ∃ s, s ∈ services ∧ is_online s = Ok true ∧ id_and_name s = Ok entry.
Proof.
  intros Hrun data. unfold find_online_services in Hrun. fold data in Hrun.
  destruct (py_get "data" (JArr []) data ≫= py_iter X) as [services|] eqn:Hservices;
    simpl in Hrun; [|done].
  destruct (filterM is_online services) as [online|] eqn:Honline; simpl in Hrun; [|done].
  destruct (mapM_result id_and_name _) as [out|] eqn:Hout; [|done].
  injection Hrun as ->.
  apply mapM_result_Ok in Hout. rewrite page_items in Hout.
  pose proof (Forall2_length _ _ _ Hout) as Hlen. rewrite length_take in Hlen.
  pose proof (clamp_page_size_bounds page_size) as [Hclamp _].
  split; [lia|]. split; [lia|].
  exists services. split; [done|]. intros entry Hentry.
  apply list_elem_of_lookup in Hentry as [i Hi].
  destruct (Forall2_lookup_r _ _ _ _ _ Hout Hi) as (s & Hs & Hname).
  exists s. apply list_elem_of_lookup_2 in Hs.
  apply subseteq_take, subseteq_drop in Hs.
  destruct (filterM_Ok _ _ _ Honline s Hs). by repeat split.
Qed.

End listing_properties.

(** ** The further properties on concrete runs *)

Section more_examples.
Import World Matcher FormLogic Delivery Tools Props More Resources Inspect CatalogTools.

(** Runs the call of a goal [∃ st, call = Ok st ∧ _] and keeps its
    equation. *)
Ltac run_call st Hrun :=
  match goal with
  | |- ∃ _, ?call = Ok _ ∧ _ =>
      destruct call as [st|] eqn:Hrun;
      [|exfalso; vm_compute in Hrun; discriminate Hrun];
      exists st; split; [reflexivity|];
      let H := fresh in pose proof Hrun as H; vm_compute in H; injection H as <-
  end.

Lemma X1_live_snapshot_is_reused_witness :
  let first :=
    ApiClient.fetch_services_data Sample.lib 0 1000000 (Ok Sample2.catalog) false
      (ApiClient._cache Absent) in
  first.2.2 = "live" ∧
  2000000 - 1000000 < seconds (Cache.ttl (ApiClient._cache Absent)) ∧
  ApiClient.fetch_services_data Sample.lib 0 2000000 (Raise "timed out") false first.1 =
    (first.1, (first.2.1, "memory")).
Proof.
  intros first.
  assert (first.2.2 = "live") as Hlive by (vm_compute; reflexivity).
  split; [exact Hlive|]. split; [reflexivity|].
  exact (X1_live_snapshot_is_reused Sample.lib 0 1000000 2000000 (Ok Sample2.catalog)
           (Raise "timed out") false (ApiClient._cache Absent) Hlive eq_refl).
Defined.

Lemma X2_forced_refresh_bypasses_cache_witness :
  Cache.is_valid 2000000 Sample2.warm (Cache._memory_timestamp Sample2.warm) = true ∧
  ApiClient.fetch_services_data Sample.lib 0 2000000 (Raise "timed out") true Sample2.warm =
    (Sample2.warm, (ApiClient.FALLBACK_DATA Sample.lib 0, "fallback")) ∧
  ApiClient.fetch_services_data Sample.lib 0 2000000 (Raise "timed out") false Sample2.warm =
    (Sample2.warm, (Cache._memory_cache Sample2.warm, "memory")).
Proof.
  split; [reflexivity|].
  apply (X2_forced_refresh_bypasses_cache Sample.lib 0 2000000 (Raise "timed out")
           (Raise "timed out") Sample2.warm).
  - intros (data & H & _). discriminate H.
  - reflexivity.
Defined.

Lemma X4_disk_tier_survives_restart_witness :
  nonempty_catalog Sample2.catalog = true ∧
  fromisoformat Sample.lib (isoformat Sample.lib 1000000) = Some 1000000 ∧
  let restarted :=
    Cache.init (Cache.cache_file (Cache.set Sample.lib 1000000 Sample2.catalog
                                    (ApiClient._cache Absent))) 3600 in
  ApiClient.fetch_services_data Sample.lib 0 2000000 (Raise "timed out") false restarted =
    (restarted, (Sample2.catalog, "disk")).
Proof.
  split; [reflexivity|]. split; [vm_compute; reflexivity|].
  apply (X4_disk_tier_survives_restart Sample.lib 0 1000000 2000000 (Raise "timed out")
           Sample2.catalog (ApiClient._cache Absent)).
  - reflexivity.
  - vm_compute. reflexivity.
  - reflexivity.
  - intros (data & H & _). discriminate H.
Defined.

Lemma X5_expired_snapshot_is_not_served_witness :
  let stored := Cache.set Sample.lib 1000000 Sample2.catalog (ApiClient._cache Absent) in
  (seconds (Cache.ttl (ApiClient._cache Absent)) ≤ 3601000000 - 1000000)%Z ∧
  ApiClient.fetch_services_data Sample.lib 0 3601000000 (Raise "timed out") false stored =
    (stored, (ApiClient.FALLBACK_DATA Sample.lib 0, "fallback")).
Proof.
  intros stored.
  assert (seconds (Cache.ttl (ApiClient._cache Absent)) ≤ 3601000000 - 1000000)%Z as Hold
    by (vm_compute; discriminate).
  split; [exact Hold|].
  apply (X5_expired_snapshot_is_not_served Sample.lib 0 1000000 3601000000
           (Raise "timed out") Sample2.catalog (ApiClient._cache Absent)).
  - vm_compute. reflexivity.
  - exact Hold.
  - intros (data & H & _). discriminate H.
Defined.

Lemma X6_status_reports_a_service_witness :
  cache_wf Sample.lib (ApiClient._cache Absent) ∧
  ∃ source total,
    (get_api_status Sample.lib Sample2.env2 0 1000000 (Ok Sample2.catalog)
       (ApiClient._cache Absent)).2 = StatusOk source total ∧
    (1 ≤ total)%Z.
Proof.
  split; [apply cache_wf_init_absent|].
  destruct (X6_status_reports_a_service Sample.lib Sample2.env2 0 1000000
              (Ok Sample2.catalog) (ApiClient._cache Absent)
              (cache_wf_init_absent Sample.lib 3600))
    as (source & total & Hstatus & _ & Htotal).
  exists source, total. split; [exact Hstatus|exact Htotal].
Defined.

Lemma X7_one_bad_record_empties_the_ledger_witness :
  fromisoformat Sample.lib "yesterday" = None ∧
  fromisoformat Sample.lib "0" = Some 0 ∧
  LoopProtector.check "9f2c"
    (LoopProtector.init Sample.lib 1000000 (Stored Sample.stored_ledger)) =
    Some ("/tmp/berlin_mcp/filled_forms/out.pdf", "0a1b2c3d4e5f") ∧
  LoopProtector.check "9f2c"
    (LoopProtector.init Sample.lib 1000000 (Stored Sample2.damaged_ledger)) = None.
Proof.
  split; [reflexivity|]. split; [reflexivity|]. split; [vm_compute; reflexivity|].
  refine (proj2 (X7_one_bad_record_empties_the_ledger Sample.lib 1000000
                   Sample2.damaged_ledger "77aa"
                   {| LoopProtector.timestamp := "yesterday";
                      LoopProtector.path := "/tmp/berlin_mcp/filled_forms/old.pdf";
                      LoopProtector.file_id := "ffeeddccbbaa" |} _ eq_refl) "9f2c").
  vm_compute. reflexivity.
Defined.

Lemma X8_load_is_monotone_witness :
  (1000000 ≤ 2000000)%Z ∧
  LoopProtector._load Sample.lib 1000000
    (Stored (LoopProtector._load Sample.lib 1000000 (Stored Sample.stored_ledger))) =
    LoopProtector._load Sample.lib 1000000 (Stored Sample.stored_ledger).
Proof.
  assert (1000000 ≤ 2000000)%Z as Hle by (vm_compute; discriminate).
  split; [exact Hle|].
  exact (proj2 (X8_load_is_monotone Sample.lib 1000000 2000000
                  (Stored Sample.stored_ledger) Hle)).
Defined.

Lemma X9_saved_record_lives_one_day_witness :
  timestamps_parse Sample.lib (LoopProtector.hashes (_protector Sample.fresh)) ∧
  fromisoformat Sample.lib (isoformat Sample.lib 1000000) = Some 1000000 ∧
  let saved :=
    LoopProtector.save Sample.lib 1000000 "9f2c" "/tmp/berlin_mcp/filled_forms/out.pdf"
      "0a1b2c3d4e5f" (_protector Sample.fresh) in
  LoopProtector.check "9f2c"
    (LoopProtector.init Sample.lib (seconds 3600) (LoopProtector.ledger_file saved)) =
    Some ("/tmp/berlin_mcp/filled_forms/out.pdf", "0a1b2c3d4e5f") ∧
  LoopProtector.check "9f2c"
    (LoopProtector.init Sample.lib (seconds (25 * 3600)) (LoopProtector.ledger_file saved)) =
    None.
Proof.
  assert (timestamps_parse Sample.lib (LoopProtector.hashes (_protector Sample.fresh)))
    as Hparse by apply map_Forall_empty.
  assert (fromisoformat Sample.lib (isoformat Sample.lib 1000000) = Some 1000000) as Hiso
    by (vm_compute; reflexivity).
  split; [exact Hparse|]. split; [exact Hiso|]. intros saved. split.
  - apply (X9_saved_record_lives_one_day Sample.lib 1000000 (seconds 3600) "9f2c"
             "/tmp/berlin_mcp/filled_forms/out.pdf" "0a1b2c3d4e5f" (_protector Sample.fresh)
             Hparse Hiso).
    reflexivity.
  - apply (X9_saved_record_lives_one_day Sample.lib 1000000 (seconds (25 * 3600)) "9f2c"
             "/tmp/berlin_mcp/filled_forms/out.pdf" "0a1b2c3d4e5f" (_protector Sample.fresh)
             Hparse Hiso).
    vm_compute. discriminate.
Defined.

Lemma X10_failed_call_leaves_no_trace_witness :
  let r :=
    perform_form_filling_logic Sample.lib Sample.remote (offline Sample.env)
      "https://service.berlin.de/form.pdf" [("Nachname", "Mustermann")] (Some "out")
      false false Sample.fresh in
  r.2 = Failed "Internal error during form filling: All connection attempts failed" ∧
  status r.2 ≠ Some "COMPLETED" ∧
  _protector r.1 = _protector Sample.fresh ∧
  _file_sync r.1 = _file_sync Sample.fresh ∧
  fs r.1 !! "/tmp/berlin_mcp/filled_forms/out.pdf" = None.
Proof.
  intros r.
  assert (status r.2 ≠ Some "COMPLETED") as Hfailed by (vm_compute; discriminate).
  split; [vm_compute; reflexivity|]. split; [exact Hfailed|].
  destruct (X10_failed_call_leaves_no_trace Sample.lib Sample.remote (offline Sample.env)
              "https://service.berlin.de/form.pdf" [("Nachname", "Mustermann")]
              (Some "out") false false Sample.fresh Hfailed)
    as (Hledger & Hmanifest & Hfs).
  split; [exact Hledger|]. split; [exact Hmanifest|].
  refine (eq_trans (Hfs "/tmp/berlin_mcp/filled_forms/out.pdf" _) eq_refl).
  vm_compute. discriminate.
Defined.

Lemma X11_forced_recompute_reanchors_witness :
  let forced :=
    perform_form_filling_logic Sample.lib Sample.remote Sample.env
      "https://service.berlin.de/form.pdf" [("Nachname", "Mustermann")] (Some "out")
      false true Sample.fresh in
  status forced.2 = Some "COMPLETED" ∧
  status
    (perform_form_filling_logic Sample.lib Sample.remote (offline Sample.env)
       "https://service.berlin.de/form.pdf" [("Nachname", "Mustermann")] None true
       false forced.1).2 = Some "ALREADY_COMPLETED" ∧
  LoopProtector.check "9f2c" (_protector forced.1) = None.
Proof.
  intros forced.
  assert (status forced.2 = Some "COMPLETED") as Hdone by (vm_compute; reflexivity).
  split; [exact Hdone|].
  destruct (X11_forced_recompute_reanchors Sample.lib Sample.remote Sample.env
              "https://service.berlin.de/form.pdf" [("Nachname", "Mustermann")]
              (Some "out") false Sample.fresh Hdone)
    as (saved_path & file_id & _ & _ & Hsecond & Hothers).
  split.
  - exact (f_equal (λ r, status r.2) (Hsecond (offline Sample.env) None true)).
  - refine (eq_trans (Hothers "9f2c" _) eq_refl). vm_compute. discriminate.
Defined.

Lemma X12_cached_form_needs_no_server_witness :
  let w :=
    (analyze_form_for_filling_logic Sample.lib Sample.remote Sample.env Sample2.env2
       "https://service.berlin.de/form.pdf" Sample.fresh).1 in
  exists_ (fs w) (cached_form_path Sample.lib Sample.remote
                    "https://service.berlin.de/form.pdf") = true ∧
  perform_form_filling_logic Sample.lib Sample.remote Sample.env
    "https://service.berlin.de/form.pdf" [("Nachname", "Mustermann")] (Some "out")
    false false w =
  perform_form_filling_logic Sample.lib Sample.remote (offline Sample.env)
    "https://service.berlin.de/form.pdf" [("Nachname", "Mustermann")] (Some "out")
    false false w.
Proof.
  intros w.
  assert (exists_ (fs w) (cached_form_path Sample.lib Sample.remote
                            "https://service.berlin.de/form.pdf") = true) as Hcached
    by (vm_compute; reflexivity).
  split; [exact Hcached|].
  exact (X12_cached_form_needs_no_server Sample.lib Sample.remote Sample.env
           "https://service.berlin.de/form.pdf" [("Nachname", "Mustermann")] (Some "out")
           false false w Hcached).
Defined.

Lemma X13_output_name_has_one_extension_witness :
  endswith "Anmeldung.pdf" ".pdf" = true ∧
  output_name Sample.lib 1000000 (Some "Anmeldung.pdf") = "Anmeldung.pdf" ∧
  endswith (output_name Sample.lib 1000000 (Some "Anmeldung")) ".pdf" = true.
Proof.
  split; [reflexivity|]. split.
  - exact (proj2 (X13_output_name_has_one_extension Sample.lib 1000000
                    (Some "Anmeldung.pdf")) "Anmeldung.pdf" eq_refl eq_refl).
  - exact (proj1 (X13_output_name_has_one_extension Sample.lib 1000000 (Some "Anmeldung"))).
Defined.

Lemma X15_matcher_changes_values_only_witness :
  ∃ st,
    match_and_fill Sample.lib Sample.env [("Nachname", "Mustermann")] Sample.form = Ok st ∧
    Forall2 same_shape Sample.form (doc st) ∧
    (field_value <$> doc st) = [EmptyString; "Mustermann"] ∧
    doc st !! 0%nat = Sample.form !! 0%nat.
Proof.
  run_call st Hrun.
  destruct (X15_matcher_changes_values_only Sample.lib Sample.env
              [("Nachname", "Mustermann")] Sample.form _ Hrun) as (Hshape & _ & Hrest).
  split; [exact Hshape|]. split; [reflexivity|].
  apply (Hrest 0%nat); [reflexivity|].
  intros u assigned Hu Hassigned.
  apply list_elem_of_singleton in Hu. subst u.
  injection Hassigned as <-. discriminate.
Defined.

Lemma X16_no_key_is_dropped_witness :
  ∃ st,
    match_and_fill Sample.lib Sample.env
      [("Nachname", "Mustermann"); ("Telefon", "030 115")] Sample.form = Ok st ∧
    filled_count st = length (updates st) ∧
    ("Telefon" ∈ unmatched_keys st ∨ is_Some (dict_get "Telefon" (matched_fields_info st))).
Proof.
  run_call st Hrun.
  destruct (X16_no_key_is_dropped Sample.lib Sample.env
              [("Nachname", "Mustermann"); ("Telefon", "030 115")] Sample.form _ Hrun)
    as (Hcount & _ & Hkeys & _).
  split; [exact Hcount|]. apply Hkeys.
  apply list_elem_of_further, list_elem_of_here.
Defined.

Lemma X17_exact_name_wins_witness :
  ∃ st,
    match_and_fill Sample.lib Sample.env
      [("name", "Erika"); ("Nachname", "Mustermann")] Sample.form = Ok st ∧
    dict_get "Nachname" (matched_fields_info st) = Some "Nachname" ∧
    ("Nachname" ∉ unmatched_keys st) ∧
    (field_value <$> doc st) = [EmptyString; "Erika"].
Proof.
  run_call st Hrun.
  destruct (X17_exact_name_wins Sample.lib Sample.env
              [("name", "Erika"); ("Nachname", "Mustermann")] Sample.form _ "Nachname"
              "Mustermann"
              {| field_name := "Nachname"; field_label := "Familienname";
                 field_type := PDF_WIDGET_TYPE_TEXT; field_value := EmptyString |}
              (λ s k, elem_of_elements s k) Hrun)
    as (Hmapped & Hnot & _).
  - reflexivity.
  - apply list_elem_of_further, list_elem_of_here.
  - reflexivity.
  - reflexivity.
  - split; [exact Hmapped|]. split; [exact Hnot|reflexivity].
Defined.

Lemma X19_download_touches_one_file_witness :
  fs Sample.serving !! filled_form_path Sample.lib Sample.remote "../../etc/passwd" = None ∧
  download_filled_form_logic Sample.lib Sample.remote Sample.env "../../etc/passwd" None
    false true Sample.serving =
    (Sample.serving, DownloadFailed "File '../../etc/passwd' not found on server.").
Proof.
  assert (fs Sample.serving !! filled_form_path Sample.lib Sample.remote "../../etc/passwd" =
            None) as Habsent by (vm_compute; reflexivity).
  split; [exact Habsent|].
  exact (proj2 (proj2 (proj2 (X19_download_touches_one_file Sample.lib Sample.remote
                                Sample.env "../../etc/passwd" None false true
                                Sample.serving))) Habsent).
Defined.

Lemma X20_preview_and_local_keep_the_file_witness :
  IS_CLOUD Sample2.local = false ∧ IS_REMOTE Sample2.local = false ∧
  let w := with_fs {[ "/home/user/filled_forms/out.pdf" := File "%PDF-filled" ]}
             Sample.fresh in
  let r := download_filled_form_logic Sample.lib Sample2.local Sample.env "out.pdf"
             (Some true) false true w in
  download_success r.2 = true ∧ content_base64 r.2 = None ∧ r.1 = w.
Proof.
  split; [reflexivity|]. split; [reflexivity|]. intros w r.
  split; [vm_compute; reflexivity|].
  apply (X20_preview_and_local_keep_the_file Sample.lib Sample2.local Sample.env "out.pdf"
           (Some true) false true w).
  right. split; reflexivity.
Defined.

Lemma X21_cloud_download_reads_once_witness :
  IS_CLOUD Sample.remote = true ∧
  fs Sample.serving !! filled_form_path Sample.lib Sample.remote "out.pdf" =
    Some (File "%PDF-filled") ∧
  let first := download_filled_form_logic Sample.lib Sample.remote Sample.env "out.pdf"
                 None false false Sample.serving in
  content_base64 first.2 = Some "%PDF-filled" ∧
  (download_filled_form_logic Sample.lib Sample.remote Sample.env "out.pdf" None false
     false first.1).2 = DownloadFailed "File 'out.pdf' not found on server.".
Proof.
  split; [reflexivity|]. split; [reflexivity|]. intros first.
  destruct (X21_cloud_download_reads_once Sample.lib Sample.remote Sample.env "out.pdf"
              false Sample.serving "%PDF-filled" eq_refl eq_refl)
    as (Hcontent & _ & Hlater).
  - left. vm_compute. discriminate.
  - split; [exact Hcontent|]. exact (Hlater Sample.env None false false).
Defined.

Lemma X22_deletion_is_final_witness :
  fs Sample.serving !! filled_form_path Sample.lib Sample.remote "out.pdf" =
    Some (File "%PDF-filled") ∧
  let deleted := delete_filled_form Sample.lib Sample.remote "out.pdf" Sample.serving in
  deleted.2 = ToolOk "Deleted." ∧
  (delete_filled_form Sample.lib Sample.remote "out.pdf" deleted.1).2 =
    ToolError "Not found.".
Proof.
  split; [reflexivity|]. intros deleted.
  destruct (X22_deletion_is_final Sample.lib Sample.remote "out.pdf" Sample.serving
              "%PDF-filled" eq_refl) as (Hdeleted & Hagain & _).
  split; [exact Hdeleted|exact Hagain].
Defined.

Lemma X23_ledger_outlives_artifact_witness :
  let call :=
    perform_form_filling_logic Sample.lib Sample.remote Sample.env
      "https://service.berlin.de/form.pdf" [("Nachname", "Mustermann")] (Some "out")
      false false in
  let first := call Sample.fresh in
  let deleted := delete_filled_form Sample.lib Sample.remote "out.pdf" first.1 in
  status first.2 = Some "COMPLETED" ∧
  result_saved_path first.2 = Some (filled_form_path Sample.lib Sample.remote "out.pdf") ∧
  deleted.2 = ToolOk "Deleted." ∧
  status (call deleted.1).2 = Some "ALREADY_COMPLETED" ∧
  fs (call deleted.1).1 !! filled_form_path Sample.lib Sample.remote "out.pdf" = None.
Proof.
  intros call first deleted.
  assert (status first.2 = Some "COMPLETED") as Hdone by (vm_compute; reflexivity).
  assert (result_saved_path first.2 =
            Some (filled_form_path Sample.lib Sample.remote "out.pdf")) as Hpath
    by (vm_compute; reflexivity).
  split; [exact Hdone|]. split; [exact Hpath|].
  destruct (X23_ledger_outlives_artifact Sample.lib Sample.remote Sample.env
              "https://service.berlin.de/form.pdf" [("Nachname", "Mustermann")]
              (Some "out") false false Sample.fresh "out.pdf" Hdone Hpath)
    as (Hdeleted & Hagain).
  split; [exact Hdeleted|].
  destruct (Hagain Sample.env (Some "out") false) as (Hstatus & _ & Hgone).
  split; [exact Hstatus|exact Hgone].
Defined.

Lemma X24_forms_resource_witness :
  IS_CLOUD Sample.remote || IS_REMOTE Sample.remote = true ∧
  fs Sample.serving !! filled_form_path Sample.lib Sample.remote "out.pdf" =
    Some (File "%PDF-filled") ∧
  let r := get_filled_form_resource Sample.lib Sample.remote Sample.env "out.pdf"
             Sample.serving in
  r.2 = describe "out.pdf" 11 (Some "%PDF-filled") ∧
  fs r.1 = delete (filled_form_path Sample.lib Sample.remote "out.pdf") (fs Sample.serving).
Proof.
  split; [reflexivity|]. split; [reflexivity|]. intros r.
  pose proof (X24_forms_resource Sample.lib Sample.remote Sample.env "out.pdf"
                Sample.serving "%PDF-filled" eq_refl eq_refl) as Hresource.
  cbv zeta in Hresource.
  destruct (decide (Z.of_nat (String.length "%PDF-filled") ≤ SAFE_THRESHOLD)%Z)
    as [_|Hlarge].
  - exact Hresource.
  - exfalso. apply Hlarge. vm_compute. discriminate.
Defined.

Lemma X25_sync_resource_follows_manifest_witness :
  let first :=
    perform_form_filling_logic Sample.lib Sample.remote Sample.env
      "https://service.berlin.de/form.pdf" [("Nachname", "Mustermann")] (Some "out")
      false false Sample.fresh in
  status first.2 = Some "COMPLETED" ∧
  result_saved_path first.2 = Some (filled_form_path Sample.lib Sample.remote "out.pdf") ∧
  ∃ file_id,
    result_file_id first.2 = Some file_id ∧
    sync_file_to_client Sample.lib file_id first.1 =
      JObj [("success", JBool true); ("file_id", JStr file_id);
            ("content_base64", JStr "%PDF-filled")] ∧
    sync_file_to_client Sample.lib file_id
      (delete_filled_form Sample.lib Sample.remote "out.pdf" first.1).1 =
      JObj [("success", JBool true); ("file_id", JStr file_id);
            ("content_base64", JNull)].
Proof.
  intros first.
  assert (status first.2 = Some "COMPLETED") as Hdone by (vm_compute; reflexivity).
  assert (result_saved_path first.2 =
            Some (filled_form_path Sample.lib Sample.remote "out.pdf")) as Hpath
    by (vm_compute; reflexivity).
  split; [exact Hdone|]. split; [exact Hpath|].
  destruct (X25_sync_resource_follows_manifest Sample.lib Sample.remote Sample.env
              "https://service.berlin.de/form.pdf" [("Nachname", "Mustermann")]
              (Some "out") false false Sample.fresh "out.pdf" Hdone Hpath)
    as (file_id & saved & Hid & Hsaved & Hsync & Hgone).
  assert (saved = "%PDF-filled") as ->.
  { vm_compute in Hsaved. injection Hsaved as <-. reflexivity. }
  exists file_id. split; [exact Hid|]. split; [exact Hsync|exact Hgone].
Defined.

Lemma X26_preview_page_bounds_witness :
  fs Sample.serving !! filled_form_path Sample.lib Sample.remote "out.pdf" =
    Some (File "%PDF-filled") ∧
  fitz_open Sample.env "%PDF-filled" = Ok Sample.form ∧
  page_count Sample2.env2 "%PDF-filled" = 2 ∧
  get_form_visual_preview_logic Sample.lib Sample.remote Sample.env Sample2.env2
    "out.pdf" 2 Sample.serving = PreviewFailed "Page index 2 out of range (0-1)." ∧
  ∃ message,
    get_form_visual_preview_logic Sample.lib Sample.remote Sample.env Sample2.env2
      "out.pdf" 1 Sample.serving =
      Rendered "out.pdf" 2 2 "JFIF-page-1" "jpg" 11 message.
Proof.
  split; [reflexivity|]. split; [reflexivity|]. split; [reflexivity|]. split.
  - pose proof (X26_preview_page_bounds Sample.lib Sample.remote Sample.env Sample2.env2
                  "out.pdf" 2 Sample.serving "%PDF-filled" Sample.form eq_refl eq_refl)
      as Hpreview.
    cbv zeta in Hpreview.
    destruct (decide (0 ≤ 2 < page_count Sample2.env2 "%PDF-filled")%Z) as [[_ Hin]|_].
    + exfalso. vm_compute in Hin. discriminate Hin.
    + exact Hpreview.
  - pose proof (X26_preview_page_bounds Sample.lib Sample.remote Sample.env Sample2.env2
                  "out.pdf" 1 Sample.serving "%PDF-filled" Sample.form eq_refl eq_refl)
      as Hpreview.
    cbv zeta in Hpreview.
    destruct (decide (0 ≤ 1 < page_count Sample2.env2 "%PDF-filled")%Z) as [_|Hout].
    + destruct Hpreview as (message & Hrendered & _). exists message. exact Hrendered.
    + exfalso. apply Hout. split; vm_compute; discriminate.
Defined.

Lemma X27_analysis_shares_the_cache_witness :
  let a := analyze_form_for_filling_logic Sample.lib Sample.remote Sample.env Sample2.env2
             "https://service.berlin.de/form.pdf" Sample.fresh in
  analysis_success a.2 = true ∧
  exists_ (fs a.1) (cached_form_path Sample.lib Sample.remote
                      "https://service.berlin.de/form.pdf") = true ∧
  ∀ url total fields instructions,
    a.2 = Analyzed url total fields instructions →
    url = "https://service.berlin.de/form.pdf" ∧ total = Z.of_nat (length fields) ∧
    (0 < total)%Z.
Proof.
  intros a.
  destruct (X27_analysis_shares_the_cache Sample.lib Sample.remote Sample.env Sample2.env2
              "https://service.berlin.de/form.pdf" Sample.fresh)
    as (_ & _ & Hcache & Hfields).
  split; [vm_compute; reflexivity|]. split; [|exact Hfields].
  apply Hcache. intros e He. vm_compute in He. discriminate He.
Defined.

Lemma X29_online_listing_is_sound_witness :
  ∃ results,
    (find_online_services Sample.lib Sample2.env2 0 1000000 (Ok Sample2.catalog) 1 20
       (ApiClient._cache Absent)).2 = Listing results ∧
    length results = 2%nat ∧
    (length results ≤ 50)%nat ∧
    (Z.of_nat (length results) ≤ clamp_page_size 20)%Z.
Proof.
  destruct (find_online_services Sample.lib Sample2.env2 0 1000000 (Ok Sample2.catalog)
              1 20 (ApiClient._cache Absent)).2 as [results|e] eqn:Hrun;
    [|exfalso; vm_compute in Hrun; discriminate Hrun].
  exists results. split; [reflexivity|].
  destruct (X29_online_listing_is_sound Sample.lib Sample2.env2 0 1000000
              (Ok Sample2.catalog) 1 20 (ApiClient._cache Absent) results Hrun)
    as (Hmost & Hpage & _).
  split; [|split; [exact Hmost|exact Hpage]].
  vm_compute in Hrun. injection Hrun as <-. reflexivity.
Defined.

End more_examples.
